(** * Level tools and Langfuse helpers: a shallow embedding

    The development follows three Python files:
    - [tools/engineer.py] and [tools/investor.py]: the helpers
      [_emit_event], [_emit_citation], [_make_api_request] and the
      methods of the class [Tools];
    - [backend/open_webui/utils/langfuse.py]: [get_langfuse_client],
      [get_trace_url_from_span] and [get_prompt].

    Python values are modelled by the type [pyval], strings by lists of
    Unicode code points, exceptions by an explicit outcome type, and the
    two effects of the tools (calling the event emitter and calling the
    [requests] library) by a state monad over the trace of these calls. *)

From Stdlib Require Import ZArith NArith List String Ascii Bool Lia DecimalString.
Import ListNotations.

Set Implicit Arguments.

(** ** Strings *)

(** A Python [str] is a sequence of code points: [len] and slicing count
    code points, not bytes. *)
Definition char := N.
Definition str := list char.

(** Decoding of the UTF-8 bytes of a literal: [more] continuation bytes
    are still expected for the code point accumulated in [acc]. *)
Fixpoint utf8 (bs : list N) (acc : N) (more : nat) : str :=
  match bs with
  | [] => []
  | b :: bs' =>
      match more with
      | S m =>
          let acc' := (acc * 64 + b mod 64)%N in
          match m with
          | O => acc' :: utf8 bs' 0%N O
          | S _ => utf8 bs' acc' m
          end
      | O =>
          if (b <? 128)%N then b :: utf8 bs' 0%N O
          else if (b <? 224)%N then utf8 bs' (b mod 32)%N 1
          else if (b <? 240)%N then utf8 bs' (b mod 16)%N 2
          else utf8 bs' (b mod 8)%N 3
      end
  end.

(** [u "..."] is the Python literal with the same text. *)
Definition u (s : string) : str :=
  utf8 (map N_of_ascii (list_ascii_of_string s)) 0%N O.

Fixpoint str_eqb (a b : str) : bool :=
  match a, b with
  | [], [] => true
  | x :: a', y :: b' => N.eqb x y && str_eqb a' b'
  | _, _ => false
  end.

(** The code points that [str.upper()] changes, each with the code points
    it becomes (the full case mapping of Unicode 14.0.0, the character
    database of CPython 3.11). *)
Definition uppercase : list (char * str) :=
  [(97, [65]); (98, [66]); (99, [67]); (100, [68]); (101, [69]); (102, [70]);
   (103, [71]); (104, [72]); (105, [73]); (106, [74]); (107, [75]);
   (108, [76]); (109, [77]); (110, [78]); (111, [79]); (112, [80]);
   (113, [81]); (114, [82]); (115, [83]); (116, [84]); (117, [85]);
   (118, [86]); (119, [87]); (120, [88]); (121, [89]); (122, [90]);
   (181, [924]); (223, [83; 83]); (224, [192]); (225, [193]); (226, [194]);
   (227, [195]); (228, [196]); (229, [197]); (230, [198]); (231, [199]);
   (232, [200]); (233, [201]); (234, [202]); (235, [203]); (236, [204]);
   (237, [205]); (238, [206]); (239, [207]); (240, [208]); (241, [209]);
   (242, [210]); (243, [211]); (244, [212]); (245, [213]); (246, [214]);
   (248, [216]); (249, [217]); (250, [218]); (251, [219]); (252, [220]);
   (253, [221]); (254, [222]); (255, [376]); (257, [256]); (259, [258]);
   (261, [260]); (263, [262]); (265, [264]); (267, [266]); (269, [268]);
   (271, [270]); (273, [272]); (275, [274]); (277, [276]); (279, [278]);
   (281, [280]); (283, [282]); (285, [284]); (287, [286]); (289, [288]);
   (291, [290]); (293, [292]); (295, [294]); (297, [296]); (299, [298]);
   (301, [300]); (303, [302]); (305, [73]); (307, [306]); (309, [308]);
   (311, [310]); (314, [313]); (316, [315]); (318, [317]); (320, [319]);
   (322, [321]); (324, [323]); (326, [325]); (328, [327]); (329, [700; 78]);
   (331, [330]); (333, [332]); (335, [334]); (337, [336]); (339, [338]);
   (341, [340]); (343, [342]); (345, [344]); (347, [346]); (349, [348]);
   (351, [350]); (353, [352]); (355, [354]); (357, [356]); (359, [358]);
   (361, [360]); (363, [362]); (365, [364]); (367, [366]); (369, [368]);
   (371, [370]); (373, [372]); (375, [374]); (378, [377]); (380, [379]);
   (382, [381]); (383, [83]); (384, [579]); (387, [386]); (389, [388]);
   (392, [391]); (396, [395]); (402, [401]); (405, [502]); (409, [408]);
   (410, [573]); (414, [544]); (417, [416]); (419, [418]); (421, [420]);
   (424, [423]); (429, [428]); (432, [431]); (436, [435]); (438, [437]);
   (441, [440]); (445, [444]); (447, [503]); (453, [452]); (454, [452]);
   (456, [455]); (457, [455]); (459, [458]); (460, [458]); (462, [461]);
   (464, [463]); (466, [465]); (468, [467]); (470, [469]); (472, [471]);
   (474, [473]); (476, [475]); (477, [398]); (479, [478]); (481, [480]);
   (483, [482]); (485, [484]); (487, [486]); (489, [488]); (491, [490]);
   (493, [492]); (495, [494]); (496, [74; 780]); (498, [497]); (499, [497]);
   (501, [500]); (505, [504]); (507, [506]); (509, [508]); (511, [510]);
   (513, [512]); (515, [514]); (517, [516]); (519, [518]); (521, [520]);
   (523, [522]); (525, [524]); (527, [526]); (529, [528]); (531, [530]);
   (533, [532]); (535, [534]); (537, [536]); (539, [538]); (541, [540]);
   (543, [542]); (547, [546]); (549, [548]); (551, [550]); (553, [552]);
   (555, [554]); (557, [556]); (559, [558]); (561, [560]); (563, [562]);
   (572, [571]); (575, [11390]); (576, [11391]); (578, [577]); (583, [582]);
   (585, [584]); (587, [586]); (589, [588]); (591, [590]); (592, [11375]);
   (593, [11373]); (594, [11376]); (595, [385]); (596, [390]); (598, [393]);
   (599, [394]); (601, [399]); (603, [400]); (604, [42923]); (608, [403]);
   (609, [42924]); (611, [404]); (613, [42893]); (614, [42922]); (616, [407]);
   (617, [406]); (618, [42926]); (619, [11362]); (620, [42925]); (623, [412]);
   (625, [11374]); (626, [413]); (629, [415]); (637, [11364]); (640, [422]);
   (642, [42949]); (643, [425]); (647, [42929]); (648, [430]); (649, [580]);
   (650, [433]); (651, [434]); (652, [581]); (658, [439]); (669, [42930]);
   (670, [42928]); (837, [921]); (881, [880]); (883, [882]); (887, [886]);
   (891, [1021]); (892, [1022]); (893, [1023]); (912, [921; 776; 769]);
   (940, [902]); (941, [904]); (942, [905]); (943, [906]);
   (944, [933; 776; 769]); (945, [913]); (946, [914]); (947, [915]);
   (948, [916]); (949, [917]); (950, [918]); (951, [919]); (952, [920]);
   (953, [921]); (954, [922]); (955, [923]); (956, [924]); (957, [925]);
   (958, [926]); (959, [927]); (960, [928]); (961, [929]); (962, [931]);
   (963, [931]); (964, [932]); (965, [933]); (966, [934]); (967, [935]);
   (968, [936]); (969, [937]); (970, [938]); (971, [939]); (972, [908]);
   (973, [910]); (974, [911]); (976, [914]); (977, [920]); (981, [934]);
   (982, [928]); (983, [975]); (985, [984]); (987, [986]); (989, [988]);
   (991, [990]); (993, [992]); (995, [994]); (997, [996]); (999, [998]);
   (1001, [1000]); (1003, [1002]); (1005, [1004]); (1007, [1006]);
   (1008, [922]); (1009, [929]); (1010, [1017]); (1011, [895]); (1013, [917]);
   (1016, [1015]); (1019, [1018]); (1072, [1040]); (1073, [1041]);
   (1074, [1042]); (1075, [1043]); (1076, [1044]); (1077, [1045]);
   (1078, [1046]); (1079, [1047]); (1080, [1048]); (1081, [1049]);
   (1082, [1050]); (1083, [1051]); (1084, [1052]); (1085, [1053]);
   (1086, [1054]); (1087, [1055]); (1088, [1056]); (1089, [1057]);
   (1090, [1058]); (1091, [1059]); (1092, [1060]); (1093, [1061]);
   (1094, [1062]); (1095, [1063]); (1096, [1064]); (1097, [1065]);
   (1098, [1066]); (1099, [1067]); (1100, [1068]); (1101, [1069]);
   (1102, [1070]); (1103, [1071]); (1104, [1024]); (1105, [1025]);
   (1106, [1026]); (1107, [1027]); (1108, [1028]); (1109, [1029]);
   (1110, [1030]); (1111, [1031]); (1112, [1032]); (1113, [1033]);
   (1114, [1034]); (1115, [1035]); (1116, [1036]); (1117, [1037]);
   (1118, [1038]); (1119, [1039]); (1121, [1120]); (1123, [1122]);
   (1125, [1124]); (1127, [1126]); (1129, [1128]); (1131, [1130]);
   (1133, [1132]); (1135, [1134]); (1137, [1136]); (1139, [1138]);
   (1141, [1140]); (1143, [1142]); (1145, [1144]); (1147, [1146]);
   (1149, [1148]); (1151, [1150]); (1153, [1152]); (1163, [1162]);
   (1165, [1164]); (1167, [1166]); (1169, [1168]); (1171, [1170]);
   (1173, [1172]); (1175, [1174]); (1177, [1176]); (1179, [1178]);
   (1181, [1180]); (1183, [1182]); (1185, [1184]); (1187, [1186]);
   (1189, [1188]); (1191, [1190]); (1193, [1192]); (1195, [1194]);
   (1197, [1196]); (1199, [1198]); (1201, [1200]); (1203, [1202]);
   (1205, [1204]); (1207, [1206]); (1209, [1208]); (1211, [1210]);
   (1213, [1212]); (1215, [1214]); (1218, [1217]); (1220, [1219]);
   (1222, [1221]); (1224, [1223]); (1226, [1225]); (1228, [1227]);
   (1230, [1229]); (1231, [1216]); (1233, [1232]); (1235, [1234]);
   (1237, [1236]); (1239, [1238]); (1241, [1240]); (1243, [1242]);
   (1245, [1244]); (1247, [1246]); (1249, [1248]); (1251, [1250]);
   (1253, [1252]); (1255, [1254]); (1257, [1256]); (1259, [1258]);
   (1261, [1260]); (1263, [1262]); (1265, [1264]); (1267, [1266]);
   (1269, [1268]); (1271, [1270]); (1273, [1272]); (1275, [1274]);
   (1277, [1276]); (1279, [1278]); (1281, [1280]); (1283, [1282]);
   (1285, [1284]); (1287, [1286]); (1289, [1288]); (1291, [1290]);
   (1293, [1292]); (1295, [1294]); (1297, [1296]); (1299, [1298]);
   (1301, [1300]); (1303, [1302]); (1305, [1304]); (1307, [1306]);
   (1309, [1308]); (1311, [1310]); (1313, [1312]); (1315, [1314]);
   (1317, [1316]); (1319, [1318]); (1321, [1320]); (1323, [1322]);
   (1325, [1324]); (1327, [1326]); (1377, [1329]); (1378, [1330]);
   (1379, [1331]); (1380, [1332]); (1381, [1333]); (1382, [1334]);
   (1383, [1335]); (1384, [1336]); (1385, [1337]); (1386, [1338]);
   (1387, [1339]); (1388, [1340]); (1389, [1341]); (1390, [1342]);
   (1391, [1343]); (1392, [1344]); (1393, [1345]); (1394, [1346]);
   (1395, [1347]); (1396, [1348]); (1397, [1349]); (1398, [1350]);
   (1399, [1351]); (1400, [1352]); (1401, [1353]); (1402, [1354]);
   (1403, [1355]); (1404, [1356]); (1405, [1357]); (1406, [1358]);
   (1407, [1359]); (1408, [1360]); (1409, [1361]); (1410, [1362]);
   (1411, [1363]); (1412, [1364]); (1413, [1365]); (1414, [1366]);
   (1415, [1333; 1362]); (4304, [7312]); (4305, [7313]); (4306, [7314]);
   (4307, [7315]); (4308, [7316]); (4309, [7317]); (4310, [7318]);
   (4311, [7319]); (4312, [7320]); (4313, [7321]); (4314, [7322]);
   (4315, [7323]); (4316, [7324]); (4317, [7325]); (4318, [7326]);
   (4319, [7327]); (4320, [7328]); (4321, [7329]); (4322, [7330]);
   (4323, [7331]); (4324, [7332]); (4325, [7333]); (4326, [7334]);
   (4327, [7335]); (4328, [7336]); (4329, [7337]); (4330, [7338]);
   (4331, [7339]); (4332, [7340]); (4333, [7341]); (4334, [7342]);
   (4335, [7343]); (4336, [7344]); (4337, [7345]); (4338, [7346]);
   (4339, [7347]); (4340, [7348]); (4341, [7349]); (4342, [7350]);
   (4343, [7351]); (4344, [7352]); (4345, [7353]); (4346, [7354]);
   (4349, [7357]); (4350, [7358]); (4351, [7359]); (5112, [5104]);
   (5113, [5105]); (5114, [5106]); (5115, [5107]); (5116, [5108]);
   (5117, [5109]); (7296, [1042]); (7297, [1044]); (7298, [1054]);
   (7299, [1057]); (7300, [1058]); (7301, [1058]); (7302, [1066]);
   (7303, [1122]); (7304, [42570]); (7545, [42877]); (7549, [11363]);
   (7566, [42950]); (7681, [7680]); (7683, [7682]); (7685, [7684]);
   (7687, [7686]); (7689, [7688]); (7691, [7690]); (7693, [7692]);
   (7695, [7694]); (7697, [7696]); (7699, [7698]); (7701, [7700]);
   (7703, [7702]); (7705, [7704]); (7707, [7706]); (7709, [7708]);
   (7711, [7710]); (7713, [7712]); (7715, [7714]); (7717, [7716]);
   (7719, [7718]); (7721, [7720]); (7723, [7722]); (7725, [7724]);
   (7727, [7726]); (7729, [7728]); (7731, [7730]); (7733, [7732]);
   (7735, [7734]); (7737, [7736]); (7739, [7738]); (7741, [7740]);
   (7743, [7742]); (7745, [7744]); (7747, [7746]); (7749, [7748]);
   (7751, [7750]); (7753, [7752]); (7755, [7754]); (7757, [7756]);
   (7759, [7758]); (7761, [7760]); (7763, [7762]); (7765, [7764]);
   (7767, [7766]); (7769, [7768]); (7771, [7770]); (7773, [7772]);
   (7775, [7774]); (7777, [7776]); (7779, [7778]); (7781, [7780]);
   (7783, [7782]); (7785, [7784]); (7787, [7786]); (7789, [7788]);
   (7791, [7790]); (7793, [7792]); (7795, [7794]); (7797, [7796]);
   (7799, [7798]); (7801, [7800]); (7803, [7802]); (7805, [7804]);
   (7807, [7806]); (7809, [7808]); (7811, [7810]); (7813, [7812]);
   (7815, [7814]); (7817, [7816]); (7819, [7818]); (7821, [7820]);
   (7823, [7822]); (7825, [7824]); (7827, [7826]); (7829, [7828]);
   (7830, [72; 817]); (7831, [84; 776]); (7832, [87; 778]); (7833, [89; 778]);
   (7834, [65; 702]); (7835, [7776]); (7841, [7840]); (7843, [7842]);
   (7845, [7844]); (7847, [7846]); (7849, [7848]); (7851, [7850]);
   (7853, [7852]); (7855, [7854]); (7857, [7856]); (7859, [7858]);
   (7861, [7860]); (7863, [7862]); (7865, [7864]); (7867, [7866]);
   (7869, [7868]); (7871, [7870]); (7873, [7872]); (7875, [7874]);
   (7877, [7876]); (7879, [7878]); (7881, [7880]); (7883, [7882]);
   (7885, [7884]); (7887, [7886]); (7889, [7888]); (7891, [7890]);
   (7893, [7892]); (7895, [7894]); (7897, [7896]); (7899, [7898]);
   (7901, [7900]); (7903, [7902]); (7905, [7904]); (7907, [7906]);
   (7909, [7908]); (7911, [7910]); (7913, [7912]); (7915, [7914]);
   (7917, [7916]); (7919, [7918]); (7921, [7920]); (7923, [7922]);
   (7925, [7924]); (7927, [7926]); (7929, [7928]); (7931, [7930]);
   (7933, [7932]); (7935, [7934]); (7936, [7944]); (7937, [7945]);
   (7938, [7946]); (7939, [7947]); (7940, [7948]); (7941, [7949]);
   (7942, [7950]); (7943, [7951]); (7952, [7960]); (7953, [7961]);
   (7954, [7962]); (7955, [7963]); (7956, [7964]); (7957, [7965]);
   (7968, [7976]); (7969, [7977]); (7970, [7978]); (7971, [7979]);
   (7972, [7980]); (7973, [7981]); (7974, [7982]); (7975, [7983]);
   (7984, [7992]); (7985, [7993]); (7986, [7994]); (7987, [7995]);
   (7988, [7996]); (7989, [7997]); (7990, [7998]); (7991, [7999]);
   (8000, [8008]); (8001, [8009]); (8002, [8010]); (8003, [8011]);
   (8004, [8012]); (8005, [8013]); (8016, [933; 787]); (8017, [8025]);
   (8018, [933; 787; 768]); (8019, [8027]); (8020, [933; 787; 769]);
   (8021, [8029]); (8022, [933; 787; 834]); (8023, [8031]); (8032, [8040]);
   (8033, [8041]); (8034, [8042]); (8035, [8043]); (8036, [8044]);
   (8037, [8045]); (8038, [8046]); (8039, [8047]); (8048, [8122]);
   (8049, [8123]); (8050, [8136]); (8051, [8137]); (8052, [8138]);
   (8053, [8139]); (8054, [8154]); (8055, [8155]); (8056, [8184]);
   (8057, [8185]); (8058, [8170]); (8059, [8171]); (8060, [8186]);
   (8061, [8187]); (8064, [7944; 921]); (8065, [7945; 921]);
   (8066, [7946; 921]); (8067, [7947; 921]); (8068, [7948; 921]);
   (8069, [7949; 921]); (8070, [7950; 921]); (8071, [7951; 921]);
   (8072, [7944; 921]); (8073, [7945; 921]); (8074, [7946; 921]);
   (8075, [7947; 921]); (8076, [7948; 921]); (8077, [7949; 921]);
   (8078, [7950; 921]); (8079, [7951; 921]); (8080, [7976; 921]);
   (8081, [7977; 921]); (8082, [7978; 921]); (8083, [7979; 921]);
   (8084, [7980; 921]); (8085, [7981; 921]); (8086, [7982; 921]);
   (8087, [7983; 921]); (8088, [7976; 921]); (8089, [7977; 921]);
   (8090, [7978; 921]); (8091, [7979; 921]); (8092, [7980; 921]);
   (8093, [7981; 921]); (8094, [7982; 921]); (8095, [7983; 921]);
   (8096, [8040; 921]); (8097, [8041; 921]); (8098, [8042; 921]);
   (8099, [8043; 921]); (8100, [8044; 921]); (8101, [8045; 921]);
   (8102, [8046; 921]); (8103, [8047; 921]); (8104, [8040; 921]);
   (8105, [8041; 921]); (8106, [8042; 921]); (8107, [8043; 921]);
   (8108, [8044; 921]); (8109, [8045; 921]); (8110, [8046; 921]);
   (8111, [8047; 921]); (8112, [8120]); (8113, [8121]); (8114, [8122; 921]);
   (8115, [913; 921]); (8116, [902; 921]); (8118, [913; 834]);
   (8119, [913; 834; 921]); (8124, [913; 921]); (8126, [921]);
   (8130, [8138; 921]); (8131, [919; 921]); (8132, [905; 921]);
   (8134, [919; 834]); (8135, [919; 834; 921]); (8140, [919; 921]);
   (8144, [8152]); (8145, [8153]); (8146, [921; 776; 768]);
   (8147, [921; 776; 769]); (8150, [921; 834]); (8151, [921; 776; 834]);
   (8160, [8168]); (8161, [8169]); (8162, [933; 776; 768]);
   (8163, [933; 776; 769]); (8164, [929; 787]); (8165, [8172]);
   (8166, [933; 834]); (8167, [933; 776; 834]); (8178, [8186; 921]);
   (8179, [937; 921]); (8180, [911; 921]); (8182, [937; 834]);
   (8183, [937; 834; 921]); (8188, [937; 921]); (8526, [8498]);
   (8560, [8544]); (8561, [8545]); (8562, [8546]); (8563, [8547]);
   (8564, [8548]); (8565, [8549]); (8566, [8550]); (8567, [8551]);
   (8568, [8552]); (8569, [8553]); (8570, [8554]); (8571, [8555]);
   (8572, [8556]); (8573, [8557]); (8574, [8558]); (8575, [8559]);
   (8580, [8579]); (9424, [9398]); (9425, [9399]); (9426, [9400]);
   (9427, [9401]); (9428, [9402]); (9429, [9403]); (9430, [9404]);
   (9431, [9405]); (9432, [9406]); (9433, [9407]); (9434, [9408]);
   (9435, [9409]); (9436, [9410]); (9437, [9411]); (9438, [9412]);
   (9439, [9413]); (9440, [9414]); (9441, [9415]); (9442, [9416]);
   (9443, [9417]); (9444, [9418]); (9445, [9419]); (9446, [9420]);
   (9447, [9421]); (9448, [9422]); (9449, [9423]); (11312, [11264]);
   (11313, [11265]); (11314, [11266]); (11315, [11267]); (11316, [11268]);
   (11317, [11269]); (11318, [11270]); (11319, [11271]); (11320, [11272]);
   (11321, [11273]); (11322, [11274]); (11323, [11275]); (11324, [11276]);
   (11325, [11277]); (11326, [11278]); (11327, [11279]); (11328, [11280]);
   (11329, [11281]); (11330, [11282]); (11331, [11283]); (11332, [11284]);
   (11333, [11285]); (11334, [11286]); (11335, [11287]); (11336, [11288]);
   (11337, [11289]); (11338, [11290]); (11339, [11291]); (11340, [11292]);
   (11341, [11293]); (11342, [11294]); (11343, [11295]); (11344, [11296]);
   (11345, [11297]); (11346, [11298]); (11347, [11299]); (11348, [11300]);
   (11349, [11301]); (11350, [11302]); (11351, [11303]); (11352, [11304]);
   (11353, [11305]); (11354, [11306]); (11355, [11307]); (11356, [11308]);
   (11357, [11309]); (11358, [11310]); (11359, [11311]); (11361, [11360]);
   (11365, [570]); (11366, [574]); (11368, [11367]); (11370, [11369]);
   (11372, [11371]); (11379, [11378]); (11382, [11381]); (11393, [11392]);
   (11395, [11394]); (11397, [11396]); (11399, [11398]); (11401, [11400]);
   (11403, [11402]); (11405, [11404]); (11407, [11406]); (11409, [11408]);
   (11411, [11410]); (11413, [11412]); (11415, [11414]); (11417, [11416]);
   (11419, [11418]); (11421, [11420]); (11423, [11422]); (11425, [11424]);
   (11427, [11426]); (11429, [11428]); (11431, [11430]); (11433, [11432]);
   (11435, [11434]); (11437, [11436]); (11439, [11438]); (11441, [11440]);
   (11443, [11442]); (11445, [11444]); (11447, [11446]); (11449, [11448]);
   (11451, [11450]); (11453, [11452]); (11455, [11454]); (11457, [11456]);
   (11459, [11458]); (11461, [11460]); (11463, [11462]); (11465, [11464]);
   (11467, [11466]); (11469, [11468]); (11471, [11470]); (11473, [11472]);
   (11475, [11474]); (11477, [11476]); (11479, [11478]); (11481, [11480]);
   (11483, [11482]); (11485, [11484]); (11487, [11486]); (11489, [11488]);
   (11491, [11490]); (11500, [11499]); (11502, [11501]); (11507, [11506]);
   (11520, [4256]); (11521, [4257]); (11522, [4258]); (11523, [4259]);
   (11524, [4260]); (11525, [4261]); (11526, [4262]); (11527, [4263]);
   (11528, [4264]); (11529, [4265]); (11530, [4266]); (11531, [4267]);
   (11532, [4268]); (11533, [4269]); (11534, [4270]); (11535, [4271]);
   (11536, [4272]); (11537, [4273]); (11538, [4274]); (11539, [4275]);
   (11540, [4276]); (11541, [4277]); (11542, [4278]); (11543, [4279]);
   (11544, [4280]); (11545, [4281]); (11546, [4282]); (11547, [4283]);
   (11548, [4284]); (11549, [4285]); (11550, [4286]); (11551, [4287]);
   (11552, [4288]); (11553, [4289]); (11554, [4290]); (11555, [4291]);
   (11556, [4292]); (11557, [4293]); (11559, [4295]); (11565, [4301]);
   (42561, [42560]); (42563, [42562]); (42565, [42564]); (42567, [42566]);
   (42569, [42568]); (42571, [42570]); (42573, [42572]); (42575, [42574]);
   (42577, [42576]); (42579, [42578]); (42581, [42580]); (42583, [42582]);
   (42585, [42584]); (42587, [42586]); (42589, [42588]); (42591, [42590]);
   (42593, [42592]); (42595, [42594]); (42597, [42596]); (42599, [42598]);
   (42601, [42600]); (42603, [42602]); (42605, [42604]); (42625, [42624]);
   (42627, [42626]); (42629, [42628]); (42631, [42630]); (42633, [42632]);
   (42635, [42634]); (42637, [42636]); (42639, [42638]); (42641, [42640]);
   (42643, [42642]); (42645, [42644]); (42647, [42646]); (42649, [42648]);
   (42651, [42650]); (42787, [42786]); (42789, [42788]); (42791, [42790]);
   (42793, [42792]); (42795, [42794]); (42797, [42796]); (42799, [42798]);
   (42803, [42802]); (42805, [42804]); (42807, [42806]); (42809, [42808]);
   (42811, [42810]); (42813, [42812]); (42815, [42814]); (42817, [42816]);
   (42819, [42818]); (42821, [42820]); (42823, [42822]); (42825, [42824]);
   (42827, [42826]); (42829, [42828]); (42831, [42830]); (42833, [42832]);
   (42835, [42834]); (42837, [42836]); (42839, [42838]); (42841, [42840]);
   (42843, [42842]); (42845, [42844]); (42847, [42846]); (42849, [42848]);
   (42851, [42850]); (42853, [42852]); (42855, [42854]); (42857, [42856]);
   (42859, [42858]); (42861, [42860]); (42863, [42862]); (42874, [42873]);
   (42876, [42875]); (42879, [42878]); (42881, [42880]); (42883, [42882]);
   (42885, [42884]); (42887, [42886]); (42892, [42891]); (42897, [42896]);
   (42899, [42898]); (42900, [42948]); (42903, [42902]); (42905, [42904]);
   (42907, [42906]); (42909, [42908]); (42911, [42910]); (42913, [42912]);
   (42915, [42914]); (42917, [42916]); (42919, [42918]); (42921, [42920]);
   (42933, [42932]); (42935, [42934]); (42937, [42936]); (42939, [42938]);
   (42941, [42940]); (42943, [42942]); (42945, [42944]); (42947, [42946]);
   (42952, [42951]); (42954, [42953]); (42961, [42960]); (42967, [42966]);
   (42969, [42968]); (42998, [42997]); (43859, [42931]); (43888, [5024]);
   (43889, [5025]); (43890, [5026]); (43891, [5027]); (43892, [5028]);
   (43893, [5029]); (43894, [5030]); (43895, [5031]); (43896, [5032]);
   (43897, [5033]); (43898, [5034]); (43899, [5035]); (43900, [5036]);
   (43901, [5037]); (43902, [5038]); (43903, [5039]); (43904, [5040]);
   (43905, [5041]); (43906, [5042]); (43907, [5043]); (43908, [5044]);
   (43909, [5045]); (43910, [5046]); (43911, [5047]); (43912, [5048]);
   (43913, [5049]); (43914, [5050]); (43915, [5051]); (43916, [5052]);
   (43917, [5053]); (43918, [5054]); (43919, [5055]); (43920, [5056]);
   (43921, [5057]); (43922, [5058]); (43923, [5059]); (43924, [5060]);
   (43925, [5061]); (43926, [5062]); (43927, [5063]); (43928, [5064]);
   (43929, [5065]); (43930, [5066]); (43931, [5067]); (43932, [5068]);
   (43933, [5069]); (43934, [5070]); (43935, [5071]); (43936, [5072]);
   (43937, [5073]); (43938, [5074]); (43939, [5075]); (43940, [5076]);
   (43941, [5077]); (43942, [5078]); (43943, [5079]); (43944, [5080]);
   (43945, [5081]); (43946, [5082]); (43947, [5083]); (43948, [5084]);
   (43949, [5085]); (43950, [5086]); (43951, [5087]); (43952, [5088]);
   (43953, [5089]); (43954, [5090]); (43955, [5091]); (43956, [5092]);
   (43957, [5093]); (43958, [5094]); (43959, [5095]); (43960, [5096]);
   (43961, [5097]); (43962, [5098]); (43963, [5099]); (43964, [5100]);
   (43965, [5101]); (43966, [5102]); (43967, [5103]); (64256, [70; 70]);
   (64257, [70; 73]); (64258, [70; 76]); (64259, [70; 70; 73]);
   (64260, [70; 70; 76]); (64261, [83; 84]); (64262, [83; 84]);
   (64275, [1348; 1350]); (64276, [1348; 1333]); (64277, [1348; 1339]);
   (64278, [1358; 1350]); (64279, [1348; 1341]); (65345, [65313]);
   (65346, [65314]); (65347, [65315]); (65348, [65316]); (65349, [65317]);
   (65350, [65318]); (65351, [65319]); (65352, [65320]); (65353, [65321]);
   (65354, [65322]); (65355, [65323]); (65356, [65324]); (65357, [65325]);
   (65358, [65326]); (65359, [65327]); (65360, [65328]); (65361, [65329]);
   (65362, [65330]); (65363, [65331]); (65364, [65332]); (65365, [65333]);
   (65366, [65334]); (65367, [65335]); (65368, [65336]); (65369, [65337]);
   (65370, [65338]); (66600, [66560]); (66601, [66561]); (66602, [66562]);
   (66603, [66563]); (66604, [66564]); (66605, [66565]); (66606, [66566]);
   (66607, [66567]); (66608, [66568]); (66609, [66569]); (66610, [66570]);
   (66611, [66571]); (66612, [66572]); (66613, [66573]); (66614, [66574]);
   (66615, [66575]); (66616, [66576]); (66617, [66577]); (66618, [66578]);
   (66619, [66579]); (66620, [66580]); (66621, [66581]); (66622, [66582]);
   (66623, [66583]); (66624, [66584]); (66625, [66585]); (66626, [66586]);
   (66627, [66587]); (66628, [66588]); (66629, [66589]); (66630, [66590]);
   (66631, [66591]); (66632, [66592]); (66633, [66593]); (66634, [66594]);
   (66635, [66595]); (66636, [66596]); (66637, [66597]); (66638, [66598]);
   (66639, [66599]); (66776, [66736]); (66777, [66737]); (66778, [66738]);
   (66779, [66739]); (66780, [66740]); (66781, [66741]); (66782, [66742]);
   (66783, [66743]); (66784, [66744]); (66785, [66745]); (66786, [66746]);
   (66787, [66747]); (66788, [66748]); (66789, [66749]); (66790, [66750]);
   (66791, [66751]); (66792, [66752]); (66793, [66753]); (66794, [66754]);
   (66795, [66755]); (66796, [66756]); (66797, [66757]); (66798, [66758]);
   (66799, [66759]); (66800, [66760]); (66801, [66761]); (66802, [66762]);
   (66803, [66763]); (66804, [66764]); (66805, [66765]); (66806, [66766]);
   (66807, [66767]); (66808, [66768]); (66809, [66769]); (66810, [66770]);
   (66811, [66771]); (66967, [66928]); (66968, [66929]); (66969, [66930]);
   (66970, [66931]); (66971, [66932]); (66972, [66933]); (66973, [66934]);
   (66974, [66935]); (66975, [66936]); (66976, [66937]); (66977, [66938]);
   (66979, [66940]); (66980, [66941]); (66981, [66942]); (66982, [66943]);
   (66983, [66944]); (66984, [66945]); (66985, [66946]); (66986, [66947]);
   (66987, [66948]); (66988, [66949]); (66989, [66950]); (66990, [66951]);
   (66991, [66952]); (66992, [66953]); (66993, [66954]); (66995, [66956]);
   (66996, [66957]); (66997, [66958]); (66998, [66959]); (66999, [66960]);
   (67000, [66961]); (67001, [66962]); (67003, [66964]); (67004, [66965]);
   (68800, [68736]); (68801, [68737]); (68802, [68738]); (68803, [68739]);
   (68804, [68740]); (68805, [68741]); (68806, [68742]); (68807, [68743]);
   (68808, [68744]); (68809, [68745]); (68810, [68746]); (68811, [68747]);
   (68812, [68748]); (68813, [68749]); (68814, [68750]); (68815, [68751]);
   (68816, [68752]); (68817, [68753]); (68818, [68754]); (68819, [68755]);
   (68820, [68756]); (68821, [68757]); (68822, [68758]); (68823, [68759]);
   (68824, [68760]); (68825, [68761]); (68826, [68762]); (68827, [68763]);
   (68828, [68764]); (68829, [68765]); (68830, [68766]); (68831, [68767]);
   (68832, [68768]); (68833, [68769]); (68834, [68770]); (68835, [68771]);
   (68836, [68772]); (68837, [68773]); (68838, [68774]); (68839, [68775]);
   (68840, [68776]); (68841, [68777]); (68842, [68778]); (68843, [68779]);
   (68844, [68780]); (68845, [68781]); (68846, [68782]); (68847, [68783]);
   (68848, [68784]); (68849, [68785]); (68850, [68786]); (71872, [71840]);
   (71873, [71841]); (71874, [71842]); (71875, [71843]); (71876, [71844]);
   (71877, [71845]); (71878, [71846]); (71879, [71847]); (71880, [71848]);
   (71881, [71849]); (71882, [71850]); (71883, [71851]); (71884, [71852]);
   (71885, [71853]); (71886, [71854]); (71887, [71855]); (71888, [71856]);
   (71889, [71857]); (71890, [71858]); (71891, [71859]); (71892, [71860]);
   (71893, [71861]); (71894, [71862]); (71895, [71863]); (71896, [71864]);
   (71897, [71865]); (71898, [71866]); (71899, [71867]); (71900, [71868]);
   (71901, [71869]); (71902, [71870]); (71903, [71871]); (93792, [93760]);
   (93793, [93761]); (93794, [93762]); (93795, [93763]); (93796, [93764]);
   (93797, [93765]); (93798, [93766]); (93799, [93767]); (93800, [93768]);
   (93801, [93769]); (93802, [93770]); (93803, [93771]); (93804, [93772]);
   (93805, [93773]); (93806, [93774]); (93807, [93775]); (93808, [93776]);
   (93809, [93777]); (93810, [93778]); (93811, [93779]); (93812, [93780]);
   (93813, [93781]); (93814, [93782]); (93815, [93783]); (93816, [93784]);
   (93817, [93785]); (93818, [93786]); (93819, [93787]); (93820, [93788]);
   (93821, [93789]); (93822, [93790]); (93823, [93791]); (125218, [125184]);
   (125219, [125185]); (125220, [125186]); (125221, [125187]);
   (125222, [125188]); (125223, [125189]); (125224, [125190]);
   (125225, [125191]); (125226, [125192]); (125227, [125193]);
   (125228, [125194]); (125229, [125195]); (125230, [125196]);
   (125231, [125197]); (125232, [125198]); (125233, [125199]);
   (125234, [125200]); (125235, [125201]); (125236, [125202]);
   (125237, [125203]); (125238, [125204]); (125239, [125205]);
   (125240, [125206]); (125241, [125207]); (125242, [125208]);
   (125243, [125209]); (125244, [125210]); (125245, [125211]);
   (125246, [125212]); (125247, [125213]); (125248, [125214]);
   (125249, [125215]); (125250, [125216]); (125251, [125217])]%N.

(** [str.upper()]: every code point is replaced by its upper-case mapping,
    which can be longer than one code point; a code point without one
    stays. *)
Definition upper_char (c : char) : str :=
  match find (fun entry => N.eqb (fst entry) c) uppercase with
  | Some entry => snd entry
  | None => [c]
  end.

Definition upper (s : str) : str := flat_map upper_char s.

(** [s.rstrip('/')]: every trailing slash goes. *)
Definition slash : char := 47%N.

Fixpoint rstrip_slash (s : str) : str :=
  match s with
  | [] => []
  | c :: s' =>
      match rstrip_slash s' with
      | [] => if N.eqb c slash then [] else [c]
      | t => c :: t
      end
  end.

(** [sep.join(parts)] *)
Fixpoint join (sep : str) (parts : list str) : str :=
  match parts with
  | [] => []
  | [p] => p
  | p :: ps => p ++ sep ++ join sep ps
  end.

(** Decimal notation of an integer, as [str(n)] prints it. *)
Definition decimal (z : Z) : str := u (NilZero.string_of_int (Z.to_int z)).

(** ** Python values *)

(** The values that [response.json()] produces and that the tools build:
    [None], booleans, integers, floats, strings, lists and dicts with
    string keys.  A dict keeps its items in insertion order; a float is
    represented by its [repr]. *)
#[warnings="-register-all"]
Inductive pyval : Type :=
| PNone
| PBool (b : bool)
| PInt (z : Z)
| PFloat (repr : str)
| PStr (s : str)
| PList (items : list pyval)
| PDict (items : list (str * pyval)).

Definition dict := list (str * pyval).

(** [key in d] *)
Fixpoint dict_has (d : dict) (key : str) : bool :=
  match d with
  | [] => false
  | (k, _) :: d' => str_eqb k key || dict_has d' key
  end.

(** [d.get(key, default)] *)
Fixpoint dict_get (d : dict) (key : str) (default : pyval) : pyval :=
  match d with
  | [] => default
  | (k, v) :: d' => if str_eqb k key then v else dict_get d' key default
  end.

(** Truth value of an optional string argument ([if symbol:]). *)
Definition truthy (s : option str) : bool :=
  match s with
  | Some (_ :: _) => true
  | _ => false
  end.

(** An optional string argument as a Python value. *)
Definition opt (s : option str) : pyval :=
  match s with
  | Some t => PStr t
  | None => PNone
  end.

(** *** Formatting *)

Definition hex_digit (n : N) : char :=
  if (n <? 10)%N then (48 + n)%N else (87 + n)%N.

(** The last [digits] hexadecimal digits of [n], in lower case. *)
Fixpoint hex (digits : nat) (n : N) : str :=
  match digits with
  | O => []
  | S d => hex d (n / 16) ++ [hex_digit (n mod 16)]
  end.

(** The code points for which [str.isprintable()] is false, as closed
    ranges: controls, format characters, surrogates, private use,
    unassigned code points and every separator but the ASCII space
    (Unicode 14.0.0). *)
Definition nonprintable : list (char * char) :=
  [(0, 31); (127, 160); (173, 173); (888, 889); (896, 899); (907, 907);
   (909, 909); (930, 930); (1328, 1328); (1367, 1368); (1419, 1420);
   (1424, 1424); (1480, 1487); (1515, 1518); (1525, 1541); (1564, 1564);
   (1757, 1757); (1806, 1807); (1867, 1868); (1970, 1983); (2043, 2044);
   (2094, 2095); (2111, 2111); (2140, 2141); (2143, 2143); (2155, 2159);
   (2191, 2199); (2274, 2274); (2436, 2436); (2445, 2446); (2449, 2450);
   (2473, 2473); (2481, 2481); (2483, 2485); (2490, 2491); (2501, 2502);
   (2505, 2506); (2511, 2518); (2520, 2523); (2526, 2526); (2532, 2533);
   (2559, 2560); (2564, 2564); (2571, 2574); (2577, 2578); (2601, 2601);
   (2609, 2609); (2612, 2612); (2615, 2615); (2618, 2619); (2621, 2621);
   (2627, 2630); (2633, 2634); (2638, 2640); (2642, 2648); (2653, 2653);
   (2655, 2661); (2679, 2688); (2692, 2692); (2702, 2702); (2706, 2706);
   (2729, 2729); (2737, 2737); (2740, 2740); (2746, 2747); (2758, 2758);
   (2762, 2762); (2766, 2767); (2769, 2783); (2788, 2789); (2802, 2808);
   (2816, 2816); (2820, 2820); (2829, 2830); (2833, 2834); (2857, 2857);
   (2865, 2865); (2868, 2868); (2874, 2875); (2885, 2886); (2889, 2890);
   (2894, 2900); (2904, 2907); (2910, 2910); (2916, 2917); (2936, 2945);
   (2948, 2948); (2955, 2957); (2961, 2961); (2966, 2968); (2971, 2971);
   (2973, 2973); (2976, 2978); (2981, 2983); (2987, 2989); (3002, 3005);
   (3011, 3013); (3017, 3017); (3022, 3023); (3025, 3030); (3032, 3045);
   (3067, 3071); (3085, 3085); (3089, 3089); (3113, 3113); (3130, 3131);
   (3141, 3141); (3145, 3145); (3150, 3156); (3159, 3159); (3163, 3164);
   (3166, 3167); (3172, 3173); (3184, 3190); (3213, 3213); (3217, 3217);
   (3241, 3241); (3252, 3252); (3258, 3259); (3269, 3269); (3273, 3273);
   (3278, 3284); (3287, 3292); (3295, 3295); (3300, 3301); (3312, 3312);
   (3315, 3327); (3341, 3341); (3345, 3345); (3397, 3397); (3401, 3401);
   (3408, 3411); (3428, 3429); (3456, 3456); (3460, 3460); (3479, 3481);
   (3506, 3506); (3516, 3516); (3518, 3519); (3527, 3529); (3531, 3534);
   (3541, 3541); (3543, 3543); (3552, 3557); (3568, 3569); (3573, 3584);
   (3643, 3646); (3676, 3712); (3715, 3715); (3717, 3717); (3723, 3723);
   (3748, 3748); (3750, 3750); (3774, 3775); (3781, 3781); (3783, 3783);
   (3790, 3791); (3802, 3803); (3808, 3839); (3912, 3912); (3949, 3952);
   (3992, 3992); (4029, 4029); (4045, 4045); (4059, 4095); (4294, 4294);
   (4296, 4300); (4302, 4303); (4681, 4681); (4686, 4687); (4695, 4695);
   (4697, 4697); (4702, 4703); (4745, 4745); (4750, 4751); (4785, 4785);
   (4790, 4791); (4799, 4799); (4801, 4801); (4806, 4807); (4823, 4823);
   (4881, 4881); (4886, 4887); (4955, 4956); (4989, 4991); (5018, 5023);
   (5110, 5111); (5118, 5119); (5760, 5760); (5789, 5791); (5881, 5887);
   (5910, 5918); (5943, 5951); (5972, 5983); (5997, 5997); (6001, 6001);
   (6004, 6015); (6110, 6111); (6122, 6127); (6138, 6143); (6158, 6158);
   (6170, 6175); (6265, 6271); (6315, 6319); (6390, 6399); (6431, 6431);
   (6444, 6447); (6460, 6463); (6465, 6467); (6510, 6511); (6517, 6527);
   (6572, 6575); (6602, 6607); (6619, 6621); (6684, 6685); (6751, 6751);
   (6781, 6782); (6794, 6799); (6810, 6815); (6830, 6831); (6863, 6911);
   (6989, 6991); (7039, 7039); (7156, 7163); (7224, 7226); (7242, 7244);
   (7305, 7311); (7355, 7356); (7368, 7375); (7419, 7423); (7958, 7959);
   (7966, 7967); (8006, 8007); (8014, 8015); (8024, 8024); (8026, 8026);
   (8028, 8028); (8030, 8030); (8062, 8063); (8117, 8117); (8133, 8133);
   (8148, 8149); (8156, 8156); (8176, 8177); (8181, 8181); (8191, 8207);
   (8232, 8239); (8287, 8303); (8306, 8307); (8335, 8335); (8349, 8351);
   (8385, 8399); (8433, 8447); (8588, 8591); (9255, 9279); (9291, 9311);
   (11124, 11125); (11158, 11158); (11508, 11512); (11558, 11558);
   (11560, 11564); (11566, 11567); (11624, 11630); (11633, 11646);
   (11671, 11679); (11687, 11687); (11695, 11695); (11703, 11703);
   (11711, 11711); (11719, 11719); (11727, 11727); (11735, 11735);
   (11743, 11743); (11870, 11903); (11930, 11930); (12020, 12031);
   (12246, 12271); (12284, 12288); (12352, 12352); (12439, 12440);
   (12544, 12548); (12592, 12592); (12687, 12687); (12772, 12783);
   (12831, 12831); (42125, 42127); (42183, 42191); (42540, 42559);
   (42744, 42751); (42955, 42959); (42962, 42962); (42964, 42964);
   (42970, 42993); (43053, 43055); (43066, 43071); (43128, 43135);
   (43206, 43213); (43226, 43231); (43348, 43358); (43389, 43391);
   (43470, 43470); (43482, 43485); (43519, 43519); (43575, 43583);
   (43598, 43599); (43610, 43611); (43715, 43738); (43767, 43776);
   (43783, 43784); (43791, 43792); (43799, 43807); (43815, 43815);
   (43823, 43823); (43884, 43887); (44014, 44015); (44026, 44031);
   (55204, 55215); (55239, 55242); (55292, 63743); (64110, 64111);
   (64218, 64255); (64263, 64274); (64280, 64284); (64311, 64311);
   (64317, 64317); (64319, 64319); (64322, 64322); (64325, 64325);
   (64451, 64466); (64912, 64913); (64968, 64974); (64976, 65007);
   (65050, 65055); (65107, 65107); (65127, 65127); (65132, 65135);
   (65141, 65141); (65277, 65280); (65471, 65473); (65480, 65481);
   (65488, 65489); (65496, 65497); (65501, 65503); (65511, 65511);
   (65519, 65531); (65534, 65535); (65548, 65548); (65575, 65575);
   (65595, 65595); (65598, 65598); (65614, 65615); (65630, 65663);
   (65787, 65791); (65795, 65798); (65844, 65846); (65935, 65935);
   (65949, 65951); (65953, 65999); (66046, 66175); (66205, 66207);
   (66257, 66271); (66300, 66303); (66340, 66348); (66379, 66383);
   (66427, 66431); (66462, 66462); (66500, 66503); (66518, 66559);
   (66718, 66719); (66730, 66735); (66772, 66775); (66812, 66815);
   (66856, 66863); (66916, 66926); (66939, 66939); (66955, 66955);
   (66963, 66963); (66966, 66966); (66978, 66978); (66994, 66994);
   (67002, 67002); (67005, 67071); (67383, 67391); (67414, 67423);
   (67432, 67455); (67462, 67462); (67505, 67505); (67515, 67583);
   (67590, 67591); (67593, 67593); (67638, 67638); (67641, 67643);
   (67645, 67646); (67670, 67670); (67743, 67750); (67760, 67807);
   (67827, 67827); (67830, 67834); (67868, 67870); (67898, 67902);
   (67904, 67967); (68024, 68027); (68048, 68049); (68100, 68100);
   (68103, 68107); (68116, 68116); (68120, 68120); (68150, 68151);
   (68155, 68158); (68169, 68175); (68185, 68191); (68256, 68287);
   (68327, 68330); (68343, 68351); (68406, 68408); (68438, 68439);
   (68467, 68471); (68498, 68504); (68509, 68520); (68528, 68607);
   (68681, 68735); (68787, 68799); (68851, 68857); (68904, 68911);
   (68922, 69215); (69247, 69247); (69290, 69290); (69294, 69295);
   (69298, 69375); (69416, 69423); (69466, 69487); (69514, 69551);
   (69580, 69599); (69623, 69631); (69710, 69713); (69750, 69758);
   (69821, 69821); (69827, 69839); (69865, 69871); (69882, 69887);
   (69941, 69941); (69960, 69967); (70007, 70015); (70112, 70112);
   (70133, 70143); (70162, 70162); (70207, 70271); (70279, 70279);
   (70281, 70281); (70286, 70286); (70302, 70302); (70314, 70319);
   (70379, 70383); (70394, 70399); (70404, 70404); (70413, 70414);
   (70417, 70418); (70441, 70441); (70449, 70449); (70452, 70452);
   (70458, 70458); (70469, 70470); (70473, 70474); (70478, 70479);
   (70481, 70486); (70488, 70492); (70500, 70501); (70509, 70511);
   (70517, 70655); (70748, 70748); (70754, 70783); (70856, 70863);
   (70874, 71039); (71094, 71095); (71134, 71167); (71237, 71247);
   (71258, 71263); (71277, 71295); (71354, 71359); (71370, 71423);
   (71451, 71452); (71468, 71471); (71495, 71679); (71740, 71839);
   (71923, 71934); (71943, 71944); (71946, 71947); (71956, 71956);
   (71959, 71959); (71990, 71990); (71993, 71994); (72007, 72015);
   (72026, 72095); (72104, 72105); (72152, 72153); (72165, 72191);
   (72264, 72271); (72355, 72367); (72441, 72703); (72713, 72713);
   (72759, 72759); (72774, 72783); (72813, 72815); (72848, 72849);
   (72872, 72872); (72887, 72959); (72967, 72967); (72970, 72970);
   (73015, 73017); (73019, 73019); (73022, 73022); (73032, 73039);
   (73050, 73055); (73062, 73062); (73065, 73065); (73103, 73103);
   (73106, 73106); (73113, 73119); (73130, 73439); (73465, 73647);
   (73649, 73663); (73714, 73726); (74650, 74751); (74863, 74863);
   (74869, 74879); (75076, 77711); (77811, 77823); (78895, 82943);
   (83527, 92159); (92729, 92735); (92767, 92767); (92778, 92781);
   (92863, 92863); (92874, 92879); (92910, 92911); (92918, 92927);
   (92998, 93007); (93018, 93018); (93026, 93026); (93048, 93052);
   (93072, 93759); (93851, 93951); (94027, 94030); (94088, 94094);
   (94112, 94175); (94181, 94191); (94194, 94207); (100344, 100351);
   (101590, 101631); (101641, 110575); (110580, 110580); (110588, 110588);
   (110591, 110591); (110883, 110927); (110931, 110947); (110952, 110959);
   (111356, 113663); (113771, 113775); (113789, 113791); (113801, 113807);
   (113818, 113819); (113824, 118527); (118574, 118575); (118599, 118607);
   (118724, 118783); (119030, 119039); (119079, 119080); (119155, 119162);
   (119275, 119295); (119366, 119519); (119540, 119551); (119639, 119647);
   (119673, 119807); (119893, 119893); (119965, 119965); (119968, 119969);
   (119971, 119972); (119975, 119976); (119981, 119981); (119994, 119994);
   (119996, 119996); (120004, 120004); (120070, 120070); (120075, 120076);
   (120085, 120085); (120093, 120093); (120122, 120122); (120127, 120127);
   (120133, 120133); (120135, 120137); (120145, 120145); (120486, 120487);
   (120780, 120781); (121484, 121498); (121504, 121504); (121520, 122623);
   (122655, 122879); (122887, 122887); (122905, 122906); (122914, 122914);
   (122917, 122917); (122923, 123135); (123181, 123183); (123198, 123199);
   (123210, 123213); (123216, 123535); (123567, 123583); (123642, 123646);
   (123648, 124895); (124903, 124903); (124908, 124908); (124911, 124911);
   (124927, 124927); (125125, 125126); (125143, 125183); (125260, 125263);
   (125274, 125277); (125280, 126064); (126133, 126208); (126270, 126463);
   (126468, 126468); (126496, 126496); (126499, 126499); (126501, 126502);
   (126504, 126504); (126515, 126515); (126520, 126520); (126522, 126522);
   (126524, 126529); (126531, 126534); (126536, 126536); (126538, 126538);
   (126540, 126540); (126544, 126544); (126547, 126547); (126549, 126550);
   (126552, 126552); (126554, 126554); (126556, 126556); (126558, 126558);
   (126560, 126560); (126563, 126563); (126565, 126566); (126571, 126571);
   (126579, 126579); (126584, 126584); (126589, 126589); (126591, 126591);
   (126602, 126602); (126620, 126624); (126628, 126628); (126634, 126634);
   (126652, 126703); (126706, 126975); (127020, 127023); (127124, 127135);
   (127151, 127152); (127168, 127168); (127184, 127184); (127222, 127231);
   (127406, 127461); (127491, 127503); (127548, 127551); (127561, 127567);
   (127570, 127583); (127590, 127743); (128728, 128732); (128749, 128751);
   (128765, 128767); (128884, 128895); (128985, 128991); (129004, 129007);
   (129009, 129023); (129036, 129039); (129096, 129103); (129114, 129119);
   (129160, 129167); (129198, 129199); (129202, 129279); (129620, 129631);
   (129646, 129647); (129653, 129655); (129661, 129663); (129671, 129679);
   (129709, 129711); (129723, 129727); (129734, 129743); (129754, 129759);
   (129768, 129775); (129783, 129791); (129939, 129939); (129995, 130031);
   (130042, 131071); (173792, 173823); (177977, 177983); (178206, 178207);
   (183970, 183983); (191457, 194559); (195102, 196607); (201547, 917759);
   (918000, 1114111)]%N.

Definition isprintable (c : char) : bool :=
  negb (existsb (fun range => (fst range <=? c) && (c <=? snd range))%N nonprintable).

(** One character of [repr(s)] for the quote character [q]: the
    backslash, the quote and tab, newline and carriage return have their
    escapes; another code point is printed as it is when it is printable,
    and otherwise as [\xhh], [\uhhhh] or [\Uhhhhhhhh], by its size. *)
Definition repr_char (q : char) (c : char) : str :=
  if N.eqb c 92 then [92; 92]%N
  else if N.eqb c q then [92%N; q]
  else if N.eqb c 10 then u "\n"
  else if N.eqb c 13 then u "\r"
  else if N.eqb c 9 then u "\t"
  else if isprintable c then [c]
  else if (c <? 256)%N then u "\x" ++ hex 2 c
  else if (c <? 65536)%N then u "\u" ++ hex 4 c
  else u "\U" ++ hex 8 c.

Definition mem_char (c : char) (s : str) : bool := existsb (N.eqb c) s.

(** [repr(s)] of a string: single quotes, unless the string holds a
    single quote and no double quote. *)
Definition repr_str (s : str) : str :=
  let q : char := if mem_char 39%N s && negb (mem_char 34%N s) then 34%N else 39%N in
  q :: flat_map (repr_char q) s ++ [q].

Fixpoint py_repr (v : pyval) : str :=
  match v with
  | PNone => u "None"
  | PBool true => u "True"
  | PBool false => u "False"
  | PInt z => decimal z
  | PFloat r => r
  | PStr s => repr_str s
  | PList l => u "[" ++ join (u ", ") (map py_repr l) ++ u "]"
  | PDict d =>
      u "{" ++ join (u ", ")
                 (map (fun kv => match kv with
                                 | (k, x) => repr_str k ++ u ": " ++ py_repr x
                                 end) d) ++ u "}"
  end.

(** [str(v)], which is what a replacement field [{v}] of an f-string
    prints. *)
Definition py_str (v : pyval) : str :=
  match v with
  | PStr s => s
  | _ => py_repr v
  end.

Example py_str_int : py_str (PInt 3) = u "3".
Proof. reflexivity. Qed.

Example utf8_cross : u "❌ a" = [10060; 32; 97]%N.
Proof. reflexivity. Qed.

Example utf8_magnifier : u "🔍" = [128269]%N.
Proof. reflexivity. Qed.

Example repr_nested :
  py_str (PList [PStr (u "ab"); PInt (-4); PDict [(u "k", PNone)]])
  = u "['ab', -4, {'k': None}]".
Proof. reflexivity. Qed.

(** [str(["\u3000\u200b\ufeff\u2028\ue000\ud800\U000e0001é\xa0\x7f'"])]:
    inside a list a string is printed by [repr], which escapes the code
    points that are not printable and keeps the others. *)
Example repr_escapes :
  py_str (PList [PStr [12288; 8203; 65279; 8232; 57344; 55296; 917505; 233; 160;
                       127; 39]%N])
  = u "[" ++ [34%N]
      ++ u "\u3000\u200b\ufeff\u2028\ue000\ud800\U000e0001é\xa0\x7f'"
      ++ [34%N] ++ u "]".
Proof. vm_compute. reflexivity. Qed.

(** ["poſt".upper()], ["é".upper()], ["straße".upper()] and ["ﬁ".upper()] *)
Example upper_beyond_ascii :
  upper (u "poſt") = u "POST" /\ upper (u "é") = u "É"
  /\ upper (u "straße") = u "STRASSE" /\ upper (u "ﬁ") = u "FI"
  /\ upper (u "Q1 2024") = u "Q1 2024".
Proof. repeat split; vm_compute; reflexivity. Qed.

(** ** Exceptions and outcomes *)

(** The exception classes the three files can meet.  The first two derive
    from [BaseException] only; the last five are
    [requests.RequestException] and classes derived from it
    ([requests.ConnectionError], [requests.Timeout], [requests.HTTPError],
    [requests.JSONDecodeError]). *)
Inductive exc_class : Type :=
| KeyboardInterrupt
| CancelledError
| AttributeError
| TypeError
| ValueError
| RuntimeError
| RequestException
| ConnectionError
| Timeout
| HTTPError
| JSONDecodeError.

(** An exception object: its class and its [str(e)]. *)
Record exception : Type := Exc { exc_type : exc_class; exc_str : str }.

(** [isinstance(e, Exception)] *)
Definition isinstance_Exception (e : exception) : bool :=
  match exc_type e with
  | KeyboardInterrupt | CancelledError => false
  | _ => true
  end.

(** [isinstance(e, requests.RequestException)] *)
Definition isinstance_RequestException (e : exception) : bool :=
  match exc_type e with
  | RequestException | ConnectionError | Timeout | HTTPError | JSONDecodeError => true
  | _ => false
  end.

(** How a call ends: it returns a value or raises. *)
Inductive outcome (A : Type) : Type :=
| Returns (a : A)
| Raises (e : exception).

Arguments Returns {A} a.
Arguments Raises {A} e.

(** [len(v)]: strings, lists and dicts have a length, the other values
    raise [TypeError]. *)
Definition py_len (v : pyval) : outcome Z :=
  match v with
  | PStr s => Returns (Z.of_nat (List.length s))
  | PList l => Returns (Z.of_nat (List.length l))
  | PDict d => Returns (Z.of_nat (List.length d))
  | PNone => Raises (Exc TypeError (u "object of type 'NoneType' has no len()"))
  | PBool _ => Raises (Exc TypeError (u "object of type 'bool' has no len()"))
  | PInt _ => Raises (Exc TypeError (u "object of type 'int' has no len()"))
  | PFloat _ => Raises (Exc TypeError (u "object of type 'float' has no len()"))
  end.

(** ** The outside world: the [requests] library and the event emitter *)

Inductive http_verb : Type := GET | POST.

(** A call [requests.get(url, headers=headers)] or
    [requests.post(url, headers=headers, json=data)]. *)
Record request : Type := Request {
  verb : http_verb;
  url : str;
  headers : list (str * str);
  body : option pyval
}.

(** The response object, through the two methods the dispatcher calls. *)
Record response : Type := Response {
  raise_for_status : outcome unit;
  json : outcome pyval
}.

(** What the tools do to the outside: events passed to the emitter and
    calls of [requests], in the order they happen. *)
Inductive action : Type :=
| Emit (event : pyval)
| Http (r : request).

Definition trace := list action.

(** The behaviour of [requests]: the response object, or the exception
    raised, for each call. *)
Definition transport := request -> outcome response.

(** The behaviour of an [__event_emitter__]: given what happened so far
    and the event, the awaited call completes ([None]) or raises. *)
Definition emitter := trace -> pyval -> option exception.

(** ** The monad of the tools: a trace and exceptions *)

Definition M (A : Type) : Type := trace -> outcome A * trace.

Definition ret {A : Type} (a : A) : M A := fun tr => (Returns a, tr).

Definition lift {A : Type} (o : outcome A) : M A := fun tr => (o, tr).

Definition bind {A B : Type} (m : M A) (k : A -> M B) : M B :=
  fun tr =>
    match m tr with
    | (Returns a, tr') => k a tr'
    | (Raises e, tr') => (Raises e, tr')
    end.

(** [try: body except <class> as e: handler] *)
Definition try_except {A : Type} (class : exception -> bool)
  (body : M A) (handler : exception -> M A) : M A :=
  fun tr =>
    match body tr with
    | (Returns a, tr') => (Returns a, tr')
    | (Raises e, tr') => if class e then handler e tr' else (Raises e, tr')
    end.

(** [for x in l: body(x)] *)
Fixpoint for_each {A : Type} (l : list A) (body : A -> M unit) : M unit :=
  match l with
  | [] => ret tt
  | x :: l' => bind (body x) (fun _ => for_each l' body)
  end.

Declare Scope py_scope.
Delimit Scope py_scope with py.
Notation "x <- m ;; k" := (bind m (fun x => k))
  (at level 61, m at next level, right associativity) : py_scope.
Notation "m ;; k" := (bind m (fun _ => k))
  (at level 61, right associativity) : py_scope.
Local Open Scope py_scope.

(** [await event_emitter(event)] *)
Definition await (f : emitter) (event : pyval) : M unit :=
  fun tr =>
    (match f tr event with
     | None => Returns tt
     | Some e => Raises e
     end, tr ++ [Emit event]).

(** ** Helpers of [tools/engineer.py] and [tools/investor.py] *)

(** [_emit_event] (the same text in both files). *)
Definition _emit_event (event_emitter : option emitter)
  (event_type description : str) (done : bool) : M unit :=
  match event_emitter with
  | Some f =>
      try_except isinstance_Exception
        (await f
           (PDict [(u "type", PStr event_type);
                   (u "data", PDict [(u "description", PStr description);
                                     (u "done", PBool done);
                                     (u "hidden", PBool false)])]))
        (fun _ => ret tt)
  | None => ret tt
  end.

(** [_emit_citation] ([tools/investor.py]). *)
Definition _emit_citation (event_emitter : option emitter)
  (content title url : pyval) : M unit :=
  match event_emitter with
  | Some f =>
      try_except isinstance_Exception
        (await f
           (PDict [(u "type", PStr (u "citation"));
                   (u "data", PDict [(u "document", PList [content]);
                                     (u "source", PDict [(u "name", title);
                                                         (u "url", url)])])]))
        (fun _ => ret tt)
  | None => ret tt
  end.

(** The [Valves] of a tool instance. *)
Record Valves : Type := { api_key : str }.

(** The tool instance. *)
Record Tools : Type := { valves : Valves }.

(** ** Reading a response *)

(** [isinstance(v, dict)] and [isinstance(v, list)] *)
Definition isinstance_dict (v : pyval) : bool :=
  match v with PDict _ => true | _ => false end.

Definition isinstance_list (v : pyval) : bool :=
  match v with PList _ => true | _ => false end.

(** [key in v] and [v.get(key, default)] for a value [v] that the caller
    has tested to be a dict: every use below is guarded by
    [isinstance(v, dict)]. *)
Definition key_in (key : str) (v : pyval) : bool :=
  match v with PDict d => dict_has d key | _ => false end.

Definition get (v : pyval) (key : str) (default : pyval) : pyval :=
  match v with PDict d => dict_get d key default | _ => default end.

(** The items a [for item in v] visits, for a list [v]. *)
Definition items_of (v : pyval) : list pyval :=
  match v with PList l => l | _ => [] end.

(** [len(v)] as a Python value. *)
Definition len (v : pyval) : M pyval :=
  n <- lift (py_len v) ;; ret (PInt n).

(** ** The tools, for a given behaviour of [requests] *)

Section WithRequests.

(** The [requests] module the two files import. *)
Variable requests : transport.

Definition requests_get (url : str) (headers : list (str * str)) : M response :=
  fun tr =>
    let r := Request GET url headers None in (requests r, tr ++ [Http r]).

Definition requests_post (url : str) (headers : list (str * str)) (data : pyval)
  : M response :=
  fun tr =>
    let r := Request POST url headers (Some data) in (requests r, tr ++ [Http r]).

(** [valves.api_key]: the attribute of a [Valves] object; [None] has no
    such attribute. *)
Definition getattr_api_key (valves : option Valves) : M str :=
  match valves with
  | Some v => ret (api_key v)
  | None => lift (Raises (Exc AttributeError
                   (u "'NoneType' object has no attribute 'api_key'")))
  end.

(** [_make_api_request] (the same text in both files).  The headers are
    built before the [try]; the [return] of the [else] branch leaves the
    [try] without a call. *)
Definition _make_api_request (method endpoint : str) (data : pyval)
  (valves : option Valves) : M pyval :=
  let url := u "https://api.lvcdev.com" ++ endpoint in
  key <- getattr_api_key valves ;;
  let headers := [(u "Authorization", u "Bearer " ++ key);
                  (u "Content-Type", u "application/json")] in
  try_except isinstance_RequestException
    (if str_eqb (upper method) (u "GET") then
       response <- requests_get url headers ;;
       lift (raise_for_status response) ;;
       lift (json response)
     else if str_eqb (upper method) (u "POST") then
       response <- requests_post url headers data ;;
       lift (raise_for_status response) ;;
       lift (json response)
     else
       ret (PDict [(u "error", PStr (u "Unsupported HTTP method: " ++ method))]))
    (fun e => ret (PDict [(u "error", PStr (u "API request failed: " ++ exc_str e))])).

(** *** [tools/engineer.py], class [Tools] *)

Definition read_athena_query (self : Tools) (query : str)
  (__event_emitter__ : option emitter) : M pyval :=
  let query_preview :=
    if (100 <? List.length query)%nat then firstn 100 query ++ u "..." else query in
  _emit_event __event_emitter__ (u "status")
    (u "🔍 Executing Athena query: " ++ query_preview) false ;;
  let data := PDict [(u "query", PStr query)] in
  result <- _make_api_request (u "POST") (u "/engineer/read-athena-query") data
              (Some (valves self)) ;;
  (if isinstance_dict result && key_in (u "error") result then
     _emit_event __event_emitter__ (u "status")
       (u "❌ Athena query failed: "
          ++ py_str (get result (u "error") (PStr (u "Unknown error")))) true
   else
     let row_count :=
       if isinstance_dict result
       then get result (u "row_count") (PStr (u "unknown"))
       else PStr (u "unknown") in
     _emit_event __event_emitter__ (u "status")
       (u "✅ Athena query completed - returned " ++ py_str row_count ++ u " rows")
       true) ;;
  ret result.

Definition read_rds_query (self : Tools) (query : str)
  (__event_emitter__ : option emitter) : M pyval :=
  let query_preview :=
    if (100 <? List.length query)%nat then firstn 100 query ++ u "..." else query in
  _emit_event __event_emitter__ (u "status")
    (u "🐘 Executing PostgreSQL query: " ++ query_preview) false ;;
  let data := PDict [(u "query", PStr query)] in
  result <- _make_api_request (u "POST") (u "/engineer/read-rds-query") data
              (Some (valves self)) ;;
  (if isinstance_dict result && key_in (u "error") result then
     _emit_event __event_emitter__ (u "status")
       (u "❌ PostgreSQL query failed: "
          ++ py_str (get result (u "error") (PStr (u "Unknown error")))) true
   else
     let row_count :=
       if isinstance_dict result
       then get result (u "row_count") (PStr (u "unknown"))
       else PStr (u "unknown") in
     _emit_event __event_emitter__ (u "status")
       (u "✅ PostgreSQL query completed - returned " ++ py_str row_count ++ u " rows")
       true) ;;
  ret result.

Definition get_athena_table_info (self : Tools) (table_name : str)
  (__event_emitter__ : option emitter) : M pyval :=
  _emit_event __event_emitter__ (u "status")
    (u "📊 Fetching table schema for " ++ table_name) false ;;
  let data := PDict [(u "table_name", PStr table_name)] in
  result <- _make_api_request (u "POST") (u "/engineer/get-athena-table-info") data
              (Some (valves self)) ;;
  (if isinstance_dict result && key_in (u "error") result then
     _emit_event __event_emitter__ (u "status")
       (u "❌ Failed to fetch table info: "
          ++ py_str (get result (u "error") (PStr (u "Unknown error")))) true
   else
     columns_count <-
       (if isinstance_dict result
        then len (get result (u "columns") (PList []))
        else ret (PStr (u "unknown"))) ;;
     _emit_event __event_emitter__ (u "status")
       (u "✅ Successfully fetched schema for " ++ table_name ++ u " - "
          ++ py_str columns_count ++ u " columns") true) ;;
  ret result.

(** *** [tools/investor.py], class [Tools] *)

Definition semantic_search_transcripts (self : Tools) (query search_type limit : str)
  (symbol year quarter min_year max_year : option str) (extract_quotes : bool)
  (__event_emitter__ : option emitter) : M pyval :=
  let search_details :=
    u "query='" ++ query ++ u "', search_type='" ++ search_type
      ++ u "', limit=" ++ limit in
  let search_details :=
    if truthy symbol then search_details ++ u ", symbol=" ++ py_str (opt symbol)
    else search_details in
  let search_details :=
    if truthy year then search_details ++ u ", year=" ++ py_str (opt year)
    else search_details in
  let search_details :=
    if truthy quarter then search_details ++ u ", quarter=" ++ py_str (opt quarter)
    else search_details in
  _emit_event __event_emitter__ (u "status")
    (u "🔍 Searching earnings transcripts with semantic search ("
       ++ search_details ++ u ")") false ;;
  let data := PDict [(u "query", PStr query);
                     (u "search_type", PStr search_type);
                     (u "limit", PStr limit);
                     (u "symbol", opt symbol);
                     (u "year", opt year);
                     (u "quarter", opt quarter);
                     (u "min_year", opt min_year);
                     (u "max_year", opt max_year);
                     (u "extract_quotes", PBool extract_quotes)] in
  result <- _make_api_request (u "POST") (u "/investor/semantic-search-transcripts") data
              (Some (valves self)) ;;
  (if isinstance_dict result && key_in (u "error") result then
     _emit_event __event_emitter__ (u "status")
       (u "❌ Semantic search failed: "
          ++ py_str (get result (u "error") (PStr (u "Unknown error")))) true
   else
     result_count <-
       (if isinstance_list result then len result else ret (PStr (u "unknown"))) ;;
     _emit_event __event_emitter__ (u "status")
       (u "✅ Semantic search completed - found " ++ py_str result_count
          ++ u " results") true ;;
     if isinstance_list result then
       for_each (items_of result) (fun item =>
         if isinstance_dict item then
           let citation := get item (u "citation") (PStr (u "")) in
           let quotes := get item (u "quotes") (PStr (u "")) in
           _emit_citation __event_emitter__ quotes citation
             (PStr (u "https://levelvc.com"))
         else ret tt)
     else ret tt) ;;
  ret result.

Definition keyword_search_transcripts (self : Tools) (keywords limit : str)
  (symbol year quarter min_year max_year : option str) (match_type : str)
  (extract_quotes : bool) (__event_emitter__ : option emitter) : M pyval :=
  let search_details :=
    u "keywords='" ++ keywords ++ u "', match_type='" ++ match_type
      ++ u "', limit=" ++ limit in
  let search_details :=
    if truthy symbol then search_details ++ u ", symbol=" ++ py_str (opt symbol)
    else search_details in
  let search_details :=
    if truthy year then search_details ++ u ", year=" ++ py_str (opt year)
    else search_details in
  let search_details :=
    if truthy quarter then search_details ++ u ", quarter=" ++ py_str (opt quarter)
    else search_details in
  _emit_event __event_emitter__ (u "status")
    (u "🔍 Searching earnings transcripts with keyword search ("
       ++ search_details ++ u ")") false ;;
  let data := PDict [(u "keywords", PStr keywords);
                     (u "limit", PStr limit);
                     (u "symbol", opt symbol);
                     (u "year", opt year);
                     (u "quarter", opt quarter);
                     (u "min_year", opt min_year);
                     (u "max_year", opt max_year);
                     (u "match_type", PStr match_type);
                     (u "extract_quotes", PBool extract_quotes)] in
  result <- _make_api_request (u "POST") (u "/investor/keyword-search-transcripts") data
              (Some (valves self)) ;;
  (if isinstance_dict result && key_in (u "error") result then
     _emit_event __event_emitter__ (u "status")
       (u "❌ Keyword search failed: "
          ++ py_str (get result (u "error") (PStr (u "Unknown error")))) true
   else
     result_count <-
       (if isinstance_list result then len result else ret (PStr (u "unknown"))) ;;
     _emit_event __event_emitter__ (u "status")
       (u "✅ Keyword search completed - found " ++ py_str result_count
          ++ u " results") true ;;
     if isinstance_list result then
       for_each (items_of result) (fun item =>
         if isinstance_dict item then
           let citation := get item (u "citation") (PStr (u "")) in
           let quotes := get item (u "quotes") (PStr (u "")) in
           _emit_citation __event_emitter__ quotes citation
             (PStr (u "https://levelvc.com"))
         else ret tt)
     else ret tt) ;;
  ret result.

Definition get_transcript_details (self : Tools) (symbol year quarter : str)
  (__event_emitter__ : option emitter) : M pyval :=
  _emit_event __event_emitter__ (u "status")
    (u "📄 Fetching transcript details for " ++ upper symbol ++ u " " ++ year
       ++ u " " ++ upper quarter) false ;;
  let data := PDict [(u "symbol", PStr (upper symbol));
                     (u "year", PStr year);
                     (u "quarter", PStr (upper quarter))] in
  result <- _make_api_request (u "POST") (u "/investor/transcript-details") data
              (Some (valves self)) ;;
  (if isinstance_dict result && key_in (u "error") result then
     _emit_event __event_emitter__ (u "status")
       (u "❌ Failed to fetch transcript: "
          ++ py_str (get result (u "error") (PStr (u "Unknown error")))) true
   else
     _emit_event __event_emitter__ (u "status")
       (u "✅ Successfully fetched transcript for " ++ upper symbol ++ u " " ++ year
          ++ u " " ++ upper quarter) true ;;
     if isinstance_dict result then
       let citation := get result (u "citation") (PStr (u "")) in
       let quotes := get result (u "quotes") (PStr (u "")) in
       _emit_citation __event_emitter__ quotes citation
         (PStr (u "https://levelvc.com"))
     else ret tt) ;;
  ret result.

Definition semantic_search_knowledge (self : Tools) (query search_type limit : str)
  (entity_type : option str) (extract_quotes : bool)
  (__event_emitter__ : option emitter) : M pyval :=
  let search_details :=
    u "query='" ++ query ++ u "', search_type='" ++ search_type
      ++ u "', limit=" ++ limit in
  let search_details :=
    if truthy entity_type
    then search_details ++ u ", entity_type=" ++ py_str (opt entity_type)
    else search_details in
  _emit_event __event_emitter__ (u "status")
    (u "🧠 Searching knowledge base with semantic search ("
       ++ search_details ++ u ")") false ;;
  let data := PDict [(u "query", PStr query);
                     (u "search_type", PStr search_type);
                     (u "limit", PStr limit);
                     (u "entity_type", opt entity_type);
                     (u "extract_quotes", PBool extract_quotes)] in
  result <- _make_api_request (u "POST") (u "/investor/semantic-search-knowledge") data
              (Some (valves self)) ;;
  (if isinstance_dict result && key_in (u "error") result then
     _emit_event __event_emitter__ (u "status")
       (u "❌ Knowledge search failed: "
          ++ py_str (get result (u "error") (PStr (u "Unknown error")))) true
   else
     result_count <-
       (if isinstance_list result then len result else ret (PStr (u "unknown"))) ;;
     _emit_event __event_emitter__ (u "status")
       (u "✅ Knowledge search completed - found " ++ py_str result_count
          ++ u " results") true ;;
     if isinstance_list result then
       for_each (items_of result) (fun item =>
         if isinstance_dict item then
           let title := get item (u "title") (PStr (u "Unknown")) in
           let url := get item (u "public_url") (PStr (u "")) in
           let quotes := get item (u "quotes") (PStr (u "")) in
           _emit_citation __event_emitter__ quotes
             (PStr (u "Knowledge Page " ++ py_str title)) url
         else ret tt)
     else ret tt) ;;
  ret result.

Definition find_similar_organizations (self : Tools) (query search_type limit : str)
  (country_code funding_stage level_portfolio min_funding_usd max_funding_usd
     min_market_cap max_market_cap : option str)
  (status : str) (use_reference_org : bool) (reference_search_method : str)
  (use_llm_filtering : bool) (__event_emitter__ : option emitter) : M pyval :=
  let search_details :=
    u "query='" ++ query ++ u "', search_type='" ++ search_type
      ++ u "', limit=" ++ limit in
  let search_details :=
    if truthy country_code
    then search_details ++ u ", country=" ++ py_str (opt country_code)
    else search_details in
  let search_details :=
    if truthy funding_stage
    then search_details ++ u ", stage=" ++ py_str (opt funding_stage)
    else search_details in
  let search_details :=
    if use_reference_org then search_details ++ u ", reference_org=True"
    else search_details in
  _emit_event __event_emitter__ (u "status")
    (u "🏢 Finding similar organizations (" ++ search_details ++ u ")") false ;;
  let data := PDict [(u "query", PStr query);
                     (u "search_type", PStr search_type);
                     (u "limit", PStr limit);
                     (u "country_code", opt country_code);
                     (u "funding_stage", opt funding_stage);
                     (u "level_portfolio", opt level_portfolio);
                     (u "min_funding_usd", opt min_funding_usd);
                     (u "max_funding_usd", opt max_funding_usd);
                     (u "min_market_cap", opt min_market_cap);
                     (u "max_market_cap", opt max_market_cap);
                     (u "status", PStr status);
                     (u "use_reference_org", PBool use_reference_org);
                     (u "reference_search_method", PStr reference_search_method);
                     (u "use_llm_filtering", PBool use_llm_filtering)] in
  result <- _make_api_request (u "POST") (u "/investor/similar-organizations") data
              (Some (valves self)) ;;
  (if isinstance_dict result && key_in (u "error") result then
     _emit_event __event_emitter__ (u "status")
       (u "❌ Organization search failed: "
          ++ py_str (get result (u "error") (PStr (u "Unknown error")))) true
   else
     result_count <-
       (if isinstance_list result then len result else ret (PStr (u "unknown"))) ;;
     _emit_event __event_emitter__ (u "status")
       (u "✅ Found " ++ py_str result_count ++ u " similar organizations") true) ;;
  ret result.

Definition get_organization_details (self : Tools) (identifier search_by : str)
  (__event_emitter__ : option emitter) : M pyval :=
  _emit_event __event_emitter__ (u "status")
    (u "🏢 Fetching organization details for " ++ identifier ++ u " (by "
       ++ search_by ++ u ")") false ;;
  let data := PDict [(u "identifier", PStr identifier);
                     (u "search_by", PStr search_by)] in
  result <- _make_api_request (u "POST") (u "/investor/organization-details") data
              (Some (valves self)) ;;
  (if isinstance_dict result && key_in (u "error") result then
     _emit_event __event_emitter__ (u "status")
       (u "❌ Failed to fetch organization details: "
          ++ py_str (get result (u "error") (PStr (u "Unknown error")))) true
   else
     let org_name :=
       if isinstance_dict result
       then get result (u "name") (PStr identifier)
       else PStr identifier in
     _emit_event __event_emitter__ (u "status")
       (u "✅ Successfully fetched details for " ++ py_str org_name) true) ;;
  ret result.

Definition search_documents (self : Tools) (query search_type limit : str)
  (author tags : option str) (extract_quotes : bool)
  (__event_emitter__ : option emitter) : M pyval :=
  let search_details :=
    u "query='" ++ query ++ u "', search_type='" ++ search_type
      ++ u "', limit=" ++ limit in
  let search_details :=
    if truthy author then search_details ++ u ", author=" ++ py_str (opt author)
    else search_details in
  let search_details :=
    if truthy tags then search_details ++ u ", tags=" ++ py_str (opt tags)
    else search_details in
  _emit_event __event_emitter__ (u "status")
    (u "📄 Searching documents (" ++ search_details ++ u ")") false ;;
  let data := PDict [(u "query", PStr query);
                     (u "search_type", PStr search_type);
                     (u "limit", PStr limit);
                     (u "author", opt author);
                     (u "tags", opt tags);
                     (u "extract_quotes", PBool extract_quotes)] in
  result <- _make_api_request (u "POST") (u "/investor/search-documents") data
              (Some (valves self)) ;;
  (if isinstance_dict result && key_in (u "error") result then
     _emit_event __event_emitter__ (u "status")
       (u "❌ Document search failed: "
          ++ py_str (get result (u "error") (PStr (u "Unknown error")))) true
   else
     result_count <-
       (if isinstance_list result then len result else ret (PStr (u "unknown"))) ;;
     _emit_event __event_emitter__ (u "status")
       (u "✅ Document search completed - found " ++ py_str result_count
          ++ u " documents") true) ;;
  ret result.

Definition list_recent_documents (self : Tools) (limit : str)
  (author tags : option str) (__event_emitter__ : option emitter) : M pyval :=
  let filter_details := u "limit=" ++ limit in
  let filter_details :=
    if truthy author then filter_details ++ u ", author=" ++ py_str (opt author)
    else filter_details in
  let filter_details :=
    if truthy tags then filter_details ++ u ", tags=" ++ py_str (opt tags)
    else filter_details in
  _emit_event __event_emitter__ (u "status")
    (u "📅 Fetching recent documents (" ++ filter_details ++ u ")") false ;;
  let data := PDict [(u "limit", PStr limit);
                     (u "author", opt author);
                     (u "tags", opt tags)] in
  result <- _make_api_request (u "POST") (u "/investor/recent-documents") data
              (Some (valves self)) ;;
  (if isinstance_dict result && key_in (u "error") result then
     _emit_event __event_emitter__ (u "status")
       (u "❌ Failed to fetch recent documents: "
          ++ py_str (get result (u "error") (PStr (u "Unknown error")))) true
   else
     doc_count <-
       (if isinstance_list result then len result else ret (PStr (u "unknown"))) ;;
     _emit_event __event_emitter__ (u "status")
       (u "✅ Successfully fetched " ++ py_str doc_count ++ u " recent documents")
       true) ;;
  ret result.

Definition keyword_search_knowledge (self : Tools) (keywords limit : str)
  (entity_type : option str) (match_type : str) (extract_quotes : bool)
  (__event_emitter__ : option emitter) : M pyval :=
  let search_details :=
    u "keywords='" ++ keywords ++ u "', match_type='" ++ match_type
      ++ u "', limit=" ++ limit in
  let search_details :=
    if truthy entity_type
    then search_details ++ u ", entity_type=" ++ py_str (opt entity_type)
    else search_details in
  _emit_event __event_emitter__ (u "status")
    (u "🔍 Searching knowledge base with keywords (" ++ search_details ++ u ")")
    false ;;
  let data := PDict [(u "keywords", PStr keywords);
                     (u "limit", PStr limit);
                     (u "entity_type", opt entity_type);
                     (u "match_type", PStr match_type);
                     (u "extract_quotes", PBool extract_quotes)] in
  result <- _make_api_request (u "POST") (u "/investor/keyword-search-knowledge") data
              (Some (valves self)) ;;
  (if isinstance_dict result && key_in (u "error") result then
     _emit_event __event_emitter__ (u "status")
       (u "❌ Knowledge keyword search failed: "
          ++ py_str (get result (u "error") (PStr (u "Unknown error")))) true
   else
     result_count <-
       (if isinstance_list result then len result else ret (PStr (u "unknown"))) ;;
     _emit_event __event_emitter__ (u "status")
       (u "✅ Knowledge keyword search completed - found " ++ py_str result_count
          ++ u " results") true ;;
     if isinstance_list result then
       for_each (items_of result) (fun item =>
         if isinstance_dict item then
           let title := get item (u "title") (PStr (u "Unknown")) in
           let url := get item (u "public_url") (PStr (u "")) in
           let quotes := get item (u "quotes") (PStr (u "")) in
           _emit_citation __event_emitter__ quotes
             (PStr (u "Knowledge Page " ++ py_str title)) url
         else ret tt)
     else ret tt) ;;
  ret result.

Definition fetch_knowledge_page (self : Tools) (uuid : str)
  (__event_emitter__ : option emitter) : M pyval :=
  _emit_event __event_emitter__ (u "status")
    (u "📃 Fetching knowledge page " ++ uuid) false ;;
  let data := PDict [(u "uuid", PStr uuid)] in
  result <- _make_api_request (u "POST") (u "/investor/fetch-knowledge-page") data
              (Some (valves self)) ;;
  (if isinstance_dict result && key_in (u "error") result then
     _emit_event __event_emitter__ (u "status")
       (u "❌ Failed to fetch knowledge page: "
          ++ py_str (get result (u "error") (PStr (u "Unknown error")))) true
   else
     let page_title :=
       if isinstance_dict result then get result (u "title") (PStr uuid)
       else PStr uuid in
     _emit_event __event_emitter__ (u "status")
       (u "✅ Successfully fetched knowledge page: " ++ py_str page_title) true ;;
     if isinstance_dict result then
       let title := get result (u "title") (PStr (u "Unknown")) in
       let url := get result (u "public_url") (PStr (u "")) in
       let quotes := get result (u "quotes") (PStr (u "")) in
       _emit_citation __event_emitter__ quotes
         (PStr (u "Knowledge Page " ++ py_str title)) url
     else ret tt) ;;
  ret result.

Definition get_document_details (self : Tools) (uuid : str)
  (__event_emitter__ : option emitter) : M pyval :=
  _emit_event __event_emitter__ (u "status")
    (u "📄 Fetching document details for " ++ uuid) false ;;
  let data := PDict [(u "uuid", PStr uuid)] in
  result <- _make_api_request (u "POST") (u "/investor/document-details") data
              (Some (valves self)) ;;
  (if isinstance_dict result && key_in (u "error") result then
     _emit_event __event_emitter__ (u "status")
       (u "❌ Failed to fetch document details: "
          ++ py_str (get result (u "error") (PStr (u "Unknown error")))) true
   else
     let doc_title :=
       if isinstance_dict result then get result (u "title") (PStr uuid)
       else PStr uuid in
     _emit_event __event_emitter__ (u "status")
       (u "✅ Successfully fetched document: " ++ py_str doc_title) true) ;;
  ret result.

(** *** An invocation of a tool operation *)

(** The operations of both classes with their arguments, as the host
    calls them. *)
Inductive tool_call : Type :=
| Read_athena_query (query : str)
| Read_rds_query (query : str)
| Get_athena_table_info (table_name : str)
| Semantic_search_transcripts (query search_type limit : str)
    (symbol year quarter min_year max_year : option str) (extract_quotes : bool)
| Keyword_search_transcripts (keywords limit : str)
    (symbol year quarter min_year max_year : option str) (match_type : str)
    (extract_quotes : bool)
| Get_transcript_details (symbol year quarter : str)
| Semantic_search_knowledge (query search_type limit : str)
    (entity_type : option str) (extract_quotes : bool)
| Find_similar_organizations (query search_type limit : str)
    (country_code funding_stage level_portfolio min_funding_usd max_funding_usd
       min_market_cap max_market_cap : option str)
    (status : str) (use_reference_org : bool) (reference_search_method : str)
    (use_llm_filtering : bool)
| Get_organization_details (identifier search_by : str)
| Search_documents (query search_type limit : str) (author tags : option str)
    (extract_quotes : bool)
| List_recent_documents (limit : str) (author tags : option str)
| Keyword_search_knowledge (keywords limit : str) (entity_type : option str)
    (match_type : str) (extract_quotes : bool)
| Fetch_knowledge_page (uuid : str)
| Get_document_details (uuid : str).

Definition invoke (self : Tools) (c : tool_call) (em : option emitter) : M pyval :=
  match c with
  | Read_athena_query q => read_athena_query self q em
  | Read_rds_query q => read_rds_query self q em
  | Get_athena_table_info t => get_athena_table_info self t em
  | Semantic_search_transcripts q st l sy y qu mi ma ex =>
      semantic_search_transcripts self q st l sy y qu mi ma ex em
  | Keyword_search_transcripts k l sy y qu mi ma mt ex =>
      keyword_search_transcripts self k l sy y qu mi ma mt ex em
  | Get_transcript_details sy y qu => get_transcript_details self sy y qu em
  | Semantic_search_knowledge q st l et ex =>
      semantic_search_knowledge self q st l et ex em
  | Find_similar_organizations q st l cc fs lp mif maf mim mam s ur rm ul =>
      find_similar_organizations self q st l cc fs lp mif maf mim mam s ur rm ul em
  | Get_organization_details i sb => get_organization_details self i sb em
  | Search_documents q st l a t ex => search_documents self q st l a t ex em
  | List_recent_documents l a t => list_recent_documents self l a t em
  | Keyword_search_knowledge k l et mt ex =>
      keyword_search_knowledge self k l et mt ex em
  | Fetch_knowledge_page i => fetch_knowledge_page self i em
  | Get_document_details i => get_document_details self i em
  end.

(** ** The pattern shared by the operations *)

(** The event [_emit_event] builds for the type ["status"], and the one
    [_emit_citation] builds. *)
Definition status (description : str) (done : bool) : pyval :=
  PDict [(u "type", PStr (u "status"));
         (u "data", PDict [(u "description", PStr description);
                           (u "done", PBool done);
                           (u "hidden", PBool false)])].

Definition citation (content title url : pyval) : pyval :=
  PDict [(u "type", PStr (u "citation"));
         (u "data", PDict [(u "document", PList [content]);
                           (u "source", PDict [(u "name", title);
                                               (u "url", url)])])].

(** Passing one event to the emitter, the way both helpers do it. *)
Definition emit (em : option emitter) (event : pyval) : M unit :=
  match em with
  | Some f => try_except isinstance_Exception (await f event) (fun _ => ret tt)
  | None => ret tt
  end.

(** An error-shaped response: a dict with the key ["error"]. *)
Definition is_error (result : pyval) : bool :=
  isinstance_dict result && key_in (u "error") result.

(** What varies from one operation to the next: the text of the start
    event, the request, the text of the terminal event for an
    error-shaped and for another response, and the citations. *)
Record shape : Type := Shape {
  start : str;
  endpoint : str;
  payload : pyval;
  failed : pyval -> str;
  completed : pyval -> outcome str;
  cited : pyval -> list pyval
}.

(** START, DISPATCHED, SUCCESS or ERROR, REPORTED. *)
Definition run_shape (sh : shape) (self : Tools) (em : option emitter) : M pyval :=
  emit em (status (start sh) false) ;;
  result <- _make_api_request (u "POST") (endpoint sh) (payload sh)
              (Some (valves self)) ;;
  (if is_error result then emit em (status (failed sh result) true)
   else
     description <- lift (completed sh result) ;;
     emit em (status description true) ;;
     for_each (cited sh result) (emit em)) ;;
  ret result.

Definition error_text (result : pyval) : str :=
  py_str (get result (u "error") (PStr (u "Unknown error"))).

(** [len(result) if isinstance(result, list) else "unknown"] *)
Definition count_of (result : pyval) : pyval :=
  match result with
  | PList l => PInt (Z.of_nat (List.length l))
  | _ => PStr (u "unknown")
  end.

(** [result.get(key, default) if isinstance(result, dict) else default] *)
Definition field_of (result : pyval) (key : str) (default : pyval) : pyval :=
  if isinstance_dict result then get result key default else default.

Definition preview (query : str) : str :=
  if (100 <? List.length query)%nat then firstn 100 query ++ u "..." else query.

Definition with_filter (label : string) (value : option str) (details : str) : str :=
  if truthy value then details ++ u label ++ py_str (opt value) else details.

(** The citation of a transcript item and of a knowledge item. *)
Definition transcript_citation (item : pyval) : pyval :=
  citation (get item (u "quotes") (PStr (u "")))
           (get item (u "citation") (PStr (u "")))
           (PStr (u "https://levelvc.com")).

Definition knowledge_citation (item : pyval) : pyval :=
  citation (get item (u "quotes") (PStr (u "")))
           (PStr (u "Knowledge Page "
                    ++ py_str (get item (u "title") (PStr (u "Unknown")))))
           (get item (u "public_url") (PStr (u ""))).

(** One citation per dict among the items of a list. *)
Definition cite_items (cite : pyval -> pyval) (result : pyval) : list pyval :=
  flat_map (fun item => if isinstance_dict item then [cite item] else [])
           (items_of result).

(** One citation for a dict. *)
Definition cite_dict (cite : pyval -> pyval) (result : pyval) : list pyval :=
  if isinstance_dict result then [cite result] else [].

Definition no_citation (result : pyval) : list pyval := [].

Definition shape_of (c : tool_call) : shape :=
  match c with
  | Read_athena_query query =>
      Shape (u "🔍 Executing Athena query: " ++ preview query)
        (u "/engineer/read-athena-query")
        (PDict [(u "query", PStr query)])
        (fun r => u "❌ Athena query failed: " ++ error_text r)
        (fun r => Returns (u "✅ Athena query completed - returned "
                     ++ py_str (field_of r (u "row_count") (PStr (u "unknown")))
                     ++ u " rows"))
        no_citation
  | Read_rds_query query =>
      Shape (u "🐘 Executing PostgreSQL query: " ++ preview query)
        (u "/engineer/read-rds-query")
        (PDict [(u "query", PStr query)])
        (fun r => u "❌ PostgreSQL query failed: " ++ error_text r)
        (fun r => Returns (u "✅ PostgreSQL query completed - returned "
                     ++ py_str (field_of r (u "row_count") (PStr (u "unknown")))
                     ++ u " rows"))
        no_citation
  | Get_athena_table_info table_name =>
      Shape (u "📊 Fetching table schema for " ++ table_name)
        (u "/engineer/get-athena-table-info")
        (PDict [(u "table_name", PStr table_name)])
        (fun r => u "❌ Failed to fetch table info: " ++ error_text r)
        (fun r =>
           match (if isinstance_dict r
                  then match py_len (get r (u "columns") (PList [])) with
                       | Returns n => Returns (PInt n)
                       | Raises e => Raises e
                       end
                  else Returns (PStr (u "unknown"))) with
           | Returns columns_count =>
               Returns (u "✅ Successfully fetched schema for " ++ table_name
                          ++ u " - " ++ py_str columns_count ++ u " columns")
           | Raises e => Raises e
           end)
        no_citation
  | Semantic_search_transcripts query search_type limit symbol year quarter
      min_year max_year extract_quotes =>
      Shape (u "🔍 Searching earnings transcripts with semantic search ("
               ++ with_filter ", quarter=" quarter
                    (with_filter ", year=" year
                       (with_filter ", symbol=" symbol
                          (u "query='" ++ query ++ u "', search_type='"
                             ++ search_type ++ u "', limit=" ++ limit)))
               ++ u ")")
        (u "/investor/semantic-search-transcripts")
        (PDict [(u "query", PStr query);
                (u "search_type", PStr search_type);
                (u "limit", PStr limit);
                (u "symbol", opt symbol);
                (u "year", opt year);
                (u "quarter", opt quarter);
                (u "min_year", opt min_year);
                (u "max_year", opt max_year);
                (u "extract_quotes", PBool extract_quotes)])
        (fun r => u "❌ Semantic search failed: " ++ error_text r)
        (fun r => Returns (u "✅ Semantic search completed - found "
                     ++ py_str (count_of r) ++ u " results"))
        (cite_items transcript_citation)
  | Keyword_search_transcripts keywords limit symbol year quarter min_year
      max_year match_type extract_quotes =>
      Shape (u "🔍 Searching earnings transcripts with keyword search ("
               ++ with_filter ", quarter=" quarter
                    (with_filter ", year=" year
                       (with_filter ", symbol=" symbol
                          (u "keywords='" ++ keywords ++ u "', match_type='"
                             ++ match_type ++ u "', limit=" ++ limit)))
               ++ u ")")
        (u "/investor/keyword-search-transcripts")
        (PDict [(u "keywords", PStr keywords);
                (u "limit", PStr limit);
                (u "symbol", opt symbol);
                (u "year", opt year);
                (u "quarter", opt quarter);
                (u "min_year", opt min_year);
                (u "max_year", opt max_year);
                (u "match_type", PStr match_type);
                (u "extract_quotes", PBool extract_quotes)])
        (fun r => u "❌ Keyword search failed: " ++ error_text r)
        (fun r => Returns (u "✅ Keyword search completed - found "
                     ++ py_str (count_of r) ++ u " results"))
        (cite_items transcript_citation)
  | Get_transcript_details symbol year quarter =>
      Shape (u "📄 Fetching transcript details for " ++ upper symbol ++ u " "
               ++ year ++ u " " ++ upper quarter)
        (u "/investor/transcript-details")
        (PDict [(u "symbol", PStr (upper symbol));
                (u "year", PStr year);
                (u "quarter", PStr (upper quarter))])
        (fun r => u "❌ Failed to fetch transcript: " ++ error_text r)
        (fun r => Returns (u "✅ Successfully fetched transcript for "
                     ++ upper symbol ++ u " " ++ year ++ u " " ++ upper quarter))
        (cite_dict transcript_citation)
  | Semantic_search_knowledge query search_type limit entity_type extract_quotes =>
      Shape (u "🧠 Searching knowledge base with semantic search ("
               ++ with_filter ", entity_type=" entity_type
                    (u "query='" ++ query ++ u "', search_type='"
                       ++ search_type ++ u "', limit=" ++ limit)
               ++ u ")")
        (u "/investor/semantic-search-knowledge")
        (PDict [(u "query", PStr query);
                (u "search_type", PStr search_type);
                (u "limit", PStr limit);
                (u "entity_type", opt entity_type);
                (u "extract_quotes", PBool extract_quotes)])
        (fun r => u "❌ Knowledge search failed: " ++ error_text r)
        (fun r => Returns (u "✅ Knowledge search completed - found "
                     ++ py_str (count_of r) ++ u " results"))
        (cite_items knowledge_citation)
  | Find_similar_organizations query search_type limit country_code funding_stage
      level_portfolio min_funding_usd max_funding_usd min_market_cap
      max_market_cap status use_reference_org reference_search_method
      use_llm_filtering =>
      Shape (u "🏢 Finding similar organizations ("
               ++ (let details :=
                     with_filter ", stage=" funding_stage
                       (with_filter ", country=" country_code
                          (u "query='" ++ query ++ u "', search_type='"
                             ++ search_type ++ u "', limit=" ++ limit)) in
                   if use_reference_org then details ++ u ", reference_org=True"
                   else details)
               ++ u ")")
        (u "/investor/similar-organizations")
        (PDict [(u "query", PStr query);
                (u "search_type", PStr search_type);
                (u "limit", PStr limit);
                (u "country_code", opt country_code);
                (u "funding_stage", opt funding_stage);
                (u "level_portfolio", opt level_portfolio);
                (u "min_funding_usd", opt min_funding_usd);
                (u "max_funding_usd", opt max_funding_usd);
                (u "min_market_cap", opt min_market_cap);
                (u "max_market_cap", opt max_market_cap);
                (u "status", PStr status);
                (u "use_reference_org", PBool use_reference_org);
                (u "reference_search_method", PStr reference_search_method);
                (u "use_llm_filtering", PBool use_llm_filtering)])
        (fun r => u "❌ Organization search failed: " ++ error_text r)
        (fun r => Returns (u "✅ Found " ++ py_str (count_of r)
                     ++ u " similar organizations"))
        no_citation
  | Get_organization_details identifier search_by =>
      Shape (u "🏢 Fetching organization details for " ++ identifier ++ u " (by "
               ++ search_by ++ u ")")
        (u "/investor/organization-details")
        (PDict [(u "identifier", PStr identifier);
                (u "search_by", PStr search_by)])
        (fun r => u "❌ Failed to fetch organization details: " ++ error_text r)
        (fun r => Returns (u "✅ Successfully fetched details for "
                     ++ py_str (field_of r (u "name") (PStr identifier))))
        no_citation
  | Search_documents query search_type limit author tags extract_quotes =>
      Shape (u "📄 Searching documents ("
               ++ with_filter ", tags=" tags
                    (with_filter ", author=" author
                       (u "query='" ++ query ++ u "', search_type='"
                          ++ search_type ++ u "', limit=" ++ limit))
               ++ u ")")
        (u "/investor/search-documents")
        (PDict [(u "query", PStr query);
                (u "search_type", PStr search_type);
                (u "limit", PStr limit);
                (u "author", opt author);
                (u "tags", opt tags);
                (u "extract_quotes", PBool extract_quotes)])
        (fun r => u "❌ Document search failed: " ++ error_text r)
        (fun r => Returns (u "✅ Document search completed - found "
                     ++ py_str (count_of r) ++ u " documents"))
        no_citation
  | List_recent_documents limit author tags =>
      Shape (u "📅 Fetching recent documents ("
               ++ with_filter ", tags=" tags
                    (with_filter ", author=" author (u "limit=" ++ limit))
               ++ u ")")
        (u "/investor/recent-documents")
        (PDict [(u "limit", PStr limit);
                (u "author", opt author);
                (u "tags", opt tags)])
        (fun r => u "❌ Failed to fetch recent documents: " ++ error_text r)
        (fun r => Returns (u "✅ Successfully fetched " ++ py_str (count_of r)
                     ++ u " recent documents"))
        no_citation
  | Keyword_search_knowledge keywords limit entity_type match_type extract_quotes =>
      Shape (u "🔍 Searching knowledge base with keywords ("
               ++ with_filter ", entity_type=" entity_type
                    (u "keywords='" ++ keywords ++ u "', match_type='"
                       ++ match_type ++ u "', limit=" ++ limit)
               ++ u ")")
        (u "/investor/keyword-search-knowledge")
        (PDict [(u "keywords", PStr keywords);
                (u "limit", PStr limit);
                (u "entity_type", opt entity_type);
                (u "match_type", PStr match_type);
                (u "extract_quotes", PBool extract_quotes)])
        (fun r => u "❌ Knowledge keyword search failed: " ++ error_text r)
        (fun r => Returns (u "✅ Knowledge keyword search completed - found "
                     ++ py_str (count_of r) ++ u " results"))
        (cite_items knowledge_citation)
  | Fetch_knowledge_page uuid =>
      Shape (u "📃 Fetching knowledge page " ++ uuid)
        (u "/investor/fetch-knowledge-page")
        (PDict [(u "uuid", PStr uuid)])
        (fun r => u "❌ Failed to fetch knowledge page: " ++ error_text r)
        (fun r => Returns (u "✅ Successfully fetched knowledge page: "
                     ++ py_str (field_of r (u "title") (PStr uuid))))
        (cite_dict knowledge_citation)
  | Get_document_details uuid =>
      Shape (u "📄 Fetching document details for " ++ uuid)
        (u "/investor/document-details")
        (PDict [(u "uuid", PStr uuid)])
        (fun r => u "❌ Failed to fetch document details: " ++ error_text r)
        (fun r => Returns (u "✅ Successfully fetched document: "
                     ++ py_str (field_of r (u "title") (PStr uuid))))
        no_citation
  end.

(** *** Laws of the monad, pointwise *)

Lemma bind_ext (A B : Type) (m : M A) (k k' : A -> M B) :
  (forall a tr, k a tr = k' a tr) -> forall tr, bind m k tr = bind m k' tr.
Proof.
  intros H tr. unfold bind. destruct (m tr) as [[a|e] tr']; [apply H | reflexivity].
Qed.

Lemma bind_ret_tt (m : M unit) (tr : trace) : bind m (fun _ => ret tt) tr = m tr.
Proof.
  unfold bind, ret. destruct (m tr) as [[[]|e] tr']; reflexivity.
Qed.

Lemma for_each_ext (A : Type) (f g : A -> M unit) (l : list A) :
  (forall a tr, f a tr = g a tr) -> forall tr, for_each l f tr = for_each l g tr.
Proof.
  intros H. induction l as [|x l IH]; intros tr; simpl; [reflexivity|].
  unfold bind. rewrite H. destruct (g x tr) as [[[]|e] tr']; [apply IH | reflexivity].
Qed.

Lemma for_each_flat_map (A B : Type) (f : A -> list B) (body : B -> M unit)
  (l : list A) (tr : trace) :
  for_each (flat_map f l) body tr = for_each l (fun a => for_each (f a) body) tr.
Proof.
  revert tr. induction l as [|x l IH]; intros tr; simpl; [reflexivity|].
  generalize (f x) as ys. intros ys. revert tr.
  induction ys as [|y ys IHy]; intros tr; simpl.
  - unfold bind, ret. simpl. apply IH.
  - unfold bind. destruct (body y tr) as [[[]|e] tr']; [|reflexivity].
    specialize (IHy tr'). unfold bind in IHy. exact IHy.
Qed.

(** *** Every operation follows the pattern *)

Lemma bind_cong (A B : Type) (m m' : M A) (k : A -> M B) :
  (forall tr, m tr = m' tr) -> forall tr, bind m k tr = bind m' k tr.
Proof. intros H tr. unfold bind. rewrite H. reflexivity. Qed.

Lemma bind_lift_Returns (A B : Type) (a : A) (k : A -> M B) (tr : trace) :
  bind (lift (Returns a)) k tr = k a tr.
Proof. reflexivity. Qed.

Lemma for_each_cite_items (em : option emitter) (cite : pyval -> pyval)
  (result : pyval) (tr : trace) :
  for_each (cite_items cite result) (emit em) tr
  = for_each (items_of result)
      (fun item => if isinstance_dict item then emit em (cite item) else ret tt) tr.
Proof.
  unfold cite_items. rewrite for_each_flat_map. apply for_each_ext.
  intros item tr'. destruct (isinstance_dict item); simpl; [apply bind_ret_tt | reflexivity].
Qed.

Lemma for_each_cite_dict (em : option emitter) (cite : pyval -> pyval)
  (result : pyval) (tr : trace) :
  for_each (cite_dict cite result) (emit em) tr
  = (if isinstance_dict result then emit em (cite result) else ret tt) tr.
Proof.
  unfold cite_dict. destruct (isinstance_dict result); simpl;
    [apply bind_ret_tt | reflexivity].
Qed.

Lemma bind_ret (A B : Type) (a : A) (k : A -> M B) (tr : trace) :
  bind (ret a) k tr = k a tr.
Proof. reflexivity. Qed.

Lemma bind_len (B : Type) (v : pyval) (k : pyval -> M B) (tr : trace) :
  bind (len v) k tr
  = match py_len v with
    | Returns n => k (PInt n) tr
    | Raises e => (Raises e, tr)
    end.
Proof. unfold len, bind, lift, ret. destruct (py_len v); reflexivity. Qed.

(** From here on literals are compared as written, without decoding them. *)
Opaque u.

(** The forms the branch for a response without error takes. *)
Ltac plain_report :=
  cbn [shape_of completed cited];
  rewrite bind_lift_Returns; unfold no_citation; cbn [for_each];
  rewrite bind_ret_tt; reflexivity.

Ltac dict_report :=
  cbn [shape_of completed cited];
  rewrite bind_lift_Returns;
  apply bind_ext; intros _ ?; rewrite for_each_cite_dict; reflexivity.

Ltac count_report :=
  cbn [shape_of completed cited];
  rewrite bind_lift_Returns;
  match goal with
  | |- context [isinstance_list ?r] =>
      destruct r; cbn [isinstance_list];
      rewrite ?bind_len, ?bind_ret; cbn [py_len count_of];
      unfold no_citation; cbn [for_each]; rewrite bind_ret_tt; reflexivity
  end.

Ltac list_report :=
  cbn [shape_of completed cited];
  rewrite bind_lift_Returns;
  match goal with
  | |- context [isinstance_list ?r] =>
      destruct r; cbn [isinstance_list];
      rewrite ?bind_len, ?bind_ret; cbn [py_len count_of];
      apply bind_ext; intros _ ?; rewrite for_each_cite_items; reflexivity
  end.

Lemma invoke_run_shape (self : Tools) (c : tool_call) (em : option emitter) (tr : trace) :
  invoke self c em tr = run_shape (shape_of c) self em tr.
Proof.
  destruct c; unfold invoke, run_shape.
  all: apply bind_ext; intros _ ?; apply bind_ext; intros result ?;
       apply bind_cong; clear; intros tr; unfold is_error;
       destruct (isinstance_dict result && key_in (u "error") result) eqn:E;
       [reflexivity|].
  all: try plain_report.
  all: try dict_report.
  all: try count_report.
  all: try list_report.
  cbn [shape_of completed cited]; unfold no_citation; cbn [for_each].
  destruct result; cbn [isinstance_dict get];
    rewrite ?bind_ret, ?bind_lift_Returns, ?bind_ret_tt; try reflexivity.
  rewrite bind_len.
  destruct (py_len (dict_get items (u "columns") (PList []))).
  - rewrite bind_lift_Returns, bind_ret_tt. reflexivity.
  - reflexivity.
Qed.

(** *** What the dispatcher and the emitter do to the trace *)

(** The dispatcher run on its own. *)
Definition dispatched (method endpoint : str) (data : pyval)
  (valves : option Valves) : outcome pyval * trace :=
  _make_api_request method endpoint data valves [].

Lemma dispatch_appends (method endpoint : str) (data : pyval)
  (valves : option Valves) (tr : trace) :
  _make_api_request method endpoint data valves tr
  = (fst (dispatched method endpoint data valves),
     tr ++ snd (dispatched method endpoint data valves)).
Proof.
  unfold dispatched, _make_api_request, getattr_api_key, try_except, bind, ret, lift,
    requests_get, requests_post.
  destruct valves as [v|]; cbn [fst snd]; [|now rewrite app_nil_r].
  destruct (str_eqb (upper method) (u "GET")).
  - cbn [app]. destruct (requests _) as [resp|e]; cbn [fst snd].
    + destruct (raise_for_status resp) as [[]|e]; cbn [fst snd].
      * destruct (json resp) as [v'|e]; cbn [fst snd]; [reflexivity|].
        destruct (isinstance_RequestException e); reflexivity.
      * destruct (isinstance_RequestException e); reflexivity.
    + destruct (isinstance_RequestException e); reflexivity.
  - destruct (str_eqb (upper method) (u "POST")).
    + cbn [app]. destruct (requests _) as [resp|e]; cbn [fst snd].
      * destruct (raise_for_status resp) as [[]|e]; cbn [fst snd].
        -- destruct (json resp) as [v'|e]; cbn [fst snd]; [reflexivity|].
           destruct (isinstance_RequestException e); reflexivity.
        -- destruct (isinstance_RequestException e); reflexivity.
      * destruct (isinstance_RequestException e); reflexivity.
    + cbn [fst snd]. now rewrite app_nil_r.
Qed.

(** The actions of the dispatcher are calls of [requests]. *)
Definition is_http (a : action) : bool :=
  match a with Http _ => true | Emit _ => false end.

Lemma dispatched_http (method endpoint : str) (data : pyval) (valves : option Valves) :
  forallb is_http (snd (dispatched method endpoint data valves)) = true.
Proof.
  unfold dispatched, _make_api_request, getattr_api_key, try_except, bind, ret, lift,
    requests_get, requests_post.
  destruct valves as [v|]; [|reflexivity].
  destruct (str_eqb (upper method) (u "GET")).
  - cbn [app]. destruct (requests _) as [resp|e].
    + destruct (raise_for_status resp) as [[]|e].
      * destruct (json resp) as [v'|e]; [reflexivity|].
        destruct (isinstance_RequestException e); reflexivity.
      * destruct (isinstance_RequestException e); reflexivity.
    + destruct (isinstance_RequestException e); reflexivity.
  - destruct (str_eqb (upper method) (u "POST")); [|reflexivity].
    cbn [app]. destruct (requests _) as [resp|e].
    + destruct (raise_for_status resp) as [[]|e].
      * destruct (json resp) as [v'|e]; [reflexivity|].
        destruct (isinstance_RequestException e); reflexivity.
      * destruct (isinstance_RequestException e); reflexivity.
    + destruct (isinstance_RequestException e); reflexivity.
Qed.

(** What an emitter adds to the trace for one event. *)
Definition emitted (em : option emitter) (event : pyval) : trace :=
  match em with Some _ => [Emit event] | None => [] end.

(** An emitter that fails only with exceptions the helpers swallow. *)
Definition benign (em : option emitter) : Prop :=
  forall f tr ev e, em = Some f -> f tr ev = Some e -> isinstance_Exception e = true.

Lemma emit_cases (em : option emitter) (ev : pyval) (tr : trace) :
  emit em ev tr = (Returns tt, tr ++ emitted em ev)
  \/ exists f e, em = Some f /\ f tr ev = Some e /\ isinstance_Exception e = false
                 /\ emit em ev tr = (Raises e, tr ++ emitted em ev).
Proof.
  destruct em as [f|]; cbn.
  - unfold try_except, await. destruct (f tr ev) as [e|] eqn:F.
    + destruct (isinstance_Exception e) eqn:I.
      * left. reflexivity.
      * right. exists f, e. repeat split; assumption.
    + left. reflexivity.
  - left. unfold ret. now rewrite app_nil_r.
Qed.

(** *** The run of an operation, in closed form *)

(** What an operation returns and the whole trace it leaves when no
    emission aborts it. *)
Definition full_run (sh : shape) (self : Tools) (em : option emitter)
  : outcome pyval * trace :=
  let d := dispatched (u "POST") (endpoint sh) (payload sh) (Some (valves self)) in
  let tr1 := emitted em (status (start sh) false) ++ snd d in
  match fst d with
  | Raises e => (Raises e, tr1)
  | Returns r =>
      if is_error r then (Returns r, tr1 ++ emitted em (status (failed sh r) true))
      else
        match completed sh r with
        | Raises e => (Raises e, tr1)
        | Returns description =>
            (Returns r, tr1 ++ emitted em (status description true)
                            ++ flat_map (emitted em) (cited sh r))
        end
  end.

(** A run that an exception of the emitter cut short: the exception is
    not an [Exception], and the trace is a prefix of the full one. *)
Definition cut_short (em : option emitter) (run full : outcome pyval * trace) : Prop :=
  exists e rest f tr ev,
    fst run = Raises e /\ isinstance_Exception e = false
    /\ em = Some f /\ f tr ev = Some e
    /\ snd full = snd run ++ rest.

Lemma for_each_emit (em : option emitter) (l : list pyval) (tr : trace) :
  for_each l (emit em) tr = (Returns tt, tr ++ flat_map (emitted em) l)
  \/ exists e rest f tr0 ev tr',
       for_each l (emit em) tr = (Raises e, tr')
       /\ isinstance_Exception e = false /\ em = Some f /\ f tr0 ev = Some e
       /\ tr ++ flat_map (emitted em) l = tr' ++ rest.
Proof.
  revert tr. induction l as [|x l IH]; intros tr; cbn [for_each flat_map].
  - left. unfold ret. now rewrite app_nil_r.
  - unfold bind.
    destruct (emit_cases em x tr) as [H|(f & e & Em & F & I & H)]; rewrite H.
    + destruct (IH (tr ++ emitted em x))
        as [H'|(e & rest & f & tr0 & ev & tr' & H' & I & Em & F & P)].
      * left. rewrite H'. now rewrite app_assoc.
      * right. exists e, rest, f, tr0, ev, tr'. rewrite H'.
        repeat split; try assumption. now rewrite app_assoc.
    + right. exists e, (flat_map (emitted em) l), f, tr, x, (tr ++ emitted em x).
      repeat split; try assumption. now rewrite app_assoc.
Qed.

Lemma run_shape_cases (sh : shape) (self : Tools) (em : option emitter) :
  run_shape sh self em [] = full_run sh self em
  \/ cut_short em (run_shape sh self em []) (full_run sh self em).
Proof.
  unfold cut_short, full_run, run_shape.
  set (d := dispatched (u "POST") (endpoint sh) (payload sh) (Some (valves self))).
  unfold bind, lift, ret.
  destruct (emit_cases em (status (start sh) false) [])
    as [H|(f & e & Em & F & I & H)]; rewrite H; cbv beta iota; cbn [app].
  2:{ right. exists e.
      destruct (fst d) as [r|e'];
        [destruct (is_error r); [|destruct (completed sh r)]|];
        eexists; exists f, [], (status (start sh) false); cbn [fst snd];
        (repeat split; try assumption); rewrite <- ?app_assoc; reflexivity. }
  rewrite dispatch_appends. fold d. cbv beta iota.
  destruct (fst d) as [r|e']; cbv beta iota; [|left; reflexivity].
  destruct (is_error r).
  - destruct (emit_cases em (status (failed sh r) true)
                (emitted em (status (start sh) false) ++ snd d))
      as [H1|(f & e & Em & F & I & H1)]; rewrite H1; cbv beta iota.
    + left. reflexivity.
    + right. exists e, [], f. do 2 eexists. cbn [fst snd].
      repeat split; try eassumption. now rewrite app_nil_r.
  - destruct (completed sh r) as [description|e']; cbv beta iota; [|left; reflexivity].
    destruct (emit_cases em (status description true)
                (emitted em (status (start sh) false) ++ snd d))
      as [H1|(f & e & Em & F & I & H1)]; rewrite H1; cbv beta iota.
    + destruct (for_each_emit em (cited sh r)
                  ((emitted em (status (start sh) false) ++ snd d)
                     ++ emitted em (status description true)))
        as [H2|(e & rest & f & tr0 & ev & tr' & H2 & I & Em & F & P)];
        rewrite H2; cbv beta iota.
      * left. now rewrite <- !app_assoc.
      * right. exists e, rest, f, tr0, ev. cbn [fst snd].
        repeat split; try assumption. rewrite <- P. now rewrite <- !app_assoc.
    + right. exists e. eexists. exists f. do 2 eexists. cbn [fst snd].
      repeat split; try eassumption. now rewrite <- !app_assoc.
Qed.

Lemma run_shape_benign (sh : shape) (self : Tools) (em : option emitter) :
  benign em -> run_shape sh self em [] = full_run sh self em.
Proof.
  intros B. destruct (run_shape_cases sh self em)
    as [H|(e & rest & f & tr & ev & _ & I & Em & F & _)]; [exact H|].
  rewrite (B f tr ev e Em F) in I. discriminate.
Qed.

Lemma run_shape_prefix (sh : shape) (self : Tools) (em : option emitter) :
  exists rest, snd (full_run sh self em) = snd (run_shape sh self em []) ++ rest.
Proof.
  destruct (run_shape_cases sh self em)
    as [H|(e & rest & f & tr & ev & _ & _ & _ & _ & P)].
  - exists []. rewrite H. now rewrite app_nil_r.
  - exists rest. exact P.
Qed.

(** The same for the operations themselves. *)
Definition run (self : Tools) (c : tool_call) (em : option emitter)
  : outcome pyval * trace :=
  invoke self c em [].

Definition full (self : Tools) (c : tool_call) (em : option emitter)
  : outcome pyval * trace :=
  full_run (shape_of c) self em.

Lemma run_benign (self : Tools) (c : tool_call) (em : option emitter) :
  benign em -> run self c em = full self c em.
Proof. intros B. unfold run. rewrite invoke_run_shape. now apply run_shape_benign. Qed.

Lemma run_prefix (self : Tools) (c : tool_call) (em : option emitter) :
  exists rest, snd (full self c em) = snd (run self c em) ++ rest.
Proof. unfold run. rewrite invoke_run_shape. apply run_shape_prefix. Qed.

Lemma run_cases (self : Tools) (c : tool_call) (em : option emitter) :
  run self c em = full self c em \/ cut_short em (run self c em) (full self c em).
Proof. unfold run. rewrite invoke_run_shape. apply run_shape_cases. Qed.

(** ** The dispatcher *)

Lemma str_eqb_eq (a b : str) : str_eqb a b = true <-> a = b.
Proof.
  revert b. induction a as [|x a IH]; intros [|y b]; cbn [str_eqb];
    try (split; [discriminate | discriminate]); try (split; reflexivity).
  rewrite andb_true_iff, N.eqb_eq, IH. split.
  - intros [-> ->]. reflexivity.
  - intros H. injection H as -> ->. split; reflexivity.
Qed.

Lemma str_eqb_neq (a b : str) : a <> b -> str_eqb a b = false.
Proof.
  intros H. destruct (str_eqb a b) eqn:E; [|reflexivity].
  apply str_eqb_eq in E. contradiction.
Qed.

(** The headers the dispatcher builds from the credential. *)
Definition api_headers (v : Valves) : list (str * str) :=
  [(u "Authorization", u "Bearer " ++ api_key v);
   (u "Content-Type", u "application/json")].

(** The call of [requests] for a method that upper-cases to GET, and for
    one that upper-cases to POST. *)
Definition get_request (endpoint : str) (v : Valves) : request :=
  Request GET (u "https://api.lvcdev.com" ++ endpoint) (api_headers v) None.

Definition post_request (endpoint : str) (data : pyval) (v : Valves) : request :=
  Request POST (u "https://api.lvcdev.com" ++ endpoint) (api_headers v) (Some data).

(** The first exception among the call, [raise_for_status] and [json]. *)
Definition transport_failure (r : request) : option exception :=
  match requests r with
  | Raises e => Some e
  | Returns response =>
      match raise_for_status response with
      | Raises e => Some e
      | Returns _ =>
          match json response with
          | Raises e => Some e
          | Returns _ => None
          end
      end
  end.

(** What the dispatcher makes of the answer to the request [r]. *)
Definition answer (r : request) : outcome pyval :=
  match requests r with
  | Raises e =>
      if isinstance_RequestException e
      then Returns (PDict [(u "error", PStr (u "API request failed: " ++ exc_str e))])
      else Raises e
  | Returns response =>
      match raise_for_status response with
      | Raises e =>
          if isinstance_RequestException e
          then Returns (PDict [(u "error", PStr (u "API request failed: " ++ exc_str e))])
          else Raises e
      | Returns _ =>
          match json response with
          | Raises e =>
              if isinstance_RequestException e
              then Returns (PDict [(u "error",
                                     PStr (u "API request failed: " ++ exc_str e))])
              else Raises e
          | Returns value => Returns value
          end
      end
  end.

Lemma dispatch_get (method endpoint : str) (data : pyval) (v : Valves) (tr : trace) :
  upper method = u "GET" ->
  _make_api_request method endpoint data (Some v) tr
  = (answer (get_request endpoint v), tr ++ [Http (get_request endpoint v)]).
Proof.
  intros G. unfold _make_api_request, getattr_api_key, try_except, bind, ret, lift,
    requests_get, answer.
  rewrite G. replace (str_eqb (u "GET") (u "GET")) with true by (vm_compute; reflexivity).
  fold (api_headers v). fold (get_request endpoint v).
  destruct (requests (get_request endpoint v)) as [resp|e].
  - destruct (raise_for_status resp) as [[]|e].
    + destruct (json resp) as [v'|e]; [reflexivity|].
      destruct (isinstance_RequestException e); reflexivity.
    + destruct (isinstance_RequestException e); reflexivity.
  - destruct (isinstance_RequestException e); reflexivity.
Qed.

Lemma dispatch_post (method endpoint : str) (data : pyval) (v : Valves) (tr : trace) :
  upper method = u "POST" ->
  _make_api_request method endpoint data (Some v) tr
  = (answer (post_request endpoint data v),
     tr ++ [Http (post_request endpoint data v)]).
Proof.
  intros G. unfold _make_api_request, getattr_api_key, try_except, bind, ret, lift,
    requests_post, answer.
  rewrite G.
  replace (str_eqb (u "POST") (u "GET")) with false by (vm_compute; reflexivity).
  replace (str_eqb (u "POST") (u "POST")) with true by (vm_compute; reflexivity).
  fold (api_headers v). fold (post_request endpoint data v).
  destruct (requests (post_request endpoint data v)) as [resp|e].
  - destruct (raise_for_status resp) as [[]|e].
    + destruct (json resp) as [v'|e]; [reflexivity|].
      destruct (isinstance_RequestException e); reflexivity.
    + destruct (isinstance_RequestException e); reflexivity.
  - destruct (isinstance_RequestException e); reflexivity.
Qed.

Lemma dispatch_unsupported (method endpoint : str) (data : pyval) (v : Valves)
  (tr : trace) :
  upper method <> u "GET" -> upper method <> u "POST" ->
  _make_api_request method endpoint data (Some v) tr
  = (Returns (PDict [(u "error", PStr (u "Unsupported HTTP method: " ++ method))]), tr).
Proof.
  intros G P. unfold _make_api_request, getattr_api_key, try_except, bind, ret, lift.
  rewrite (str_eqb_neq G), (str_eqb_neq P). reflexivity.
Qed.

(** C3, as amended.  The dispatcher compares the upper-cased method: a
    method that upper-cases to neither GET nor POST gets the error
    response that quotes the caller's method as it was given, and the
    trace is left as it was, so [requests] is not called; a method that
    upper-cases to GET or to POST makes exactly one call. *)
Theorem dispatcher_methods (method endpoint : str) (data : pyval) (v : Valves)
  (tr : trace) :
  (upper method <> u "GET" -> upper method <> u "POST" ->
   _make_api_request method endpoint data (Some v) tr
   = (Returns (PDict [(u "error", PStr (u "Unsupported HTTP method: " ++ method))]),
      tr))
  /\ (upper method = u "GET" ->
      snd (_make_api_request method endpoint data (Some v) tr)
      = tr ++ [Http (get_request endpoint v)])
  /\ (upper method = u "POST" ->
      snd (_make_api_request method endpoint data (Some v) tr)
      = tr ++ [Http (post_request endpoint data v)]).
Proof.
  split; [|split].
  - apply dispatch_unsupported.
  - intros G. now rewrite dispatch_get.
  - intros P. now rewrite dispatch_post.
Qed.

Lemma answer_failure (r : request) :
  match transport_failure r with
  | Some e =>
      answer r
      = if isinstance_RequestException e
        then Returns (PDict [(u "error", PStr (u "API request failed: " ++ exc_str e))])
        else Raises e
  | None =>
      exists response value,
        requests r = Returns response /\ json response = Returns value
        /\ answer r = Returns value
  end.
Proof.
  unfold transport_failure, answer.
  destruct (requests r) as [resp|e]; [|reflexivity].
  destruct (raise_for_status resp) as [[]|e]; [|reflexivity].
  destruct (json resp) as [value|e] eqn:J; [|reflexivity].
  exists resp, value. repeat split; [exact J].
Qed.

(** C2, as amended.  For a supported method and a [valves] object, the
    dispatcher makes one call and turns a failure into the error response
    exactly when the exception is a [requests.RequestException]: with no
    failure it returns the parsed body, and an exception of another class
    propagates to the caller. *)
Theorem dispatcher_failures (method endpoint : str) (data : pyval) (v : Valves)
  (tr : trace) (r : request) :
  (upper method = u "GET" /\ r = get_request endpoint v)
  \/ (upper method = u "POST" /\ r = post_request endpoint data v) ->
  snd (_make_api_request method endpoint data (Some v) tr) = tr ++ [Http r]
  /\ match transport_failure r with
     | Some e =>
         fst (_make_api_request method endpoint data (Some v) tr)
         = if isinstance_RequestException e
           then Returns (PDict [(u "error",
                                  PStr (u "API request failed: " ++ exc_str e))])
           else Raises e
     | None =>
         exists response value,
           requests r = Returns response /\ json response = Returns value
           /\ fst (_make_api_request method endpoint data (Some v) tr) = Returns value
     end.
Proof.
  intros [[G ->]|[P ->]]; [rewrite dispatch_get by exact G
                          | rewrite dispatch_post by exact P];
    (split; [reflexivity|]); cbn [fst]; apply answer_failure.
Qed.

(** ** The operations *)

(** The events passed to the emitter and the calls of [requests], read
    off a trace. *)
Definition events (tr : trace) : list pyval :=
  flat_map (fun a => match a with Emit ev => [ev] | Http _ => [] end) tr.

Definition calls (tr : trace) : list request :=
  flat_map (fun a => match a with Http r => [r] | Emit _ => [] end) tr.

(** A citation event is an event of type ["citation"]. *)
Definition is_citation (event : pyval) : bool :=
  match get event (u "type") PNone with
  | PStr t => str_eqb t (u "citation")
  | _ => false
  end.

Definition citation_content (event : pyval) : pyval :=
  get (get event (u "data") PNone) (u "document") PNone.

Definition citation_title (event : pyval) : pyval :=
  get (get (get event (u "data") PNone) (u "source") PNone) (u "name") PNone.

Definition citation_url (event : pyval) : pyval :=
  get (get (get event (u "data") PNone) (u "source") PNone) (u "url") PNone.

Definition citations (tr : trace) : list pyval := filter is_citation (events tr).

(** The response of the dispatcher to the request of an operation. *)
Definition response_to (self : Tools) (c : tool_call) : outcome pyval :=
  fst (dispatched (u "POST") (endpoint (shape_of c)) (payload (shape_of c))
         (Some (valves self))).

Lemma events_app (a b : trace) : events (a ++ b) = events a ++ events b.
Proof. apply flat_map_app. Qed.

Lemma calls_app (a b : trace) : calls (a ++ b) = calls a ++ calls b.
Proof. apply flat_map_app. Qed.

Lemma events_http (l : trace) : forallb is_http l = true -> events l = [].
Proof.
  induction l as [|[ev|r] l IH]; cbn; [reflexivity | discriminate | exact IH].
Qed.

Lemma calls_emitted (em : option emitter) (ev : pyval) : calls (emitted em ev) = [].
Proof. destruct em; reflexivity. Qed.

Lemma calls_flat_emitted (em : option emitter) (l : list pyval) :
  calls (flat_map (emitted em) l) = [].
Proof.
  induction l as [|x l IH]; cbn [flat_map]; [reflexivity|].
  now rewrite calls_app, calls_emitted, IH.
Qed.

Lemma events_flat_emitted (f : emitter) (l : list pyval) :
  events (flat_map (emitted (Some f)) l) = l.
Proof.
  induction l as [|x l IH]; cbn [flat_map]; [reflexivity|].
  rewrite events_app, IH. reflexivity.
Qed.

Lemma is_citation_status (d : str) (b : bool) : is_citation (status d b) = false.
Proof. vm_compute. reflexivity. Qed.

Lemma is_citation_citation (c t l : pyval) : is_citation (citation c t l) = true.
Proof. vm_compute. reflexivity. Qed.

Lemma fst_full_run (sh : shape) (self : Tools) (em : option emitter) :
  fst (full_run sh self em) = fst (full_run sh self None).
Proof.
  unfold full_run.
  destruct (fst (dispatched _ _ _ _)) as [r|e]; [|reflexivity].
  destruct (is_error r); [reflexivity|].
  destruct (completed sh r); reflexivity.
Qed.

(** The outcome of an operation is the same for any two emitters that
    fail only with exceptions the helpers swallow. *)
Lemma outcome_independent_of_emitter (self : Tools) (c : tool_call)
  (em em' : option emitter) :
  benign em -> benign em' -> fst (run self c em) = fst (run self c em').
Proof.
  intros B B'. rewrite (run_benign self c B), (run_benign self c B').
  unfold full. rewrite fst_full_run. symmetry. apply fst_full_run.
Qed.

(** C4, as amended.  Fix the operation, its inputs and the behaviour of
    [requests].  In a run where every emission raises an exception that
    is an [Exception], the operation ends as it does in a run where every
    emission succeeds and as in a run without emitter: where these return
    a value it returns the same value, and the exceptions of the emitter
    do not escape. *)
Theorem emitter_failures_are_isolated (self : Tools) (c : tool_call)
  (failing accepting : emitter) :
  (forall tr ev, exists e, failing tr ev = Some e /\ isinstance_Exception e = true) ->
  (forall tr ev, accepting tr ev = None) ->
  fst (run self c (Some failing)) = fst (run self c (Some accepting))
  /\ fst (run self c (Some failing)) = fst (run self c None).
Proof.
  intros F A.
  assert (benign (Some failing)) as BF.
  { intros f tr ev e [= <-] E. destruct (F tr ev) as (e' & E' & I).
    rewrite E in E'. injection E' as ->. exact I. }
  assert (benign (Some accepting)) as BA.
  { intros f tr ev e [= <-] E. rewrite A in E. discriminate. }
  assert (benign None) as BN by (intros f tr ev e [=]).
  split; now apply outcome_independent_of_emitter.
Qed.

Lemma events_emit (ev : pyval) (l : trace) : events (Emit ev :: l) = ev :: events l.
Proof. reflexivity. Qed.

Lemma benign_accepting (f : emitter) :
  (forall tr ev, f tr ev = None) -> benign (Some f).
Proof. intros A g tr ev e [= <-] E. rewrite A in E. discriminate. Qed.

(** Where an operation returns, with an emitter whose emissions succeed,
    the events are one start status, one terminal status and then the
    citations, and the value is the response of the dispatcher. *)
Lemma events_of_returning_run (self : Tools) (c : tool_call) (f : emitter)
  (v : pyval) (tr : trace) :
  (forall tr ev, f tr ev = None) ->
  run self c (Some f) = (Returns v, tr) ->
  response_to self c = Returns v
  /\ exists description,
       events tr = status (start (shape_of c)) false :: status description true
                     :: (if is_error v then [] else cited (shape_of c) v).
Proof.
  intros A. rewrite (run_benign self c (benign_accepting A)).
  unfold full, full_run, response_to.
  pose proof (dispatched_http (u "POST") (endpoint (shape_of c))
                (payload (shape_of c)) (Some (valves self))) as Hh.
  apply events_http in Hh.
  destruct (fst (dispatched _ _ _ _)) as [r|e]; [|discriminate].
  destruct (is_error r) eqn:E.
  - intros [= <- <-]. split; [reflexivity|]. rewrite E.
    exists (failed (shape_of c) r). rewrite events_emit, events_app, Hh. reflexivity.
  - destruct (completed (shape_of c) r) as [d|e]; [|discriminate].
    intros [= <- <-]. split; [reflexivity|]. rewrite E. exists d.
    rewrite events_emit, events_app, Hh. cbn [app].
    rewrite events_emit, events_flat_emitted. reflexivity.
Qed.

(** *** Citations *)

Definition is_citation_action (a : action) : bool :=
  match a with Emit ev => is_citation ev | Http _ => false end.

Lemma split_after (X rest pre post : trace) (x : action) :
  X ++ rest = pre ++ x :: post ->
  forallb (fun a => negb (is_citation_action a)) X = true ->
  is_citation_action x = true ->
  exists pre', pre = X ++ pre'.
Proof.
  revert pre. induction X as [|y X IH]; intros pre E N C.
  - exists pre. reflexivity.
  - cbn [forallb] in N. apply andb_true_iff in N as [Ny N].
    destruct pre as [|p pre]; cbn [app] in E; injection E as -> E.
    + rewrite C in Ny. discriminate.
    + destruct (IH pre E N C) as [pre' ->]. exists pre'. reflexivity.
Qed.

Lemma no_citation_app (a b : trace) :
  forallb (fun a => negb (is_citation_action a)) (a ++ b)
  = forallb (fun a => negb (is_citation_action a)) a
    && forallb (fun a => negb (is_citation_action a)) b.
Proof. apply forallb_app. Qed.

Lemma no_citation_http (l : trace) :
  forallb is_http l = true ->
  forallb (fun a => negb (is_citation_action a)) l = true.
Proof.
  induction l as [|[ev|r] l IH]; cbn; [reflexivity | discriminate | exact IH].
Qed.

Lemma no_citation_status (em : option emitter) (d : str) (b : bool) :
  forallb (fun a => negb (is_citation_action a)) (emitted em (status d b)) = true.
Proof.
  destruct em; [|reflexivity]. cbn [emitted forallb is_citation_action].
  now rewrite is_citation_status.
Qed.

Lemma no_citation_in (l pre post : trace) (x : action) :
  l = pre ++ x :: post ->
  forallb (fun a => negb (is_citation_action a)) l = true ->
  is_citation_action x = true -> False.
Proof.
  intros -> N C. rewrite no_citation_app in N. apply andb_true_iff in N as [_ N].
  cbn [forallb] in N. rewrite C in N. discriminate.
Qed.

(** Only a list and a dict are cited. *)
Lemma cited_shape (c : tool_call) (r : pyval) :
  cited (shape_of c) r <> [] -> isinstance_list r = true \/ isinstance_dict r = true.
Proof.
  destruct c; cbn [shape_of cited]; unfold no_citation, cite_items, cite_dict;
    destruct r; cbn [items_of flat_map isinstance_dict isinstance_list];
    intros H; try (now left); try (now right); contradiction H; reflexivity.
Qed.

(** Whatever the emitter does, a citation event is emitted only when the
    response of the dispatcher is a list or a dict that is not
    error-shaped, and only after the terminal status event. *)
Lemma citation_only_after_success (self : Tools) (c : tool_call)
  (em : option emitter) (pre post : trace) (event : pyval) :
  snd (run self c em) = pre ++ Emit event :: post ->
  is_citation event = true ->
  (exists r, response_to self c = Returns r /\ is_error r = false
             /\ (isinstance_list r = true \/ isinstance_dict r = true))
  /\ (exists description, In (Emit (status description true)) pre).
Proof.
  intros T C. destruct (run_prefix self c em) as [rest P].
  rewrite T in P. rewrite <- app_assoc in P. cbn [app] in P.
  revert P. unfold full, full_run, response_to.
  pose proof (dispatched_http (u "POST") (endpoint (shape_of c))
                (payload (shape_of c)) (Some (valves self))) as Hh.
  apply no_citation_http in Hh.
  set (d := dispatched _ _ _ _) in *.
  assert (forallb (fun a => negb (is_citation_action a))
            (emitted em (status (start (shape_of c)) false) ++ snd d) = true) as N1.
  { now rewrite no_citation_app, no_citation_status, Hh. }
  destruct (fst d) as [r|e]; cbn [snd].
  2:{ intros P; cbn [snd] in P. exfalso. eapply no_citation_in; [exact P | exact N1 | exact C]. }
  destruct (is_error r) eqn:E.
  { intros P; cbn [snd] in P. exfalso. eapply no_citation_in; [exact P | | exact C].
    now rewrite no_citation_app, N1, no_citation_status. }
  destruct (completed (shape_of c) r) as [description|e].
  2:{ intros P; cbn [snd] in P. exfalso. eapply no_citation_in; [exact P | exact N1 | exact C]. }
  intros P; cbn [snd] in P. split.
  - exists r. split; [reflexivity|]. split; [exact E|].
    apply (cited_shape c). intros Z. rewrite Z in P.
    cbn [flat_map] in P. rewrite app_nil_r in P.
    eapply no_citation_in; [exact P | | exact C].
    now rewrite no_citation_app, N1, no_citation_status.
  - exists description. destruct em as [f|].
    + rewrite app_assoc in P.
      eapply split_after in P as [pre' ->]; [| |exact C].
      * apply in_or_app. left. apply in_or_app. right. left. reflexivity.
      * now rewrite no_citation_app, N1, no_citation_status.
    + exfalso. eapply no_citation_in; [exact P | | exact C].
      cbn [emitted app]. rewrite no_citation_app, Hh. cbn [andb].
      clear. induction (cited (shape_of c) r); [reflexivity | exact IHl].
Qed.

(** *** The request of an operation *)

Lemma upper_POST : upper (u "POST") = u "POST".
Proof. vm_compute. reflexivity. Qed.

Lemma dispatched_post (endpoint : str) (data : pyval) (v : Valves) :
  dispatched (u "POST") endpoint data (Some v)
  = (answer (post_request endpoint data v), [Http (post_request endpoint data v)]).
Proof. unfold dispatched. now rewrite dispatch_post by exact upper_POST. Qed.

Lemma calls_full (self : Tools) (c : tool_call) (em : option emitter) :
  calls (snd (full self c em))
  = [post_request (endpoint (shape_of c)) (payload (shape_of c)) (valves self)].
Proof.
  unfold full, full_run. rewrite dispatched_post. cbn [fst snd].
  destruct (answer _) as [r|e]; [destruct (is_error r);
                                 [|destruct (completed (shape_of c) r)]|];
    cbn [snd]; rewrite ?calls_app, ?calls_emitted, ?calls_flat_emitted; reflexivity.
Qed.

(** The string arguments an invocation receives, each with its key in
    the request payload; [None] is an optional filter that is [None], as
    it is by default. *)
Definition string_inputs (c : tool_call) : list (str * option str) :=
  match c with
  | Read_athena_query query => [(u "query", Some query)]
  | Read_rds_query query => [(u "query", Some query)]
  | Get_athena_table_info table_name => [(u "table_name", Some table_name)]
  | Semantic_search_transcripts query search_type limit symbol year quarter
      min_year max_year _ =>
      [(u "query", Some query); (u "search_type", Some search_type);
       (u "limit", Some limit); (u "symbol", symbol); (u "year", year);
       (u "quarter", quarter); (u "min_year", min_year); (u "max_year", max_year)]
  | Keyword_search_transcripts keywords limit symbol year quarter min_year
      max_year match_type _ =>
      [(u "keywords", Some keywords); (u "limit", Some limit); (u "symbol", symbol);
       (u "year", year); (u "quarter", quarter); (u "min_year", min_year);
       (u "max_year", max_year); (u "match_type", Some match_type)]
  | Get_transcript_details symbol year quarter =>
      [(u "symbol", Some symbol); (u "year", Some year); (u "quarter", Some quarter)]
  | Semantic_search_knowledge query search_type limit entity_type _ =>
      [(u "query", Some query); (u "search_type", Some search_type);
       (u "limit", Some limit); (u "entity_type", entity_type)]
  | Find_similar_organizations query search_type limit country_code funding_stage
      level_portfolio min_funding_usd max_funding_usd min_market_cap
      max_market_cap status _ reference_search_method _ =>
      [(u "query", Some query); (u "search_type", Some search_type);
       (u "limit", Some limit); (u "country_code", country_code);
       (u "funding_stage", funding_stage); (u "level_portfolio", level_portfolio);
       (u "min_funding_usd", min_funding_usd); (u "max_funding_usd", max_funding_usd);
       (u "min_market_cap", min_market_cap); (u "max_market_cap", max_market_cap);
       (u "status", Some status);
       (u "reference_search_method", Some reference_search_method)]
  | Get_organization_details identifier search_by =>
      [(u "identifier", Some identifier); (u "search_by", Some search_by)]
  | Search_documents query search_type limit author tags _ =>
      [(u "query", Some query); (u "search_type", Some search_type);
       (u "limit", Some limit); (u "author", author); (u "tags", tags)]
  | List_recent_documents limit author tags =>
      [(u "limit", Some limit); (u "author", author); (u "tags", tags)]
  | Keyword_search_knowledge keywords limit entity_type match_type _ =>
      [(u "keywords", Some keywords); (u "limit", Some limit);
       (u "entity_type", entity_type); (u "match_type", Some match_type)]
  | Fetch_knowledge_page uuid => [(u "uuid", Some uuid)]
  | Get_document_details uuid => [(u "uuid", Some uuid)]
  end.

(** The arguments an operation upper-cases: the symbol and the quarter of
    [get_transcript_details]. *)
Definition upper_cased (c : tool_call) (key : str) : bool :=
  match c with
  | Get_transcript_details _ _ _ =>
      str_eqb key (u "symbol") || str_eqb key (u "quarter")
  | _ => false
  end.

(** The value sent for a string argument. *)
Definition forwarded (c : tool_call) (key : str) (arg : option str) : pyval :=
  if upper_cased c key then opt (option_map upper arg) else opt arg.

(** C6, as amended.  With an emitter that does not abort the operation,
    one POST request is made, and its payload holds every string argument
    the operation receives under its key, as it was received, and [None]
    for an optional filter that is [None], with no check of its value;
    only [get_transcript_details] sends [symbol.upper()] and
    [quarter.upper()]. *)
Theorem string_inputs_forwarded (self : Tools) (c : tool_call) (em : option emitter) :
  benign em ->
  exists items,
    calls (snd (run self c em))
    = [post_request (endpoint (shape_of c)) (PDict items) (valves self)]
    /\ forall key arg,
         In (key, arg) (string_inputs c) -> In (key, forwarded c key arg) items.
Proof.
  intros B. rewrite (run_benign self c B), calls_full.
  destruct c; cbn [shape_of payload endpoint string_inputs];
    eexists; (split; [reflexivity|]); intros key arg H; cbn [In] in H;
    repeat (destruct H as [H|H];
            [injection H as <- <-; unfold forwarded;
             match goal with
             | |- context [upper_cased ?c ?k] =>
                 let b := eval vm_compute in (upper_cased c k) in
                 replace (upper_cased c k) with b by (vm_compute; reflexivity)
             end;
             cbn [opt option_map In];
             repeat (first [left; reflexivity | right])|]);
    contradiction.
Qed.

(** *** [read_athena_query] *)

Lemma dict_get_absent (d : dict) (key : str) (default : pyval) :
  dict_has d key = false -> dict_get d key default = default.
Proof.
  induction d as [|[k v] d IH]; cbn [dict_has dict_get]; [reflexivity|].
  intros H. apply orb_false_iff in H as [-> H]. now apply IH.
Qed.

(** C7.  When the dispatcher answers [read_athena_query] with a dict
    without the key ["error"] and the emissions succeed, the dict is
    returned as it is, the start event shows the query preview, and the
    terminal event says ["returned <n> rows"] with the value under
    ["row_count"]: the decimal digits of an integer, a string as it is,
    [str] of another value, and ["unknown"] without that key.  For the
    row count 3 the text is ["returned 3 rows"]. *)
Theorem read_athena_query_success (self : Tools) (query : str) (f : emitter)
  (d : dict) :
  (forall tr ev, f tr ev = None) ->
  fst (_make_api_request (u "POST") (u "/engineer/read-athena-query")
         (PDict [(u "query", PStr query)]) (Some (valves self)) [])
  = Returns (PDict d) ->
  dict_has d (u "error") = false ->
  fst (read_athena_query self query (Some f) []) = Returns (PDict d)
  /\ events (snd (read_athena_query self query (Some f) []))
     = [status (u "🔍 Executing Athena query: "
                  ++ (if (100 <? List.length query)%nat
                      then firstn 100 query ++ u "..." else query)) false;
        status (u "✅ Athena query completed - returned "
                  ++ match dict_get d (u "row_count") (PStr (u "unknown")) with
                     | PInt n => u (NilZero.string_of_int (Z.to_int n))
                     | PStr s => s
                     | v => py_str v
                     end
                  ++ u " rows") true]
  /\ (dict_get d (u "row_count") (PStr (u "unknown")) = PInt 3 ->
      nth_error (events (snd (read_athena_query self query (Some f) []))) 1
      = Some (status (u "✅ Athena query completed - returned 3 rows") true))
  /\ (dict_has d (u "row_count") = false ->
      nth_error (events (snd (read_athena_query self query (Some f) []))) 1
      = Some (status (u "✅ Athena query completed - returned unknown rows") true)).
Proof.
  intros A R E.
  change (read_athena_query self query (Some f) [])
    with (run self (Read_athena_query query) (Some f)).
  rewrite (run_benign self (Read_athena_query query) (benign_accepting A)).
  unfold full, full_run. cbn [shape_of endpoint payload start failed completed cited].
  pose proof (dispatched_http (u "POST") (u "/engineer/read-athena-query")
                (PDict [(u "query", PStr query)]) (Some (valves self))) as Hh.
  apply events_http in Hh.
  unfold dispatched in *. rewrite R.
  unfold is_error. cbn [isinstance_dict key_in andb]. rewrite E.
  cbn [fst snd emitted app]. rewrite events_emit, events_app, Hh.
  unfold field_of, no_citation.
  cbn [isinstance_dict get flat_map app events].
  split; [reflexivity|].
  split; [destruct (dict_get d (u "row_count") (PStr (u "unknown"))); reflexivity|].
  split; intros H.
  - rewrite H. cbn [nth_error].
    apply (f_equal (fun text => Some (status text true))). vm_compute. reflexivity.
  - rewrite (dict_get_absent d (u "row_count") (PStr (u "unknown")) H).
    cbn [nth_error].
    apply (f_equal (fun text => Some (status text true))). vm_compute. reflexivity.
Qed.

(** *** The transcript operations *)

Definition transcript_operation (c : tool_call) : bool :=
  match c with
  | Semantic_search_transcripts _ _ _ _ _ _ _ _ _ => true
  | Keyword_search_transcripts _ _ _ _ _ _ _ _ _ => true
  | Get_transcript_details _ _ _ => true
  | _ => false
  end.

Lemma transcript_citation_url (item : pyval) :
  citation_url (transcript_citation item) = PStr (u "https://levelvc.com").
Proof. vm_compute. reflexivity. Qed.

(** The citations of a transcript operation are transcript citations of
    the dicts among the items. *)
Lemma cited_transcript (c : tool_call) (r ev : pyval) :
  transcript_operation c = true ->
  In ev (cited (shape_of c) r) ->
  exists item, ev = transcript_citation item.
Proof.
  destruct c; try discriminate; intros _; cbn [shape_of cited];
    unfold cite_items, cite_dict; intros H.
  - apply in_flat_map in H as (item & _ & H).
    destruct (isinstance_dict item); [|contradiction].
    destruct H as [<-|[]]. now exists item.
  - apply in_flat_map in H as (item & _ & H).
    destruct (isinstance_dict item); [|contradiction].
    destruct H as [<-|[]]. now exists item.
  - destruct (isinstance_dict r); [|contradiction].
    destruct H as [<-|[]]. now exists r.
Qed.

End WithRequests.

(** ** Concrete runs *)

(** A transport that answers every request with status 2xx and the JSON
    body [value], and one whose every call raises [e]. *)
Definition answering (value : pyval) : transport :=
  fun _ => Returns (Response (Returns tt) (Returns value)).

Definition raising (e : exception) : transport := fun _ => Raises e.

(** An emitter whose emissions succeed, and one whose emissions raise [e]. *)
Definition accepting_emitter : emitter := fun _ _ => None.

Definition failing_emitter (e : exception) : emitter := fun _ _ => Some e.

Definition tools : Tools := {| valves := {| api_key := u "k" |} |}.

(** C1.  [get_athena_table_info] takes [len] of the value under
    ["columns"]: for the response [{"columns": null}] the start status is
    emitted, [len(None)] raises [TypeError], and the operation ends
    without a terminal status event. *)
Theorem get_athena_table_info_without_terminal_event :
  get_athena_table_info (answering (PDict [(u "columns", PNone)])) tools (u "db.t")
    (Some accepting_emitter) []
  = (Raises (Exc TypeError (u "object of type 'NoneType' has no len()")),
     [Emit (status (u "📊 Fetching table schema for db.t") false);
      Http (post_request (u "/engineer/get-athena-table-info")
              (PDict [(u "table_name", PStr (u "db.t"))]) (valves tools))]).
Proof. vm_compute. reflexivity. Qed.

(** The same operation on a response whose columns are a list. *)
Example get_athena_table_info_with_columns :
  events (snd (get_athena_table_info
                 (answering (PDict [(u "columns", PList [PStr (u "a"); PStr (u "b")])]))
                 tools (u "db.t") (Some accepting_emitter) []))
  = [status (u "📊 Fetching table schema for db.t") false;
     status (u "✅ Successfully fetched schema for db.t - 2 columns") true].
Proof. vm_compute. reflexivity. Qed.

(** Counterexample to C2: with the default [valves=None] the dispatcher
    raises [AttributeError] before its [try], and an exception of
    [requests] that is no [RequestException] passes through it. *)
Lemma dispatcher_propagates :
  _make_api_request (answering PNone) (u "GET") (u "/x") PNone None []
  = (Raises (Exc AttributeError (u "'NoneType' object has no attribute 'api_key'")), [])
  /\ fst (_make_api_request (raising (Exc ValueError (u "bad"))) (u "GET") (u "/x")
            PNone (Some (valves tools)) [])
     = Raises (Exc ValueError (u "bad")).
Proof. split; vm_compute; reflexivity. Qed.

Lemma dispatcher_failures_witness :
  snd (_make_api_request (raising (Exc ConnectionError (u "refused"))) (u "GET")
         (u "/x") PNone (Some (valves tools)) [])
  = [] ++ [Http (get_request (u "/x") (valves tools))]
  /\ match transport_failure (raising (Exc ConnectionError (u "refused")))
             (get_request (u "/x") (valves tools)) with
     | Some e =>
         fst (_make_api_request (raising (Exc ConnectionError (u "refused")))
                (u "GET") (u "/x") PNone (Some (valves tools)) [])
         = if isinstance_RequestException e
           then Returns (PDict [(u "error",
                                  PStr (u "API request failed: " ++ exc_str e))])
           else Raises e
     | None =>
         exists response value,
           raising (Exc ConnectionError (u "refused"))
             (get_request (u "/x") (valves tools)) = Returns response
           /\ json response = Returns value
           /\ fst (_make_api_request (raising (Exc ConnectionError (u "refused")))
                     (u "GET") (u "/x") PNone (Some (valves tools)) [])
              = Returns value
     end.
Proof.
  apply (@dispatcher_failures (raising (Exc ConnectionError (u "refused")))
           (u "GET") (u "/x") PNone (valves tools) []
           (get_request (u "/x") (valves tools))).
  left. split; [vm_compute; reflexivity | reflexivity].
Defined.

Example connection_error_becomes_a_value :
  fst (_make_api_request (raising (Exc ConnectionError (u "refused"))) (u "POST")
         (u "/x") PNone (Some (valves tools)) [])
  = Returns (PDict [(u "error", PStr (u "API request failed: refused"))]).
Proof. vm_compute. reflexivity. Qed.

(** Counterexample to C3: the method ["get"] is none of the values GET
    and POST, and the dispatcher calls [requests.get] for it. *)
Lemma lower_case_get_is_sent :
  _make_api_request (answering (PInt 1)) (u "get") (u "/x") PNone
    (Some (valves tools)) []
  = (Returns (PInt 1), [Http (get_request (u "/x") (valves tools))]).
Proof. vm_compute. reflexivity. Qed.

(** The methods ["PATCH"], ["Get"] and ["poſt"], whose long s upper-cases
    to S. *)
Lemma dispatcher_methods_witness :
  _make_api_request (answering (PInt 1)) (u "PATCH") (u "/x") PNone
    (Some (valves tools)) []
  = (Returns (PDict [(u "error", PStr (u "Unsupported HTTP method: " ++ u "PATCH"))]),
     [])
  /\ snd (_make_api_request (answering (PInt 1)) (u "Get") (u "/x") PNone
            (Some (valves tools)) [])
     = [] ++ [Http (get_request (u "/x") (valves tools))]
  /\ snd (_make_api_request (answering (PInt 1)) (u "poſt") (u "/x") PNone
            (Some (valves tools)) [])
     = [] ++ [Http (post_request (u "/x") PNone (valves tools))].
Proof.
  split; [|split].
  - apply (proj1 (dispatcher_methods (answering (PInt 1)) (u "PATCH") (u "/x") PNone
                    (valves tools) [])); vm_compute; discriminate.
  - apply (proj1 (proj2 (dispatcher_methods (answering (PInt 1)) (u "Get") (u "/x")
                           PNone (valves tools) []))); vm_compute; reflexivity.
  - apply (proj2 (proj2 (dispatcher_methods (answering (PInt 1)) (u "poſt") (u "/x")
                           PNone (valves tools) []))); vm_compute; reflexivity.
Defined.

Example patch_is_unsupported :
  _make_api_request (answering (PInt 1)) (u "PATCH") (u "/x") PNone
    (Some (valves tools)) []
  = (Returns (PDict [(u "error", PStr (u "Unsupported HTTP method: PATCH"))]), []).
Proof. vm_compute. reflexivity. Qed.

(** Counterexample to C4: an emitter that raises [CancelledError], which
    is no [Exception], aborts the operation, where the run with a
    succeeding emitter returns the response. *)
Lemma cancelled_emitter_aborts :
  fst (run (answering (PDict [(u "row_count", PInt 3)])) tools
         (Read_athena_query (u "SELECT 1"))
         (Some (failing_emitter (Exc CancelledError (u "")))))
  = Raises (Exc CancelledError (u ""))
  /\ fst (run (answering (PDict [(u "row_count", PInt 3)])) tools
            (Read_athena_query (u "SELECT 1")) (Some accepting_emitter))
     = Returns (PDict [(u "row_count", PInt 3)]).
Proof. split; vm_compute; reflexivity. Qed.

Lemma emitter_failures_are_isolated_witness :
  fst (run (answering (PList [PDict []])) tools
         (Semantic_search_transcripts (u "ai") (u "balanced") (u "30")
            None None None None None true)
         (Some (failing_emitter (Exc RuntimeError (u "closed")))))
  = fst (run (answering (PList [PDict []])) tools
           (Semantic_search_transcripts (u "ai") (u "balanced") (u "30")
              None None None None None true)
           (Some accepting_emitter))
  /\ fst (run (answering (PList [PDict []])) tools
            (Semantic_search_transcripts (u "ai") (u "balanced") (u "30")
               None None None None None true)
            (Some (failing_emitter (Exc RuntimeError (u "closed")))))
     = fst (run (answering (PList [PDict []])) tools
              (Semantic_search_transcripts (u "ai") (u "balanced") (u "30")
                 None None None None None true)
              None).
Proof.
  apply (@emitter_failures_are_isolated (answering (PList [PDict []])) tools
           (Semantic_search_transcripts (u "ai") (u "balanced") (u "30")
              None None None None None true)
           (failing_emitter (Exc RuntimeError (u "closed"))) accepting_emitter).
  - intros tr ev. exists (Exc RuntimeError (u "closed")). split; reflexivity.
  - intros tr ev. reflexivity.
Defined.

(** Counterexample to C5: the one item of the response [[{}]] carries no
    quote field, and a citation with empty content and title is emitted. *)
Lemma citation_without_quote_fields :
  citations (snd (run (answering (PList [PDict []])) tools
                    (Semantic_search_transcripts (u "ai") (u "balanced") (u "30")
                       None None None None None true)
                    (Some accepting_emitter)))
  = [citation (PStr (u "")) (PStr (u "")) (PStr (u "https://levelvc.com"))].
Proof. vm_compute. reflexivity. Qed.

(** Counterexample to C6: the caller's symbol ["aapl"] and quarter ["q1"]
    reach the payload as ["AAPL"] and ["Q1"]. *)
Lemma transcript_details_upper_cases :
  calls (snd (run (answering PNone) tools
                (Get_transcript_details (u "aapl") (u "2024") (u "q1")) None))
  = [post_request (u "/investor/transcript-details")
       (PDict [(u "symbol", PStr (u "AAPL")); (u "year", PStr (u "2024"));
               (u "quarter", PStr (u "Q1"))])
       (valves tools)].
Proof. vm_compute. reflexivity. Qed.

Lemma membership (A : Type) (x y : A) (l : list A) : x = y -> In x l -> In y l.
Proof. intros <-. exact (fun H => H). Qed.

(** The call [get_transcript_details("straße", "2024", "q1")]. *)
Definition strasse : tool_call :=
  Get_transcript_details (u "straße") (u "2024") (u "q1").

(** Its symbol and its quarter reach the payload upper-cased, the year
    as it is. *)
Lemma string_inputs_forwarded_witness :
  exists items,
    calls (snd (run (answering PNone) tools strasse None))
    = [post_request (u "/investor/transcript-details") (PDict items) (valves tools)]
    /\ In (u "symbol", PStr (u "STRASSE")) items
    /\ In (u "year", PStr (u "2024")) items
    /\ In (u "quarter", PStr (u "Q1")) items.
Proof.
  destruct (@string_inputs_forwarded (answering PNone) tools strasse None)
    as [items [C F]].
  - intros f tr ev e H. discriminate H.
  - exists items. split.
    { replace (u "/investor/transcript-details") with (endpoint (shape_of strasse))
        by (vm_compute; reflexivity).
      exact C. }
    split; [|split].
    + apply (@membership _ _ _ items
               (@eq_refl _ (u "symbol", PStr (u "STRASSE"))
                <: (u "symbol", forwarded strasse (u "symbol") (Some (u "straße")))
                   = (u "symbol", PStr (u "STRASSE")))).
      apply F. vm_compute. left. reflexivity.
    + apply (@membership _ _ _ items
               (@eq_refl _ (u "year", PStr (u "2024"))
                <: (u "year", forwarded strasse (u "year") (Some (u "2024")))
                   = (u "year", PStr (u "2024")))).
      apply F. vm_compute. right. left. reflexivity.
    + apply (@membership _ _ _ items
               (@eq_refl _ (u "quarter", PStr (u "Q1"))
                <: (u "quarter", forwarded strasse (u "quarter") (Some (u "q1")))
                   = (u "quarter", PStr (u "Q1")))).
      apply F. vm_compute. right. right. left. reflexivity.
Defined.

(** A limit beyond the documented maximum is sent as it is. *)
Example limit_is_not_checked :
  calls (snd (run (answering PNone) tools
                (List_recent_documents (u "5000") None None) None))
  = [post_request (u "/investor/recent-documents")
       (PDict [(u "limit", PStr (u "5000")); (u "author", PNone); (u "tags", PNone)])
       (valves tools)].
Proof. vm_compute. reflexivity. Qed.

(** The response of the scenario of C7. *)
Definition three_rows : dict :=
  [(u "data", PList [PInt 1; PInt 2; PInt 3]); (u "row_count", PInt 3)].

Lemma read_athena_query_success_witness :
  fst (read_athena_query (answering (PDict three_rows)) tools (u "SELECT 1")
         (Some accepting_emitter) [])
  = Returns (PDict [(u "data", PList [PInt 1; PInt 2; PInt 3]);
                    (u "row_count", PInt 3)])
  /\ events (snd (read_athena_query (answering (PDict three_rows)) tools
                    (u "SELECT 1") (Some accepting_emitter) []))
     = [status (u "🔍 Executing Athena query: SELECT 1") false;
        status (u "✅ Athena query completed - returned 3 rows") true].
Proof.
  destruct (@read_athena_query_success (answering (PDict three_rows)) tools
              (u "SELECT 1") accepting_emitter three_rows) as (V & Ev & _ & _).
  - intros tr ev. reflexivity.
  - vm_compute. reflexivity.
  - vm_compute. reflexivity.
  - split; [exact V|]. rewrite Ev. vm_compute. reflexivity.
Defined.

Example returned_3_rows :
  events (snd (read_athena_query (answering (PDict three_rows)) tools (u "SELECT 1")
                 (Some accepting_emitter) []))
  = [status (u "🔍 Executing Athena query: SELECT 1") false;
     status (u "✅ Athena query completed - returned 3 rows") true].
Proof. vm_compute. reflexivity. Qed.

Example returned_unknown_rows :
  events (snd (read_athena_query (answering (PDict [(u "data", PList [])])) tools
                 (u "SELECT 1") (Some accepting_emitter) []))
  = [status (u "🔍 Executing Athena query: SELECT 1") false;
     status (u "✅ Athena query completed - returned unknown rows") true].
Proof. vm_compute. reflexivity. Qed.

(** An item with quotes and without citation: the title is empty. *)
Example citation_with_missing_title :
  citations (snd (run (answering (PList [PDict [(u "quotes", PStr (u "q"))]])) tools
                    (Keyword_search_transcripts (u "margin") (u "25") None None None
                       None None (u "any") true)
                    (Some accepting_emitter)))
  = [citation (PStr (u "q")) (PStr (u "")) (PStr (u "https://levelvc.com"))].
Proof. vm_compute. reflexivity. Qed.

(** * [backend/open_webui/utils/langfuse.py] *)

(** The client object that [Langfuse(secret_key=..., public_key=...,
    host=...)] builds. *)
Record Langfuse : Type := {
  secret_key : option str;
  public_key : option str;
  host : option str
}.

(** The state of the module: the global [_langfuse_client], the clients
    constructed so far and the records written to [log]. *)
Record module_state : Type := {
  _langfuse_client : option Langfuse;
  constructed : list Langfuse;
  log : list (str * str)
}.

Definition initial : module_state :=
  {| _langfuse_client := None; constructed := []; log := [] |}.

(** A span, through its attribute [trace_id]. *)
Record span : Type := { trace_id : outcome pyval }.

(** Truth value of a Python value. *)
Definition py_truthy (v : pyval) : bool :=
  match v with
  | PNone => false
  | PBool b => b
  | PInt z => negb (Z.eqb z 0)
  | PFloat r => negb (str_eqb r (u "0.0") || str_eqb r (u "-0.0"))
  | PStr s => match s with [] => false | _ => true end
  | PList l => match l with [] => false | _ => true end
  | PDict d => match d with [] => false | _ => true end
  end.

Definition L (A : Type) : Type := module_state -> outcome A * module_state.

Section Langfuse.

(** The three settings imported from [open_webui.env]: a string, or
    [None] for a variable that is not set. *)
Variable LANGFUSE_SECRET_KEY LANGFUSE_PUBLIC_KEY LANGFUSE_HOST : option str.

(** [client.get_prompt(name).compile()] of the SDK. *)
Variable get_prompt_compile : Langfuse -> str -> outcome str.

Definition missing_keys : str :=
  u "Langfuse is enabled but missing required keys (LANGFUSE_SECRET_KEY, LANGFUSE_PUBLIC_KEY)".

Definition logging (level message : str) (s : module_state) : module_state :=
  {| _langfuse_client := _langfuse_client s;
     constructed := constructed s;
     log := log s ++ [(level, message)] |}.

Definition get_langfuse_client : L Langfuse :=
  fun s =>
    match _langfuse_client s with
    | None =>
        if negb (truthy LANGFUSE_SECRET_KEY) || negb (truthy LANGFUSE_PUBLIC_KEY)
        then (Raises (Exc ValueError missing_keys), logging (u "WARNING") missing_keys s)
        else
          let client := {| secret_key := LANGFUSE_SECRET_KEY;
                           public_key := LANGFUSE_PUBLIC_KEY;
                           host := LANGFUSE_HOST |} in
          (Returns client,
           logging (u "INFO")
             (u "Langfuse client initialized with host: " ++ py_str (opt LANGFUSE_HOST))
             {| _langfuse_client := Some client;
                constructed := constructed s ++ [client];
                log := log s |})
    | Some client => (Returns client, s)
    end.

Definition get_trace_url_from_span (sp : span) : L (option str) :=
  fun s =>
    match trace_id sp with
    | Returns id =>
        match LANGFUSE_HOST with
        | Some h =>
            if py_truthy id && truthy LANGFUSE_HOST
            then (Returns (Some (rstrip_slash h ++ u "/trace/" ++ py_str id)), s)
            else (Returns None, s)
        | None => (Returns None, s)
        end
    | Raises e =>
        if isinstance_Exception e
        then (Returns None,
              logging (u "WARNING")
                (u "Failed to get trace URL from span: " ++ exc_str e) s)
        else (Raises e, s)
    end.

Definition get_prompt (prompt_name : str) : L str :=
  fun s =>
    match get_langfuse_client s with
    | (Returns langfuse_client, s') => (get_prompt_compile langfuse_client prompt_name, s')
    | (Raises e, s') => (Raises e, s')
    end.

(** The states the module can be in: the initial one and those the three
    functions lead to. *)
Inductive reachable : module_state -> Prop :=
| reach_initial : reachable initial
| reach_client (s : module_state) :
    reachable s -> reachable (snd (get_langfuse_client s))
| reach_url (s : module_state) (sp : span) :
    reachable s -> reachable (snd (get_trace_url_from_span sp s))
| reach_prompt (s : module_state) (name : str) :
    reachable s -> reachable (snd (get_prompt name s)).

(** A client exists only where both keys are there, and then it is the
    one client constructed. *)
Definition client_has_keys (s : module_state) : Prop :=
  match _langfuse_client s with
  | Some client =>
      truthy LANGFUSE_SECRET_KEY = true /\ truthy LANGFUSE_PUBLIC_KEY = true
      /\ constructed s = [client]
  | None => constructed s = []
  end.

Lemma get_langfuse_client_keeps (s : module_state) :
  client_has_keys s -> client_has_keys (snd (get_langfuse_client s)).
Proof.
  unfold client_has_keys, get_langfuse_client.
  destruct (_langfuse_client s) as [client|] eqn:C; cbn [snd].
  - rewrite C. trivial.
  - destruct (truthy LANGFUSE_SECRET_KEY), (truthy LANGFUSE_PUBLIC_KEY);
      cbn [negb orb snd logging _langfuse_client constructed];
      try rewrite C; intros ->; auto.
Qed.

Lemma get_trace_url_keeps (s : module_state) (sp : span) :
  client_has_keys s -> client_has_keys (snd (get_trace_url_from_span sp s)).
Proof.
  unfold get_trace_url_from_span.
  destruct (trace_id sp) as [id|e].
  - destruct LANGFUSE_HOST; [destruct (py_truthy id && _)|]; trivial.
  - destruct (isinstance_Exception e); trivial.
Qed.

Lemma get_prompt_keeps (s : module_state) (name : str) :
  client_has_keys s -> client_has_keys (snd (get_prompt name s)).
Proof.
  intros H. apply get_langfuse_client_keeps in H. unfold get_prompt.
  destruct (get_langfuse_client s) as [[client|e] s']; exact H.
Qed.

Lemma reachable_client_has_keys (s : module_state) :
  reachable s -> client_has_keys s.
Proof.
  induction 1 as [|s _ IH|s sp _ IH|s name _ IH].
  - reflexivity.
  - now apply get_langfuse_client_keeps.
  - now apply get_trace_url_keeps.
  - now apply get_prompt_keeps.
Qed.

(** C8, as amended.  In every state the module can reach, when one of
    the two keys is missing or empty, [get_langfuse_client] raises
    [ValueError] and so does [get_prompt], no client is constructed and
    the global stays [None]. *)
Theorem missing_keys_raise (s : module_state) (prompt_name : str) :
  reachable s ->
  truthy LANGFUSE_SECRET_KEY = false \/ truthy LANGFUSE_PUBLIC_KEY = false ->
  fst (get_langfuse_client s) = Raises (Exc ValueError missing_keys)
  /\ fst (get_prompt prompt_name s) = Raises (Exc ValueError missing_keys)
  /\ _langfuse_client (snd (get_langfuse_client s)) = None
  /\ constructed (snd (get_langfuse_client s)) = []
  /\ _langfuse_client (snd (get_prompt prompt_name s)) = None
  /\ constructed (snd (get_prompt prompt_name s)) = [].
Proof.
  intros R K. apply reachable_client_has_keys in R.
  unfold client_has_keys in R. unfold get_prompt, get_langfuse_client.
  destruct (_langfuse_client s) as [client|] eqn:C.
  - destruct R as (S & P & _). destruct K as [K|K]; congruence.
  - assert (negb (truthy LANGFUSE_SECRET_KEY) || negb (truthy LANGFUSE_PUBLIC_KEY)
            = true) as ->.
    { destruct K as [-> | ->]; [reflexivity | apply orb_true_r]. }
    cbn [fst snd logging _langfuse_client constructed]. auto 10.
Qed.

(** What [rstrip('/')] leaves: the host without its trailing slashes. *)
Lemma rstrip_slash_spec (s : str) :
  (exists n, s = rstrip_slash s ++ repeat slash n)
  /\ forall p, rstrip_slash s <> p ++ [slash].
Proof.
  induction s as [|c s [[n E] IH]]; cbn [rstrip_slash].
  - split; [exists 0%nat; reflexivity | intros [|? ?]; discriminate].
  - destruct (rstrip_slash s) as [|x t] eqn:R.
    + destruct (N.eqb_spec c slash) as [->|Nc].
      * split; [exists (S n); cbn; now rewrite E | intros [|? ?]; discriminate].
      * split; [exists n; cbn; now rewrite E|].
        intros [|y [|? ?]]; cbn; intros [=]; congruence.
    + split; [exists n; cbn; now rewrite E at 1|].
      intros [|y p]; cbn; [discriminate|]. intros [= -> H]. exact (IH p H).
Qed.

Lemma rstrip_slash_app_slashes (s : str) (n : nat) :
  rstrip_slash (s ++ repeat slash n) = rstrip_slash s.
Proof.
  induction s as [|c s IH]; cbn [app rstrip_slash].
  - induction n as [|n IH]; cbn [repeat rstrip_slash]; [reflexivity|].
    rewrite IH. now rewrite N.eqb_refl.
  - now rewrite IH.
Qed.

(** A string that does not end with a slash is left as it is. *)
Lemma rstrip_slash_stem (s : str) :
  (forall p, s <> p ++ [slash]) -> rstrip_slash s = s.
Proof.
  intros H. destruct (rstrip_slash_spec s) as [[n E] _].
  destruct n as [|n]; [cbn [repeat] in E; now rewrite app_nil_r in E|].
  exfalso. apply (H (rstrip_slash s ++ repeat slash n)).
  rewrite <- app_assoc. rewrite E at 1. f_equal.
  clear. induction n as [|n IH]; [reflexivity|].
  cbn [repeat app]. now rewrite <- IH.
Qed.

(** C9.  For a span whose [trace_id] is a non-empty string and a
    non-empty host, the URL is the host without its trailing slashes,
    however many, then ["/trace/"] and the trace id: for the host
    [stem ++ "/" * n], where [stem] does not end with a slash, it is
    [stem ++ "/trace/" ++ id].  For an empty [trace_id], or with the host
    empty or not set, there is no URL. *)
Theorem trace_url (sp : span) (s : module_state) (id : str) :
  trace_id sp = Returns (PStr id) ->
  (forall stem n,
     id <> [] ->
     LANGFUSE_HOST = Some (stem ++ repeat slash n) ->
     stem ++ repeat slash n <> [] ->
     (forall p, stem <> p ++ [slash]) ->
     fst (get_trace_url_from_span sp s)
     = Returns (Some (stem ++ u "/trace/" ++ id)))
  /\ (id = [] \/ LANGFUSE_HOST = None \/ LANGFUSE_HOST = Some [] ->
      fst (get_trace_url_from_span sp s) = Returns None).
Proof.
  intros T. unfold get_trace_url_from_span. rewrite T. split.
  - intros stem n I -> H S.
    rewrite rstrip_slash_app_slashes, (rstrip_slash_stem S).
    destruct id; [contradiction|].
    destruct (stem ++ repeat slash n); [contradiction|]. reflexivity.
  - intros [-> | [-> | ->]].
    + destruct LANGFUSE_HOST; reflexivity.
    + reflexivity.
    + cbn [truthy]. now rewrite andb_false_r.
Qed.

End Langfuse.

Lemma missing_keys_raise_witness :
  fst (get_langfuse_client None (Some (u "pk")) (Some (u "https://h")) initial)
  = Raises (Exc ValueError missing_keys)
  /\ fst (get_prompt None (Some (u "pk")) (Some (u "https://h"))
            (fun _ _ => Returns (u "text")) (u "p") initial)
     = Raises (Exc ValueError missing_keys)
  /\ _langfuse_client
       (snd (get_langfuse_client None (Some (u "pk")) (Some (u "https://h")) initial))
     = None
  /\ constructed
       (snd (get_langfuse_client None (Some (u "pk")) (Some (u "https://h")) initial))
     = []
  /\ _langfuse_client
       (snd (get_prompt None (Some (u "pk")) (Some (u "https://h"))
               (fun _ _ => Returns (u "text")) (u "p") initial))
     = None
  /\ constructed
       (snd (get_prompt None (Some (u "pk")) (Some (u "https://h"))
               (fun _ _ => Returns (u "text")) (u "p") initial))
     = [].
Proof.
  apply (@missing_keys_raise None (Some (u "pk")) (Some (u "https://h"))
           (fun _ _ => Returns (u "text")) initial (u "p")).
  - apply reach_initial.
  - left. reflexivity.
Defined.

(** Counterexample to C8: the configuration error is not the only one
    that is raised.  With both keys set, [get_prompt] passes on what the
    SDK raises, and the dispatcher of the tools passes on an exception of
    [requests] that is no [RequestException]. *)
Lemma other_errors_are_raised :
  fst (get_prompt (Some (u "sk")) (Some (u "pk")) (Some (u "https://h"))
         (fun _ _ => Raises (Exc RuntimeError (u "prompt not found"))) (u "p") initial)
  = Raises (Exc RuntimeError (u "prompt not found"))
  /\ fst (read_athena_query (raising (Exc ValueError (u "bad"))) tools (u "SELECT 1")
            None [])
     = Raises (Exc ValueError (u "bad")).
Proof. split; vm_compute; reflexivity. Qed.

(** The host ["https://h//"] and the trace id ["abc"]; an empty trace id;
    an empty host. *)
Lemma trace_url_witness :
  fst (get_trace_url_from_span (Some (u "https://h//"))
         {| trace_id := Returns (PStr (u "abc")) |} initial)
  = Returns (Some (u "https://h/trace/abc"))
  /\ fst (get_trace_url_from_span (Some (u "https://h//"))
            {| trace_id := Returns (PStr []) |} initial)
     = Returns None
  /\ fst (get_trace_url_from_span (Some [])
            {| trace_id := Returns (PStr (u "abc")) |} initial)
     = Returns None.
Proof.
  split; [|split].
  - replace (u "https://h/trace/abc") with (u "https://h" ++ u "/trace/" ++ u "abc")
      by (vm_compute; reflexivity).
    replace (u "https://h//") with (u "https://h" ++ repeat slash 2)
      by (vm_compute; reflexivity).
    apply (proj1 (@trace_url (Some (u "https://h" ++ repeat slash 2))
                    {| trace_id := Returns (PStr (u "abc")) |} initial (u "abc")
                    eq_refl) (u "https://h") 2%nat).
    + vm_compute. discriminate.
    + reflexivity.
    + vm_compute. discriminate.
    + intros p H. apply (f_equal (@rev char)) in H. rewrite rev_app_distr in H.
      vm_compute in H. discriminate H.
  - apply (proj2 (@trace_url (Some (u "https://h//"))
                    {| trace_id := Returns (PStr []) |} initial [] eq_refl)).
    left. reflexivity.
  - apply (proj2 (@trace_url (Some [])
                    {| trace_id := Returns (PStr (u "abc")) |} initial (u "abc")
                    eq_refl)).
    right. right. reflexivity.
Defined.

Example trace_url_of_abc :
  fst (get_trace_url_from_span (Some (u "https://h//"))
         {| trace_id := Returns (PStr (u "abc")) |} initial)
  = Returns (Some (u "https://h/trace/abc")).
Proof. vm_compute. reflexivity. Qed.

Example trace_url_without_host :
  fst (get_trace_url_from_span None {| trace_id := Returns (PStr (u "abc")) |} initial)
  = Returns None
  /\ fst (get_trace_url_from_span (Some (u "https://h"))
            {| trace_id := Raises (Exc AttributeError (u "trace_id")) |} initial)
     = Returns None.
Proof. split; vm_compute; reflexivity. Qed.

(** * Further properties of the tools *)

Section FurtherTools.

Variable requests : transport.

(** The request an operation makes. *)
Definition request_of (self : Tools) (c : tool_call) : request :=
  post_request (endpoint (shape_of c)) (payload (shape_of c)) (valves self).

Lemma response_to_answer (self : Tools) (c : tool_call) :
  response_to requests self c = answer requests (request_of self c).
Proof. unfold response_to, request_of. now rewrite dispatched_post. Qed.

(** The closed form of a run, with the request spelled out. *)
Lemma full_post (self : Tools) (c : tool_call) (em : option emitter) :
  full requests self c em
  = match answer requests (request_of self c) with
    | Raises e =>
        (Raises e, emitted em (status (start (shape_of c)) false)
                     ++ [Http (request_of self c)])
    | Returns v =>
        if is_error v
        then (Returns v,
              (emitted em (status (start (shape_of c)) false)
                 ++ [Http (request_of self c)])
                ++ emitted em (status (failed (shape_of c) v) true))
        else
          match completed (shape_of c) v with
          | Raises e =>
              (Raises e, emitted em (status (start (shape_of c)) false)
                           ++ [Http (request_of self c)])
          | Returns description =>
              (Returns v,
               (emitted em (status (start (shape_of c)) false)
                  ++ [Http (request_of self c)])
                 ++ emitted em (status description true)
                 ++ flat_map (emitted em) (cited (shape_of c) v))
          end
    end.
Proof. unfold full, full_run, request_of. now rewrite dispatched_post. Qed.

Lemma events_http_cons (r : request) (l : trace) : events (Http r :: l) = events l.
Proof. reflexivity. Qed.

Lemma flat_emitted_map (f : emitter) (l : list pyval) :
  flat_map (emitted (Some f)) l = map Emit l.
Proof. induction l as [|x l IH]; cbn; [reflexivity | now rewrite IH]. Qed.

Lemma cited_are_citations (c : tool_call) (r : pyval) :
  forallb is_citation (cited (shape_of c) r) = true.
Proof.
  apply forallb_forall. intros ev H.
  destruct c; cbn [shape_of cited] in H; unfold no_citation, cite_items, cite_dict in H;
    try contradiction;
    try (apply in_flat_map in H as (item & _ & H));
    try (destruct (isinstance_dict _); [|contradiction]);
    destruct H as [<-|[]]; apply is_citation_citation.
Qed.

(** Only [get_athena_table_info] computes its summary with a call that
    can raise. *)
Lemma completed_returns (c : tool_call) (r : pyval) :
  (forall table_name, c <> Get_athena_table_info table_name) ->
  exists description, completed (shape_of c) r = Returns description.
Proof.
  intros N. destruct c; cbn [shape_of completed]; try (eexists; reflexivity).
  now destruct (N table_name).
Qed.

(** X1.  Where an operation returns, with an emitter whose emissions
    succeed, its trace is: the start status with [done] false, the one
    POST request, the terminal status with [done] true, and then
    citation events only; the value returned is the response of the
    dispatcher. *)
Theorem returning_run_trace (self : Tools) (c : tool_call) (f : emitter)
  (v : pyval) (tr : trace) :
  (forall t ev, f t ev = None) ->
  run requests self c (Some f) = (Returns v, tr) ->
  exists start_text request end_text cits,
    tr = Emit (status start_text false) :: Http request
           :: Emit (status end_text true) :: map Emit cits
    /\ verb request = POST
    /\ forallb is_citation cits = true
    /\ response_to requests self c = Returns v.
Proof.
  intros A. rewrite (run_benign requests self c (benign_accepting A)), full_post.
  rewrite response_to_answer.
  destruct (answer requests (request_of self c)) as [r|e]; [|discriminate].
  destruct (is_error r) eqn:E.
  - intros [= <- <-]. exists (start (shape_of c)), (request_of self c),
      (failed (shape_of c) r), []. repeat split.
  - destruct (completed (shape_of c) r) as [d|e]; [|discriminate].
    intros [= <- <-]. exists (start (shape_of c)), (request_of self c), d,
      (cited (shape_of c) r). rewrite flat_emitted_map.
    repeat split. apply cited_are_citations.
Qed.

(** X2.  Every operation but [get_athena_table_info] ends as the
    dispatcher does, when the emitter does not abort it: it returns the
    response unchanged, error-shaped or not, and an exception that the
    dispatcher lets through leaves the operation as it is. *)
Theorem response_passes_through (self : Tools) (c : tool_call)
  (em : option emitter) :
  benign em ->
  (forall table_name, c <> Get_athena_table_info table_name) ->
  fst (run requests self c em) = response_to requests self c.
Proof.
  intros B N. rewrite (run_benign requests self c B), full_post, response_to_answer.
  destruct (answer requests (request_of self c)) as [r|e]; [|reflexivity].
  destruct (is_error r); [reflexivity|].
  destruct (@completed_returns c r N) as [d ->]. reflexivity.
Qed.

(** A value that [len] accepts. *)
Definition has_len (v : pyval) : bool :=
  match py_len v with Returns _ => true | Raises _ => false end.

(** X3.  [get_athena_table_info] returns the response of the dispatcher
    unchanged unless the response is a dict without ["error"] whose
    ["columns"] value has no length; there it raises the [TypeError] of
    [len] after the start status and emits nothing more.  A response
    without the key ["columns"] counts as zero columns. *)
Theorem get_athena_table_info_outcome (self : Tools) (table_name : str)
  (f : emitter) (r : pyval) :
  (forall t ev, f t ev = None) ->
  response_to requests self (Get_athena_table_info table_name) = Returns r ->
  (is_error r = true \/ isinstance_dict r = false
   \/ has_len (get r (u "columns") (PList [])) = true ->
   fst (get_athena_table_info requests self table_name (Some f) []) = Returns r)
  /\ (forall e,
        is_error r = false -> isinstance_dict r = true ->
        py_len (get r (u "columns") (PList [])) = Raises e ->
        fst (get_athena_table_info requests self table_name (Some f) []) = Raises e
        /\ exc_type e = TypeError
        /\ events (snd (get_athena_table_info requests self table_name (Some f) []))
           = [status (u "📊 Fetching table schema for " ++ table_name) false])
  /\ (is_error r = false -> isinstance_dict r = true ->
      key_in (u "columns") r = false ->
      events (snd (get_athena_table_info requests self table_name (Some f) []))
      = [status (u "📊 Fetching table schema for " ++ table_name) false;
         status (u "✅ Successfully fetched schema for " ++ table_name
                   ++ u " - 0 columns") true]).
Proof.
  intros A R.
  change (get_athena_table_info requests self table_name (Some f) [])
    with (run requests self (Get_athena_table_info table_name) (Some f)).
  rewrite (run_benign requests self _ (benign_accepting A)), full_post.
  rewrite response_to_answer in R. rewrite R.
  cbn [shape_of start failed completed cited]. unfold has_len.
  split; [|split].
  - intros H. destruct (is_error r) eqn:E; [reflexivity|].
    destruct (isinstance_dict r) eqn:D.
    + destruct H as [H|[H|H]]; try discriminate.
      destruct (py_len (get r (u "columns") (PList []))); [reflexivity|discriminate].
    + reflexivity.
  - intros e E D L. rewrite E, D, L. cbn [fst snd]. split; [reflexivity|].
    split; [|reflexivity].
    destruct (get r (u "columns") (PList [])); cbn [py_len] in L;
      try discriminate; injection L as <-; reflexivity.
  - intros E D K. rewrite E, D.
    assert (get r (u "columns") (PList []) = PList []) as ->.
    { destruct r; try discriminate. cbn [get key_in] in *.
      now apply dict_get_absent. }
    cbn [py_len snd List.length Z.of_nat emitted app no_citation flat_map].
    rewrite events_emit. cbn [events flat_map app].
    repeat f_equal; try (vm_compute; reflexivity).
Qed.

(** X4.  Without an emitter an operation emits nothing and still makes
    its one request. *)
Theorem no_emitter_no_events (self : Tools) (c : tool_call) :
  events (snd (run requests self c None)) = []
  /\ calls (snd (run requests self c None)) = [request_of self c].
Proof.
  assert (benign None) as B by (intros f tr ev e [=]).
  rewrite (run_benign requests self c B). split; [|apply calls_full].
  rewrite full_post.
  destruct (answer requests (request_of self c)) as [r|e]; [|reflexivity].
  destruct (is_error r); [reflexivity|].
  destruct (completed (shape_of c) r); [|reflexivity].
  cbn [snd emitted app]. rewrite events_http_cons.
  induction (cited (shape_of c) r); [reflexivity | exact IHl].
Qed.


(** *** Failures *)

Lemma failed_text (c : tool_call) (r : pyval) :
  exists text, failed (shape_of c) r = u "❌ " ++ text ++ error_text r.
Proof.
  destruct c; cbn [shape_of failed];
    match goal with
    | |- exists _, ?lit ++ _ = _ => exists (skipn 2 lit)
    end;
    rewrite app_assoc; apply (f_equal (fun x => x ++ error_text r));
    vm_compute; reflexivity.
Qed.

Lemma error_run (self : Tools) (c : tool_call) (f : emitter) (r : pyval) :
  (forall t ev, f t ev = None) ->
  response_to requests self c = Returns r -> is_error r = true ->
  run requests self c (Some f)
  = (Returns r,
     [Emit (status (start (shape_of c)) false); Http (request_of self c);
      Emit (status (failed (shape_of c) r) true)]).
Proof.
  intros A R E. rewrite (run_benign requests self c (benign_accepting A)), full_post.
  rewrite response_to_answer in R. rewrite R, E. reflexivity.
Qed.

(** X5.  When the call of an operation fails with a
    [requests.RequestException] (at the call, at [raise_for_status] or at
    [json]), the operation returns the error response
    [{"error": "API request failed: <message>"}], its terminal status
    starts with the cross mark and ends with that text, and no citation
    is emitted. *)
Theorem transport_failure_is_reported (self : Tools) (c : tool_call) (f : emitter)
  (e : exception) :
  (forall t ev, f t ev = None) ->
  (forall r, transport_failure requests r = Some e) ->
  isinstance_RequestException e = true ->
  fst (run requests self c (Some f))
  = Returns (PDict [(u "error", PStr (u "API request failed: " ++ exc_str e))])
  /\ exists start_text text,
       events (snd (run requests self c (Some f)))
       = [status start_text false;
          status (u "❌ " ++ text ++ u "API request failed: " ++ exc_str e) true].
Proof.
  intros A T I.
  assert (response_to requests self c
          = Returns (PDict [(u "error", PStr (u "API request failed: " ++ exc_str e))]))
    as R.
  { rewrite response_to_answer.
    pose proof (answer_failure requests (request_of self c)) as H.
    rewrite T, I in H. exact H. }
  rewrite (@error_run self c f _ A R) by (vm_compute; reflexivity).
  split; [reflexivity|].
  destruct (failed_text c (PDict [(u "error",
                                   PStr (u "API request failed: " ++ exc_str e))]))
    as [text F].
  exists (start (shape_of c)), text. cbn [snd]. rewrite F.
  replace (error_text (PDict [(u "error",
                               PStr (u "API request failed: " ++ exc_str e))]))
    with (u "API request failed: " ++ exc_str e) by (vm_compute; reflexivity).
  reflexivity.
Qed.

(** X6.  For every error-shaped response, whatever put the key ["error"]
    there, the operation returns it unchanged, the terminal status starts
    with the cross mark and ends with the value under ["error"], a string
    as it is and another value as [str] prints it, and no citation is
    emitted. *)
Theorem error_response_is_reported (self : Tools) (c : tool_call) (f : emitter)
  (d : dict) :
  (forall t ev, f t ev = None) ->
  response_to requests self c = Returns (PDict d) ->
  dict_has d (u "error") = true ->
  fst (run requests self c (Some f)) = Returns (PDict d)
  /\ exists start_text text,
       events (snd (run requests self c (Some f)))
       = [status start_text false;
          status (u "❌ " ++ text
                    ++ match dict_get d (u "error") (PStr (u "Unknown error")) with
                       | PStr message => message
                       | v => py_str v
                       end) true].
Proof.
  intros A R E. rewrite (@error_run self c f _ A R) by exact E.
  split; [reflexivity|].
  destruct (failed_text c (PDict d)) as [text F].
  exists (start (shape_of c)), text. cbn [snd]. rewrite F.
  unfold error_text. cbn [get].
  destruct (dict_get d (u "error") (PStr (u "Unknown error"))); reflexivity.
Qed.

(** *** Citations *)

Lemma citations_app (a b : trace) : citations (a ++ b) = citations a ++ citations b.
Proof. unfold citations. now rewrite events_app, filter_app. Qed.

Lemma citations_status (em : option emitter) (d : str) (b : bool) :
  citations (emitted em (status d b)) = [].
Proof.
  destruct em; [|reflexivity]. unfold citations. cbn [emitted events flat_map app filter].
  now rewrite is_citation_status.
Qed.

Lemma filter_all (A : Type) (p : A -> bool) (l : list A) :
  forallb p l = true -> filter p l = l.
Proof.
  induction l as [|x l IH]; cbn; [reflexivity|].
  intros H. apply andb_true_iff in H as [-> H]. now rewrite IH.
Qed.

(** The citations of a run that is not cut short. *)
Lemma citations_full (self : Tools) (c : tool_call) (em : option emitter) :
  citations (snd (full requests self c em))
  = match em, answer requests (request_of self c) with
    | Some _, Returns v =>
        if is_error v then []
        else match completed (shape_of c) v with
             | Returns _ => cited (shape_of c) v
             | Raises _ => []
             end
    | _, _ => []
    end.
Proof.
  rewrite full_post.
  assert (forall x, citations [Http x] = []) as Hx by reflexivity.
  assert (forall l, citations (flat_map (emitted None) l) = []) as Hn.
  { intros l. induction l as [|y l IH]; [reflexivity | exact IH]. }
  destruct (answer requests (request_of self c)) as [v|e]; cbn [snd].
  - destruct (is_error v); cbn [snd].
    + rewrite !citations_app, !citations_status, Hx. now destruct em.
    + destruct (completed (shape_of c) v); cbn [snd];
        rewrite !citations_app, ?citations_status, Hx; cbn [app].
      * destruct em as [f|]; [|apply Hn].
        rewrite flat_emitted_map. unfold citations.
        assert (events (map Emit (cited (shape_of c) v)) = cited (shape_of c) v) as ->.
        { induction (cited (shape_of c) v) as [|y l IH]; cbn; [reflexivity|].
          f_equal. exact IH. }
        apply filter_all, cited_are_citations.
      * now destruct em.
  - rewrite !citations_app, citations_status, Hx. now destruct em.
Qed.

Lemma in_events (tr : trace) (ev : pyval) : In (Emit ev) tr -> In ev (events tr).
Proof.
  intros H. apply in_flat_map. exists (Emit ev). split; [exact H | now left].
Qed.

(** A citation event in the trace of an operation is one of those built
    from a response that is not error-shaped. *)
Lemma citation_in_run (self : Tools) (c : tool_call) (em : option emitter)
  (event : pyval) :
  In (Emit event) (snd (run requests self c em)) -> is_citation event = true ->
  exists r, response_to requests self c = Returns r /\ is_error r = false
            /\ In event (cited (shape_of c) r).
Proof.
  intros H C. destruct (run_prefix requests self c em) as [rest P].
  assert (In event (citations (snd (full requests self c em)))) as I.
  { apply filter_In. split; [|exact C]. apply in_events. rewrite P.
    apply in_or_app. now left. }
  rewrite citations_full in I. rewrite response_to_answer.
  destruct em as [f|]; [|contradiction].
  destruct (answer requests (request_of self c)) as [v|e]; [|contradiction].
  destruct (is_error v) eqn:E; [contradiction|].
  destruct (completed (shape_of c) v); [|contradiction].
  exists v. auto.
Qed.

Lemma flat_map_dicts (cite : pyval -> pyval) (l : list pyval) :
  flat_map (fun item => if isinstance_dict item then [cite item] else []) l
  = map cite (filter isinstance_dict l).
Proof.
  induction l as [|x l IH]; cbn [flat_map filter map]; [reflexivity|].
  destruct (isinstance_dict x); cbn [app map]; now rewrite IH.
Qed.

(** The citation an operation builds for each item of a list. *)
Definition cites_items_as (c : tool_call) : option (pyval -> pyval) :=
  match c with
  | Semantic_search_transcripts _ _ _ _ _ _ _ _ _ => Some transcript_citation
  | Keyword_search_transcripts _ _ _ _ _ _ _ _ _ => Some transcript_citation
  | Semantic_search_knowledge _ _ _ _ _ => Some knowledge_citation
  | Keyword_search_knowledge _ _ _ _ _ => Some knowledge_citation
  | _ => None
  end.

(** X7.  The four search operations that cite emit, for a list response,
    one citation for each dict among its items, in the order of the
    items; items that are no dicts are passed over. *)
Theorem one_citation_per_dict_item (self : Tools) (c : tool_call) (f : emitter)
  (cite : pyval -> pyval) (l : list pyval) :
  cites_items_as c = Some cite ->
  (forall t ev, f t ev = None) ->
  response_to requests self c = Returns (PList l) ->
  citations (snd (run requests self c (Some f)))
  = map cite (filter isinstance_dict l).
Proof.
  intros C A R. rewrite (run_benign requests self c (benign_accepting A)).
  rewrite citations_full. rewrite response_to_answer in R. rewrite R.
  cbn [is_error isinstance_dict andb].
  destruct c; try discriminate; injection C as <-; cbn [shape_of completed cited];
    unfold cite_items; cbn [items_of]; apply flat_map_dicts.
Qed.

(** The operations that build no citation. *)
Definition never_cites (c : tool_call) : bool :=
  match c with
  | Read_athena_query _ | Read_rds_query _ | Get_athena_table_info _ => true
  | Find_similar_organizations _ _ _ _ _ _ _ _ _ _ _ _ _ _ => true
  | Get_organization_details _ _ => true
  | Search_documents _ _ _ _ _ _ => true
  | List_recent_documents _ _ _ => true
  | Get_document_details _ => true
  | _ => false
  end.

(** X8.  The three engineer operations, [find_similar_organizations],
    [get_organization_details], [search_documents],
    [list_recent_documents] and [get_document_details] emit no citation
    event, whatever the response and whatever the emitter does. *)
Theorem no_citation_from_plain_operations (self : Tools) (c : tool_call)
  (em : option emitter) :
  never_cites c = true -> citations (snd (run requests self c em)) = [].
Proof.
  intros N. destruct (run_prefix requests self c em) as [rest P].
  apply (f_equal citations) in P. rewrite citations_app, citations_full in P.
  assert (forall v, cited (shape_of c) v = []) as Z
    by (intros v; destruct c; try discriminate; reflexivity).
  destruct em as [f|]; [|symmetry in P; now apply app_eq_nil in P].
  destruct (answer requests (request_of self c)) as [v|e];
    [destruct (is_error v); [|destruct (completed (shape_of c) v); [rewrite Z in P|]]|];
    symmetry in P; now apply app_eq_nil in P.
Qed.

(** The citation an operation builds for a dict response. *)
Definition cites_response_as (c : tool_call) : option (pyval -> pyval) :=
  match c with
  | Get_transcript_details _ _ _ => Some transcript_citation
  | Fetch_knowledge_page _ => Some knowledge_citation
  | _ => None
  end.

(** X9.  [get_transcript_details] and [fetch_knowledge_page] emit exactly
    one citation for a dict response without ["error"], and none for a
    response of another type. *)
Theorem one_citation_per_dict_response (self : Tools) (c : tool_call) (f : emitter)
  (cite : pyval -> pyval) (r : pyval) :
  cites_response_as c = Some cite ->
  (forall t ev, f t ev = None) ->
  response_to requests self c = Returns r ->
  is_error r = false ->
  citations (snd (run requests self c (Some f)))
  = if isinstance_dict r then [cite r] else [].
Proof.
  intros C A R E. rewrite (run_benign requests self c (benign_accepting A)).
  rewrite citations_full. rewrite response_to_answer in R. rewrite R, E.
  destruct c; try discriminate; injection C as <-; reflexivity.
Qed.


(** *** What is cited, and when *)

Lemma citation_content_citation (content title url : pyval) :
  citation_content (citation content title url) = PList [content].
Proof. vm_compute. reflexivity. Qed.

(** C5, as amended.  Whatever the emitter does, a citation event is
    emitted only when the response of the dispatcher is a list or a dict
    that is not error-shaped, and only after the terminal status event.
    With an emitter whose failures are swallowed the citations are
    exactly: for a list response of the four citing search operations,
    one for each dict among the items, in their order; for a dict
    response without ["error"] of [get_transcript_details] and
    [fetch_knowledge_page], one for the response; none otherwise.  The
    citation is built whether or not the dict carries quote fields: its
    content is the value under ["quotes"], and the empty string without
    that key. *)
Theorem citations_follow_success (self : Tools) (c : tool_call) :
  (forall em pre post event,
     snd (run requests self c em) = pre ++ Emit event :: post ->
     is_citation event = true ->
     (exists r, response_to requests self c = Returns r /\ is_error r = false
                /\ (isinstance_list r = true \/ isinstance_dict r = true))
     /\ (exists description, In (Emit (status description true)) pre))
  /\ (forall f r,
        benign (Some f) -> response_to requests self c = Returns r ->
        citations (snd (run requests self c (Some f)))
        = match r with
          | PList l =>
              match cites_items_as c with
              | Some cite => map cite (filter isinstance_dict l)
              | None => []
              end
          | PDict d =>
              if dict_has d (u "error") then []
              else match cites_response_as c with
                   | Some cite => [cite r]
                   | None => []
                   end
          | _ => []
          end)
  /\ (forall cite d,
        cites_items_as c = Some cite \/ cites_response_as c = Some cite ->
        is_citation (cite (PDict d)) = true
        /\ citation_content (cite (PDict d))
           = PList [dict_get d (u "quotes") (PStr (u ""))]
        /\ (dict_has d (u "quotes") = false ->
            citation_content (cite (PDict d)) = PList [PStr (u "")])).
Proof.
  split; [|split].
  - intros em pre post event T C.
    exact (citation_only_after_success requests self c em pre post event T C).
  - intros f r B R.
    rewrite (run_benign requests self c B), citations_full.
    rewrite response_to_answer in R. rewrite R.
    destruct r as [| | | | |l|d]; unfold is_error;
      cbn [isinstance_dict key_in andb];
      try (destruct (dict_has d (u "error")); [reflexivity|]);
      destruct c;
      cbn [shape_of completed cited cites_items_as cites_response_as
           isinstance_dict];
      unfold no_citation, cite_items, cite_dict;
      cbn [items_of flat_map isinstance_dict];
      try reflexivity; try apply flat_map_dicts.
    destruct (py_len (get (PDict d) (u "columns") (PList []))); reflexivity.
  - intros cite d H.
    assert (cite = transcript_citation \/ cite = knowledge_citation) as [-> | ->]
      by (destruct c; cbn [cites_items_as cites_response_as] in H;
          destruct H as [H|H]; try discriminate; injection H as <-; auto).
    + split; [apply is_citation_citation|].
      unfold transcript_citation. cbn [get]. rewrite citation_content_citation.
      split; [reflexivity|]. intros A.
      now rewrite (dict_get_absent d (u "quotes") (PStr (u "")) A).
    + split; [apply is_citation_citation|].
      unfold knowledge_citation. cbn [get]. rewrite citation_content_citation.
      split; [reflexivity|]. intros A.
      now rewrite (dict_get_absent d (u "quotes") (PStr (u "")) A).
Qed.

(** The citation event that [_emit_citation] is given for the transcript
    item [d], written out. *)
Definition transcript_event (d : dict) : pyval :=
  PDict [(u "type", PStr (u "citation"));
         (u "data",
          PDict [(u "document", PList [dict_get d (u "quotes") (PStr (u ""))]);
                 (u "source",
                  PDict [(u "name", dict_get d (u "citation") (PStr (u "")));
                         (u "url", PStr (u "https://levelvc.com"))])])].

(** C10.  Every citation event of a transcript operation carries the
    source URL ["https://levelvc.com"], whatever the response and the
    emitter.  With an emitter whose failures are swallowed, the two
    searches emit for a list response one citation for each dict among
    its items, in their order, and [get_transcript_details] emits one for
    a dict response without ["error"]; content and title are the dict's
    ["quotes"] and ["citation"], and the empty string for a key the dict
    lacks. *)
Theorem transcript_citations (self : Tools) (c : tool_call) :
  transcript_operation c = true ->
  (forall em event,
     In (Emit event) (snd (run requests self c em)) -> is_citation event = true ->
     citation_url event = PStr (u "https://levelvc.com"))
  /\ (forall f r,
        benign (Some f) -> response_to requests self c = Returns r ->
        citations (snd (run requests self c (Some f)))
        = match c with
          | Get_transcript_details _ _ _ =>
              match r with
              | PDict d => if dict_has d (u "error") then [] else [transcript_event d]
              | _ => []
              end
          | _ =>
              match r with
              | PList l =>
                  flat_map (fun item => match item with
                                        | PDict d => [transcript_event d]
                                        | _ => []
                                        end) l
              | _ => []
              end
          end)
  /\ (forall d,
        (dict_has d (u "quotes") = false ->
         citation_content (transcript_event d) = PList [PStr (u "")])
        /\ (dict_has d (u "citation") = false ->
            citation_title (transcript_event d) = PStr (u ""))).
Proof.
  intros T. split; [|split].
  - intros em event H C.
    destruct (citation_in_run self c em event H C) as (r & _ & _ & I).
    destruct (cited_transcript c r event T I) as [item ->].
    apply transcript_citation_url.
  - intros f r B R.
    rewrite (run_benign requests self c B), citations_full.
    rewrite response_to_answer in R. rewrite R.
    assert (forall l,
               flat_map (fun item => if isinstance_dict item
                                     then [transcript_citation item] else []) l
               = flat_map (fun item => match item with
                                       | PDict d => [transcript_event d]
                                       | _ => []
                                       end) l) as L.
    { intros l. apply flat_map_ext. intros [| | | | | |d]; reflexivity. }
    destruct r as [| | | | |l|d]; unfold is_error;
      cbn [isinstance_dict key_in andb];
      try (destruct (dict_has d (u "error")); [now destruct c|]);
      destruct c; try discriminate;
      cbn [shape_of completed cited isinstance_dict];
      unfold cite_items, cite_dict; cbn [items_of flat_map isinstance_dict];
      try reflexivity; apply L.
  - intros d. unfold transcript_event. split; intros A.
    + rewrite (dict_get_absent d (u "quotes") (PStr (u "")) A).
      generalize (dict_get d (u "citation") (PStr (u ""))). intros title.
      vm_compute. reflexivity.
    + rewrite (dict_get_absent d (u "citation") (PStr (u "")) A).
      generalize (dict_get d (u "quotes") (PStr (u ""))). intros content.
      vm_compute. reflexivity.
Qed.

(** *** Exceptions that leave an operation *)

Lemma answer_raises (r : request) (e : exception) :
  answer requests r = Raises e ->
  transport_failure requests r = Some e /\ isinstance_RequestException e = false.
Proof.
  unfold answer, transport_failure.
  destruct (requests r) as [resp|x].
  - destruct (raise_for_status resp) as [[]|x].
    + destruct (json resp) as [v|x]; [discriminate|].
      destruct (isinstance_RequestException x) eqn:I; [discriminate|].
      intros [= <-]. now split.
    + destruct (isinstance_RequestException x) eqn:I; [discriminate|].
      intros [= <-]. now split.
  - destruct (isinstance_RequestException x) eqn:I; [discriminate|].
    intros [= <-]. now split.
Qed.

Lemma completed_raises (c : tool_call) (r : pyval) (e : exception) :
  completed (shape_of c) r = Raises e ->
  exists table_name,
    c = Get_athena_table_info table_name /\ isinstance_dict r = true
    /\ py_len (get r (u "columns") (PList [])) = Raises e
    /\ exc_type e = TypeError.
Proof.
  destruct c; cbn [shape_of completed]; try discriminate.
  destruct (isinstance_dict r); [|discriminate].
  destruct (py_len (get r (u "columns") (PList []))) as [n|x] eqn:L; [discriminate|].
  intros [= <-]. exists table_name. repeat split.
  destruct (get r (u "columns") (PList [])); cbn [py_len] in L;
    try discriminate; injection L as <-; reflexivity.
Qed.

(** X10.  An exception leaves an operation in three ways only: the
    emitter raised it and it is no [Exception]; [requests] raised it (at
    the call, at [raise_for_status] or at [json]) and it is no
    [RequestException]; or the operation is [get_athena_table_info] and
    it is the [TypeError] of [len]. *)
Theorem escaping_exceptions (self : Tools) (c : tool_call) (em : option emitter)
  (e : exception) :
  fst (run requests self c em) = Raises e ->
  (exists f tr ev, em = Some f /\ f tr ev = Some e /\ isinstance_Exception e = false)
  \/ (transport_failure requests (request_of self c) = Some e
      /\ isinstance_RequestException e = false)
  \/ (exists table_name r,
        c = Get_athena_table_info table_name
        /\ response_to requests self c = Returns r
        /\ py_len (get r (u "columns") (PList [])) = Raises e
        /\ exc_type e = TypeError).
Proof.
  intros H.
  destruct (run_cases requests self c em)
    as [F|(e0 & rest & f & tr & ev & R & I & Em & Fv & _)].
  - rewrite F, full_post in H.
    destruct (answer requests (request_of self c)) as [v|x] eqn:A.
    + destruct (is_error v); [discriminate|].
      destruct (completed (shape_of c) v) as [d|x] eqn:Cm; [discriminate|].
      cbn [fst] in H. injection H as ->. right. right.
      destruct (completed_raises c v Cm) as (t & -> & _ & L & T).
      exists t, v. rewrite response_to_answer. auto.
    + cbn [fst] in H. injection H as ->. right. left. now apply answer_raises.
  - rewrite R in H. injection H as ->. left. exists f, tr, ev. auto.
Qed.

(** X11.  An emitter that raises, at its first call, an exception that
    is no [Exception] (a cancellation) stops the operation at the start
    status: the exception leaves the operation and no request is sent. *)
Theorem aborted_start_sends_nothing (self : Tools) (c : tool_call) (f : emitter)
  (e : exception) :
  (forall ev, f [] ev = Some e) ->
  isinstance_Exception e = false ->
  fst (run requests self c (Some f)) = Raises e
  /\ calls (snd (run requests self c (Some f))) = []
  /\ exists description,
       events (snd (run requests self c (Some f))) = [status description false].
Proof.
  intros F I. unfold run. rewrite invoke_run_shape.
  unfold run_shape, bind, emit, try_except, await. rewrite F, I.
  cbn [fst snd app]. split; [reflexivity|]. split; [reflexivity|].
  exists (start (shape_of c)). reflexivity.
Qed.

(** *** The texts of the status events *)

Lemma emit_appends (em : option emitter) (ev : pyval) (tr : trace) :
  snd (emit em ev tr) = tr ++ emitted em ev.
Proof.
  destruct (emit_cases em ev tr) as [H|(f & e & _ & _ & _ & H)]; now rewrite H.
Qed.

Lemma for_each_appends (em : option emitter) (l : list pyval) (tr : trace) :
  exists added, snd (for_each l (emit em) tr) = tr ++ added.
Proof.
  revert tr. induction l as [|x l IH]; intros tr; cbn [for_each].
  - exists []. unfold ret. cbn [snd]. now rewrite app_nil_r.
  - unfold bind. pose proof (emit_appends em x tr) as H.
    destruct (emit em x tr) as [[[]|e] tr']; cbn [snd] in H; subst tr'.
    + destruct (IH (tr ++ emitted em x)) as [added ->].
      exists (emitted em x ++ added). now rewrite app_assoc.
    + exists (emitted em x). reflexivity.
Qed.

(** With an emitter, the trace of an operation begins with the start
    status, however the emitter answers. *)
Lemma run_shape_starts (sh : shape) (self : Tools) (f : emitter) :
  exists rest,
    snd (run_shape requests sh self (Some f) [])
    = Emit (status (start sh) false) :: rest.
Proof.
  unfold run_shape, bind.
  pose proof (emit_appends (Some f) (status (start sh) false) []) as H.
  destruct (emit (Some f) (status (start sh) false) []) as [[[]|e] tr1];
    cbn [snd app emitted] in H; subst tr1; [|eexists; reflexivity].
  rewrite dispatch_appends.
  destruct (fst (dispatched requests (u "POST") (endpoint sh) (payload sh)
                   (Some (valves self)))) as [r|x];
    [|eexists; cbn [snd app]; reflexivity].
  set (tr2 := [Emit (status (start sh) false)] ++ _).
  assert (forall added, exists rest,
             tr2 ++ added = Emit (status (start sh) false) :: rest) as S
    by (intros added; eexists; reflexivity).
  clearbody tr2. unfold ret, lift.
  destruct (is_error r).
  - pose proof (emit_appends (Some f) (status (failed sh r) true) tr2) as H.
    destruct (emit (Some f) (status (failed sh r) true) tr2) as [[[]|e] tr3];
      cbn [snd] in H |- *; subst tr3; apply S.
  - destruct (completed sh r) as [description|x];
      [|destruct (S []) as [rest E]; rewrite app_nil_r in E; exists rest; exact E].
    pose proof (emit_appends (Some f) (status description true) tr2) as H.
    destruct (emit (Some f) (status description true) tr2) as [[[]|e] tr3];
      cbn [snd] in H |- *; subst tr3; [|apply S].
    destruct (for_each_appends (Some f) (cited sh r)
                (tr2 ++ emitted (Some f) (status description true)))
      as [added H].
    destruct (for_each (cited sh r) (emit (Some f))
                (tr2 ++ emitted (Some f) (status description true)))
      as [[[]|e] tr4]; cbn [snd] in H |- *; subst tr4;
      rewrite <- app_assoc; apply S.
Qed.

Lemma preview_bound (query : str) :
  (List.length (preview query) <= 103)%nat
  /\ ((List.length query <= 100)%nat -> preview query = query)
  /\ ((100 < List.length query)%nat -> preview query = firstn 100 query ++ u "...").
Proof.
  unfold preview. destruct (Nat.ltb_spec 100 (List.length query)) as [H|H].
  - split; [|split; [lia | reflexivity]].
    rewrite length_app, length_firstn.
    replace (List.length (u "...")) with 3%nat by (vm_compute; reflexivity). lia.
  - split; [lia|]. split; [reflexivity | lia].
Qed.

(** The two operations that run a query. *)
Definition query_call (rds : bool) (query : str) : tool_call :=
  if rds then Read_rds_query query else Read_athena_query query.

(** X12.  The start status of [read_athena_query] and of
    [read_rds_query] is emitted first, however the emitter answers, and
    shows the query itself up to 100 code points and otherwise its first
    100 code points followed by three dots: never more than 103. *)
Theorem query_preview_is_bounded (self : Tools) (rds : bool) (query : str)
  (f : emitter) :
  exists shown,
    hd_error (events (snd (run requests self (query_call rds query) (Some f))))
    = Some (status ((if rds then u "🐘 Executing PostgreSQL query: "
                     else u "🔍 Executing Athena query: ") ++ shown) false)
    /\ (List.length shown <= 103)%nat
    /\ ((List.length query <= 100)%nat -> shown = query)
    /\ ((100 < List.length query)%nat -> shown = firstn 100 query ++ u "...").
Proof.
  exists (preview query). split; [|apply preview_bound].
  unfold run. rewrite invoke_run_shape.
  destruct (run_shape_starts (shape_of (query_call rds query)) self f) as [rest ->].
  destruct rds; reflexivity.
Qed.



(** The operations whose terminal status shows one field of a dict
    response: the key, and what is shown for a response without it. *)
Definition reported_field (c : tool_call) : option (str * pyval) :=
  match c with
  | Read_athena_query _ | Read_rds_query _ => Some (u "row_count", PStr (u "unknown"))
  | Get_organization_details identifier _ => Some (u "name", PStr identifier)
  | Fetch_knowledge_page uuid | Get_document_details uuid => Some (u "title", PStr uuid)
  | _ => None
  end.

(** X14.  The two query operations show in their terminal status the
    ["row_count"] of a dict response, [get_organization_details] its
    ["name"], [fetch_knowledge_page] and [get_document_details] its
    ["title"]: the decimal digits of an integer, a string as it is, [str]
    of another value; for a dict without the key, and for a response that
    is no dict, they show [unknown], the identifier and the uuid the
    caller gave.  The text around it does not depend on the response. *)
Theorem result_field_is_reported (c : tool_call) (key : str) (default : pyval) :
  reported_field c = Some (key, default) ->
  exists before after,
    forall (self : Tools) (f : emitter) (r : pyval),
      (forall t ev, f t ev = None) ->
      response_to requests self c = Returns r ->
      is_error r = false ->
      exists start_text,
        events (snd (run requests self c (Some f)))
        = status start_text false
            :: status (before
                         ++ match match r with
                                  | PDict d => dict_get d key default
                                  | _ => default
                                  end with
                            | PInt n => u (NilZero.string_of_int (Z.to_int n))
                            | PStr text => text
                            | v => py_str v
                            end
                         ++ after) true
            :: cited (shape_of c) r.
Proof.
  intros F.
  assert (exists before after,
             forall r, completed (shape_of c) r
                       = Returns (before ++ py_str (field_of r key default) ++ after))
    as (before & after & Cm)
    by (destruct c; try discriminate; injection F as <- <-;
        cbn [shape_of completed];
        first [ do 2 eexists; intros r; reflexivity
              | eexists; exists []; intros r; rewrite app_nil_r; reflexivity ]).
  exists before, after. intros self f r A R E.
  rewrite (run_benign requests self c (benign_accepting A)), full_post.
  rewrite response_to_answer in R. rewrite R, E, Cm.
  exists (start (shape_of c)). cbn [snd emitted app].
  rewrite events_emit, events_http_cons, events_emit, events_flat_emitted.
  assert (py_str (field_of r key default)
          = match match r with
                  | PDict d => dict_get d key default
                  | _ => default
                  end with
            | PInt n => u (NilZero.string_of_int (Z.to_int n))
            | PStr text => text
            | v => py_str v
            end) as Shown.
  { unfold field_of. destruct r; cbn [isinstance_dict get];
      match goal with |- py_str ?v = _ => destruct v end; reflexivity. }
  rewrite Shown. reflexivity.
Qed.

(** *** The citations of the knowledge operations *)

Definition knowledge_operation (c : tool_call) : bool :=
  match c with
  | Semantic_search_knowledge _ _ _ _ _ => true
  | Keyword_search_knowledge _ _ _ _ _ => true
  | Fetch_knowledge_page _ => true
  | _ => false
  end.

(** The items of a response that these operations look at: the items of
    a list, and the response itself for [fetch_knowledge_page]. *)
Definition knowledge_items (c : tool_call) (r : pyval) : list pyval :=
  match c with
  | Fetch_knowledge_page _ => [r]
  | _ => match r with PList l => l | _ => [] end
  end.

Lemma cited_knowledge (c : tool_call) (r ev : pyval) :
  knowledge_operation c = true ->
  In ev (cited (shape_of c) r) ->
  exists d, In (PDict d) (knowledge_items c r) /\ ev = knowledge_citation (PDict d).
Proof.
  destruct c; try discriminate; intros _; cbn [shape_of cited knowledge_items];
    unfold cite_items, cite_dict; intros H.
  - destruct r; cbn [items_of flat_map] in H; try contradiction.
    apply in_flat_map in H as (item & I & H).
    destruct item; cbn [isinstance_dict] in H; try contradiction.
    destruct H as [<-|[]]. eauto.
  - destruct r; cbn [items_of flat_map] in H; try contradiction.
    apply in_flat_map in H as (item & I & H).
    destruct item; cbn [isinstance_dict] in H; try contradiction.
    destruct H as [<-|[]]. eauto.
  - destruct r; cbn [isinstance_dict] in H; try contradiction.
    destruct H as [<-|[]]. eexists. split; [now left | reflexivity].
Qed.

Lemma citation_title_citation (content title url : pyval) :
  citation_title (citation content title url) = title.
Proof. vm_compute. reflexivity. Qed.

Lemma citation_url_citation (content title url : pyval) :
  citation_url (citation content title url) = url.
Proof. vm_compute. reflexivity. Qed.

(** X15.  Every citation event of a knowledge operation, whatever the
    emitter does, comes from a dict among the items of a response that
    is not error-shaped: its content is the item's ["quotes"] (default
    the empty string), its title is ["Knowledge Page "] followed by the
    item's ["title"] (default ["Unknown"]), a string as it is and another
    value as [str] prints it, and its URL is the item's ["public_url"]
    (default the empty string). *)
Theorem knowledge_citations (self : Tools) (c : tool_call) (em : option emitter)
  (event : pyval) :
  knowledge_operation c = true ->
  In (Emit event) (snd (run requests self c em)) ->
  is_citation event = true ->
  exists r d,
    response_to requests self c = Returns r /\ is_error r = false
    /\ In (PDict d) (knowledge_items c r)
    /\ citation_content event = PList [dict_get d (u "quotes") (PStr (u ""))]
    /\ citation_title event
       = PStr (u "Knowledge Page "
                 ++ match dict_get d (u "title") (PStr (u "Unknown")) with
                    | PStr title => title
                    | v => py_str v
                    end)
    /\ citation_url event = dict_get d (u "public_url") (PStr (u "")).
Proof.
  intros K H C.
  destruct (citation_in_run self c em event H C) as (r & R & E & I).
  destruct (cited_knowledge c r event K I) as (d & D & ->).
  exists r, d. unfold knowledge_citation. cbn [get].
  rewrite citation_content_citation, citation_title_citation, citation_url_citation.
  repeat split; try assumption.
  destruct (dict_get d (u "title") (PStr (u "Unknown"))); reflexivity.
Qed.

(** *** The dispatcher *)

(** X16.  Whatever the method, the endpoint, the data and the valves,
    the dispatcher never lets a [requests.RequestException] through, and
    it adds at most one call to the trace. *)
Theorem dispatcher_contains_request_exceptions (method endpoint : str)
  (data : pyval) (v : option Valves) (tr : trace) :
  (forall e,
     fst (_make_api_request requests method endpoint data v tr) = Raises e ->
     isinstance_RequestException e = false)
  /\ exists added,
       snd (_make_api_request requests method endpoint data v tr) = tr ++ added
       /\ (List.length added <= 1)%nat /\ forallb is_http added = true.
Proof.
  destruct v as [v|].
  2:{ split; [intros e [= <-]; reflexivity|]. exists []. cbn.
      rewrite app_nil_r. auto. }
  destruct (str_eqb (upper method) (u "GET")) eqn:G.
  - apply str_eqb_eq in G. rewrite (dispatch_get requests method endpoint data v tr G).
    split; [intros e H; now apply answer_raises in H|].
    eexists. split; [reflexivity|]. split; [apply Nat.le_refl | reflexivity].
  - destruct (str_eqb (upper method) (u "POST")) eqn:P.
    + apply str_eqb_eq in P.
      rewrite (dispatch_post requests method endpoint data v tr P).
      split; [intros e H; now apply answer_raises in H|].
      eexists. split; [reflexivity|]. split; [apply Nat.le_refl | reflexivity].
    + unfold _make_api_request, getattr_api_key, try_except, bind, ret, lift.
      rewrite G, P. split; [discriminate|]. exists []. cbn.
      rewrite app_nil_r. auto.
Qed.

(** *** The requests *)

(** X17.  Whatever the emitter does, an operation calls [requests] at
    most once, and what it sends is a POST to a path under
    [https://api.lvcdev.com] with a JSON body, the JSON content type and
    the bearer header built from the key of the instance's valves, which
    is sent as it is, empty or not. *)
Theorem requests_go_to_the_api (self : Tools) (c : tool_call)
  (em : option emitter) :
  (List.length (calls (snd (run requests self c em))) <= 1)%nat
  /\ forall r,
       In r (calls (snd (run requests self c em))) ->
       verb r = POST
       /\ (exists path, url r = u "https://api.lvcdev.com" ++ path)
       /\ headers r = [(u "Authorization", u "Bearer " ++ api_key (valves self));
                       (u "Content-Type", u "application/json")]
       /\ exists data, body r = Some data.
Proof.
  destruct (run_prefix requests self c em) as [rest P].
  apply (f_equal calls) in P. rewrite calls_app, calls_full in P.
  destruct (calls (snd (run requests self c em))) as [|x [|y l]].
  - split; [apply Nat.le_0_l | intros r []].
  - injection P as <- _. split; [apply Nat.le_refl|].
    intros r [<-|[]]. unfold post_request, api_headers. cbn [verb url headers body].
    repeat split; eexists; reflexivity.
  - discriminate P.
Qed.

End FurtherTools.

(** * Further properties of the Langfuse helpers *)

Section FurtherLangfuse.

Variable LANGFUSE_SECRET_KEY LANGFUSE_PUBLIC_KEY LANGFUSE_HOST : option str.
Variable get_prompt_compile : Langfuse -> str -> outcome str.

(** The client that [get_langfuse_client] builds from the settings. *)
Definition configured_client : Langfuse :=
  {| secret_key := LANGFUSE_SECRET_KEY;
     public_key := LANGFUSE_PUBLIC_KEY;
     host := LANGFUSE_HOST |}.

(** The cached client, when there is one, is the configured one. *)
Definition cached_is_configured (s : module_state) : Prop :=
  match _langfuse_client s with
  | Some client => client = configured_client
  | None => True
  end.

Lemma get_langfuse_client_configured (s : module_state) :
  cached_is_configured s ->
  cached_is_configured
    (snd (get_langfuse_client LANGFUSE_SECRET_KEY LANGFUSE_PUBLIC_KEY LANGFUSE_HOST s)).
Proof.
  unfold cached_is_configured, get_langfuse_client.
  destruct (_langfuse_client s) as [client|] eqn:C; cbn [snd].
  - now rewrite C.
  - intros _.
    destruct (negb (truthy LANGFUSE_SECRET_KEY) || negb (truthy LANGFUSE_PUBLIC_KEY));
      cbn [snd logging _langfuse_client]; [now rewrite C | reflexivity].
Qed.

Lemma get_trace_url_state (sp : span) (s : module_state) :
  _langfuse_client (snd (get_trace_url_from_span LANGFUSE_HOST sp s))
  = _langfuse_client s
  /\ constructed (snd (get_trace_url_from_span LANGFUSE_HOST sp s)) = constructed s.
Proof.
  unfold get_trace_url_from_span.
  destruct (trace_id sp) as [id|e].
  - destruct LANGFUSE_HOST; [destruct (py_truthy id && _)|]; now split.
  - destruct (isinstance_Exception e); now split.
Qed.

Lemma get_prompt_state (name : str) (s : module_state) :
  snd (get_prompt LANGFUSE_SECRET_KEY LANGFUSE_PUBLIC_KEY LANGFUSE_HOST
         get_prompt_compile name s)
  = snd (get_langfuse_client LANGFUSE_SECRET_KEY LANGFUSE_PUBLIC_KEY LANGFUSE_HOST s).
Proof.
  unfold get_prompt.
  now destruct (get_langfuse_client _ _ _ s) as [[client|e] s'].
Qed.

Lemma reachable_cached_is_configured (s : module_state) :
  reachable LANGFUSE_SECRET_KEY LANGFUSE_PUBLIC_KEY LANGFUSE_HOST get_prompt_compile s ->
  cached_is_configured s.
Proof.
  induction 1 as [|s _ IH|s sp _ IH|s name _ IH].
  - exact I.
  - now apply get_langfuse_client_configured.
  - unfold cached_is_configured. now rewrite (proj1 (get_trace_url_state sp s)).
  - rewrite get_prompt_state. now apply get_langfuse_client_configured.
Qed.

(** What [get_langfuse_client] does in a state the module can reach, with
    both keys set. *)
Lemma get_langfuse_client_with_keys (s : module_state) :
  reachable LANGFUSE_SECRET_KEY LANGFUSE_PUBLIC_KEY LANGFUSE_HOST get_prompt_compile s ->
  truthy LANGFUSE_SECRET_KEY = true -> truthy LANGFUSE_PUBLIC_KEY = true ->
  exists s',
    get_langfuse_client LANGFUSE_SECRET_KEY LANGFUSE_PUBLIC_KEY LANGFUSE_HOST s
    = (Returns configured_client, s')
    /\ _langfuse_client s' = Some configured_client
    /\ constructed s' = [configured_client].
Proof.
  intros R S P.
  pose proof (reachable_cached_is_configured R) as Q.
  apply reachable_client_has_keys in R.
  unfold cached_is_configured in Q. unfold client_has_keys in R.
  unfold get_langfuse_client.
  destruct (_langfuse_client s) as [client|] eqn:C.
  - subst client. destruct R as (_ & _ & R). exists s. auto.
  - rewrite S, P. cbn [negb orb]. eexists. split; [reflexivity|].
    cbn [logging _langfuse_client constructed]. rewrite R. split; reflexivity.
Qed.

(** X18.  The module holds at most one client.  In every state it can
    reach at most one client has been constructed; a cached client is
    the one built from the three settings and is returned again with the
    state left as it is; and with both keys set a call returns that
    client and leaves it cached, so that a second call constructs and
    logs nothing. *)
Theorem client_is_built_once (s : module_state) :
  reachable LANGFUSE_SECRET_KEY LANGFUSE_PUBLIC_KEY LANGFUSE_HOST get_prompt_compile s ->
  (List.length (constructed s) <= 1)%nat
  /\ (forall client,
        _langfuse_client s = Some client ->
        client = configured_client /\ constructed s = [client]
        /\ get_langfuse_client LANGFUSE_SECRET_KEY LANGFUSE_PUBLIC_KEY LANGFUSE_HOST s
           = (Returns client, s))
  /\ (truthy LANGFUSE_SECRET_KEY = true -> truthy LANGFUSE_PUBLIC_KEY = true ->
      exists s',
        get_langfuse_client LANGFUSE_SECRET_KEY LANGFUSE_PUBLIC_KEY LANGFUSE_HOST s
        = (Returns configured_client, s')
        /\ constructed s' = [configured_client]
        /\ get_langfuse_client LANGFUSE_SECRET_KEY LANGFUSE_PUBLIC_KEY LANGFUSE_HOST s'
           = (Returns configured_client, s')).
Proof.
  intros R. split; [|split].
  - apply reachable_client_has_keys in R. unfold client_has_keys in R.
    destruct (_langfuse_client s) as [client|].
    + destruct R as (_ & _ & ->). apply Nat.le_refl.
    + rewrite R. apply Nat.le_0_l.
  - intros client C.
    pose proof (reachable_cached_is_configured R) as Q.
    apply reachable_client_has_keys in R.
    unfold cached_is_configured in Q. unfold client_has_keys in R.
    unfold get_langfuse_client. rewrite C in *.
    destruct R as (_ & _ & R). auto.
  - intros S P.
    destruct (get_langfuse_client_with_keys R S P) as (s' & G & C & K).
    exists s'. split; [exact G|]. split; [exact K|].
    unfold get_langfuse_client. now rewrite C.
Qed.

(** X19.  With both keys set, in every state the module can reach,
    [get_prompt] returns or raises what [get_prompt(name).compile()] of
    the SDK does on the client built from the settings, and leaves that
    client cached. *)
Theorem get_prompt_uses_configured_client (s : module_state) (prompt_name : str) :
  reachable LANGFUSE_SECRET_KEY LANGFUSE_PUBLIC_KEY LANGFUSE_HOST get_prompt_compile s ->
  truthy LANGFUSE_SECRET_KEY = true -> truthy LANGFUSE_PUBLIC_KEY = true ->
  fst (get_prompt LANGFUSE_SECRET_KEY LANGFUSE_PUBLIC_KEY LANGFUSE_HOST
         get_prompt_compile prompt_name s)
  = get_prompt_compile configured_client prompt_name
  /\ _langfuse_client
       (snd (get_prompt LANGFUSE_SECRET_KEY LANGFUSE_PUBLIC_KEY LANGFUSE_HOST
               get_prompt_compile prompt_name s))
     = Some configured_client
  /\ constructed
       (snd (get_prompt LANGFUSE_SECRET_KEY LANGFUSE_PUBLIC_KEY LANGFUSE_HOST
               get_prompt_compile prompt_name s))
     = [configured_client].
Proof.
  intros R S P.
  destruct (get_langfuse_client_with_keys R S P) as (s' & G & C & K).
  unfold get_prompt. rewrite G. cbn [fst snd]. auto.
Qed.

(** X20.  [get_trace_url_from_span] never touches the client: the global
    and the clients constructed stay as they are.  It lets no
    [Exception] through: an exception that leaves it is one that reading
    [trace_id] raised and is no [Exception]; for an [Exception] raised
    there it returns [None] and writes one warning with the message;
    where [trace_id] can be read it changes nothing at all. *)
Theorem trace_url_is_safe (sp : span) (s : module_state) :
  (_langfuse_client (snd (get_trace_url_from_span LANGFUSE_HOST sp s))
   = _langfuse_client s
   /\ constructed (snd (get_trace_url_from_span LANGFUSE_HOST sp s)) = constructed s)
  /\ (forall e,
        fst (get_trace_url_from_span LANGFUSE_HOST sp s) = Raises e ->
        trace_id sp = Raises e /\ isinstance_Exception e = false)
  /\ (forall e,
        trace_id sp = Raises e -> isinstance_Exception e = true ->
        fst (get_trace_url_from_span LANGFUSE_HOST sp s) = Returns None
        /\ log (snd (get_trace_url_from_span LANGFUSE_HOST sp s))
           = log s ++ [(u "WARNING",
                        u "Failed to get trace URL from span: " ++ exc_str e)])
  /\ (forall id,
        trace_id sp = Returns id ->
        snd (get_trace_url_from_span LANGFUSE_HOST sp s) = s).
Proof.
  split; [apply get_trace_url_state|].
  unfold get_trace_url_from_span. split; [|split].
  - intros e. destruct (trace_id sp) as [id|x].
    + destruct LANGFUSE_HOST; [destruct (py_truthy id && _)|]; discriminate.
    + destruct (isinstance_Exception x) eqn:I; [discriminate|].
      intros [= <-]. now split.
  - intros e -> ->. split; reflexivity.
  - intros id ->. destruct LANGFUSE_HOST; [destruct (py_truthy id && _)|]; reflexivity.
Qed.

(** X21.  A URL is returned only for a truthy [trace_id] and a non-empty
    host, and then it is the host up to its trailing slashes, which are
    dropped however many there are, then ["/trace/"] and [str] of the
    trace id. *)
Theorem trace_url_inversion (sp : span) (s : module_state) (url : str) :
  fst (get_trace_url_from_span LANGFUSE_HOST sp s) = Returns (Some url) ->
  exists h id stem n,
    LANGFUSE_HOST = Some h /\ h <> []
    /\ trace_id sp = Returns id /\ py_truthy id = true
    /\ h = stem ++ repeat slash n
    /\ (forall p, stem <> p ++ [slash])
    /\ url = stem ++ u "/trace/" ++ py_str id.
Proof.
  unfold get_trace_url_from_span.
  destruct (trace_id sp) as [id|e];
    [|destruct (isinstance_Exception e); discriminate].
  destruct LANGFUSE_HOST as [h|]; [|discriminate].
  destruct (py_truthy id) eqn:T; [|discriminate].
  destruct h as [|c h]; [discriminate|].
  cbn [truthy andb fst]. intros [= <-].
  destruct (rstrip_slash_spec (c :: h)) as [[n E] N].
  exists (c :: h), id, (rstrip_slash (c :: h)), n.
  repeat split; try assumption; discriminate.
Qed.

End FurtherLangfuse.

(** ** Concrete runs of the further properties *)

(** [Tools.__init__]: the valves with their default, the empty key.  The
    attribute [citation] that [tools/investor.py] sets besides is read by
    no operation. *)
Definition __init__ : Tools := {| valves := {| api_key := u "" |} |}.

Example default_key_is_sent :
  calls (snd (run (answering PNone) __init__ (Get_document_details (u "d1")) None))
  = [Request POST (u "https://api.lvcdev.com/investor/document-details")
       [(u "Authorization", u "Bearer "); (u "Content-Type", u "application/json")]
       (Some (PDict [(u "uuid", PStr (u "d1"))]))].
Proof. vm_compute. reflexivity. Qed.

(** A transcript search answered with two dicts around a number, the
    second dict empty, and then with an error-shaped response. *)
Definition quoted : list pyval :=
  [PDict [(u "quotes", PStr (u "q")); (u "citation", PStr (u "AAPL Q1"))];
   PInt 1; PDict []].

Lemma citations_follow_success_witness :
  citations (snd (run (answering (PList quoted)) tools
                    (Semantic_search_transcripts (u "ai") (u "balanced") (u "30")
                       None None None None None true)
                    (Some accepting_emitter)))
  = [PDict [(u "type", PStr (u "citation"));
            (u "data",
             PDict [(u "document", PList [PStr (u "q")]);
                    (u "source",
                     PDict [(u "name", PStr (u "AAPL Q1"));
                            (u "url", PStr (u "https://levelvc.com"))])])];
     PDict [(u "type", PStr (u "citation"));
            (u "data",
             PDict [(u "document", PList [PStr (u "")]);
                    (u "source",
                     PDict [(u "name", PStr (u ""));
                            (u "url", PStr (u "https://levelvc.com"))])])]]
  /\ citations (snd (run (answering (PDict [(u "error", PStr (u "denied"))])) tools
                       (Semantic_search_transcripts (u "ai") (u "balanced") (u "30")
                          None None None None None true)
                       (Some accepting_emitter)))
     = [].
Proof.
  split.
  - rewrite (proj1 (proj2 (@citations_follow_success (answering (PList quoted)) tools
                             (Semantic_search_transcripts (u "ai") (u "balanced")
                                (u "30") None None None None None true)))
               accepting_emitter (PList quoted)).
    + vm_compute. reflexivity.
    + apply benign_accepting. intros t ev. reflexivity.
    + vm_compute. reflexivity.
  - rewrite (proj1 (proj2 (@citations_follow_success
                             (answering (PDict [(u "error", PStr (u "denied"))]))
                             tools
                             (Semantic_search_transcripts (u "ai") (u "balanced")
                                (u "30") None None None None None true)))
               accepting_emitter (PDict [(u "error", PStr (u "denied"))])).
    + vm_compute. reflexivity.
    + apply benign_accepting. intros t ev. reflexivity.
    + vm_compute. reflexivity.
Defined.

(** A keyword search answered with a dict that has quotes and no
    citation and an empty dict, and the details of a transcript that has
    a citation and no quotes. *)
Lemma transcript_citations_witness :
  citations (snd (run (answering (PList [PDict [(u "quotes", PStr (u "q"))];
                                         PDict []])) tools
                    (Keyword_search_transcripts (u "margin") (u "25") None None None
                       None None (u "any") true)
                    (Some accepting_emitter)))
  = [PDict [(u "type", PStr (u "citation"));
            (u "data",
             PDict [(u "document", PList [PStr (u "q")]);
                    (u "source",
                     PDict [(u "name", PStr (u ""));
                            (u "url", PStr (u "https://levelvc.com"))])])];
     PDict [(u "type", PStr (u "citation"));
            (u "data",
             PDict [(u "document", PList [PStr (u "")]);
                    (u "source",
                     PDict [(u "name", PStr (u ""));
                            (u "url", PStr (u "https://levelvc.com"))])])]]
  /\ citations (snd (run (answering (PDict [(u "citation", PStr (u "AAPL Q1 2024"))]))
                       tools (Get_transcript_details (u "aapl") (u "2024") (u "q1"))
                       (Some accepting_emitter)))
     = [PDict [(u "type", PStr (u "citation"));
               (u "data",
                PDict [(u "document", PList [PStr (u "")]);
                       (u "source",
                        PDict [(u "name", PStr (u "AAPL Q1 2024"));
                               (u "url", PStr (u "https://levelvc.com"))])])]].
Proof.
  split.
  - rewrite (proj1 (proj2 (@transcript_citations
                             (answering (PList [PDict [(u "quotes", PStr (u "q"))];
                                                PDict []])) tools
                             (Keyword_search_transcripts (u "margin") (u "25") None
                                None None None None (u "any") true) eq_refl))
               accepting_emitter
               (PList [PDict [(u "quotes", PStr (u "q"))]; PDict []])).
    + vm_compute. reflexivity.
    + apply benign_accepting. intros t ev. reflexivity.
    + vm_compute. reflexivity.
  - rewrite (proj1 (proj2 (@transcript_citations
                             (answering (PDict [(u "citation",
                                                 PStr (u "AAPL Q1 2024"))])) tools
                             (Get_transcript_details (u "aapl") (u "2024") (u "q1"))
                             eq_refl))
               accepting_emitter (PDict [(u "citation", PStr (u "AAPL Q1 2024"))])).
    + vm_compute. reflexivity.
    + apply benign_accepting. intros t ev. reflexivity.
    + vm_compute. reflexivity.
Defined.

Lemma returning_run_trace_witness :
  exists start_text request end_text cits,
    snd (run (answering (PDict [(u "row_count", PInt 3)])) tools
           (Read_athena_query (u "SELECT 1")) (Some accepting_emitter))
    = Emit (status start_text false) :: Http request
        :: Emit (status end_text true) :: map Emit cits
    /\ verb request = POST
    /\ forallb is_citation cits = true
    /\ response_to (answering (PDict [(u "row_count", PInt 3)])) tools
         (Read_athena_query (u "SELECT 1"))
       = Returns (PDict [(u "row_count", PInt 3)]).
Proof.
  apply (@returning_run_trace (answering (PDict [(u "row_count", PInt 3)])) tools
           (Read_athena_query (u "SELECT 1")) accepting_emitter
           (PDict [(u "row_count", PInt 3)])
           (snd (run (answering (PDict [(u "row_count", PInt 3)])) tools
                   (Read_athena_query (u "SELECT 1")) (Some accepting_emitter)))).
  - intros t ev. reflexivity.
  - vm_compute. reflexivity.
Defined.

Lemma response_passes_through_witness :
  fst (run (raising (Exc ValueError (u "bad"))) tools
         (Read_rds_query (u "SELECT 1")) None)
  = response_to (raising (Exc ValueError (u "bad"))) tools
      (Read_rds_query (u "SELECT 1")).
Proof.
  apply (@response_passes_through (raising (Exc ValueError (u "bad"))) tools
           (Read_rds_query (u "SELECT 1")) None).
  - intros f tr ev e H. discriminate H.
  - intros table_name H. discriminate H.
Defined.

Lemma get_athena_table_info_outcome_witness :
  (is_error (PDict [(u "columns", PNone)]) = true
   \/ isinstance_dict (PDict [(u "columns", PNone)]) = false
   \/ has_len (get (PDict [(u "columns", PNone)]) (u "columns") (PList [])) = true ->
   fst (get_athena_table_info (answering (PDict [(u "columns", PNone)])) tools
          (u "trades") (Some accepting_emitter) [])
   = Returns (PDict [(u "columns", PNone)]))
  /\ (forall e,
        is_error (PDict [(u "columns", PNone)]) = false ->
        isinstance_dict (PDict [(u "columns", PNone)]) = true ->
        py_len (get (PDict [(u "columns", PNone)]) (u "columns") (PList []))
        = Raises e ->
        fst (get_athena_table_info (answering (PDict [(u "columns", PNone)])) tools
               (u "trades") (Some accepting_emitter) [])
        = Raises e
        /\ exc_type e = TypeError
        /\ events (snd (get_athena_table_info
                          (answering (PDict [(u "columns", PNone)])) tools
                          (u "trades") (Some accepting_emitter) []))
           = [status (u "📊 Fetching table schema for " ++ u "trades") false])
  /\ (is_error (PDict [(u "columns", PNone)]) = false ->
      isinstance_dict (PDict [(u "columns", PNone)]) = true ->
      key_in (u "columns") (PDict [(u "columns", PNone)]) = false ->
      events (snd (get_athena_table_info
                     (answering (PDict [(u "columns", PNone)])) tools
                     (u "trades") (Some accepting_emitter) []))
      = [status (u "📊 Fetching table schema for " ++ u "trades") false;
         status (u "✅ Successfully fetched schema for " ++ u "trades"
                   ++ u " - 0 columns") true]).
Proof.
  apply (@get_athena_table_info_outcome (answering (PDict [(u "columns", PNone)]))
           tools (u "trades") accepting_emitter (PDict [(u "columns", PNone)])).
  - intros t ev. reflexivity.
  - vm_compute. reflexivity.
Defined.

Lemma transport_failure_is_reported_witness :
  fst (run (raising (Exc ConnectionError (u "refused"))) tools
         (Read_rds_query (u "SELECT 1")) (Some accepting_emitter))
  = Returns (PDict [(u "error",
                     PStr (u "API request failed: "
                             ++ exc_str (Exc ConnectionError (u "refused"))))])
  /\ exists start_text text,
       events (snd (run (raising (Exc ConnectionError (u "refused"))) tools
                      (Read_rds_query (u "SELECT 1")) (Some accepting_emitter)))
       = [status start_text false;
          status (u "❌ " ++ text ++ u "API request failed: "
                    ++ exc_str (Exc ConnectionError (u "refused"))) true].
Proof.
  apply (@transport_failure_is_reported (raising (Exc ConnectionError (u "refused")))
           tools (Read_rds_query (u "SELECT 1")) accepting_emitter
           (Exc ConnectionError (u "refused"))).
  - intros t ev. reflexivity.
  - intros r. reflexivity.
  - reflexivity.
Defined.

(** An error-shaped response whose error is a list holding the
    ideographic space, which [str] prints escaped. *)
Lemma error_response_is_reported_witness :
  fst (run (answering (PDict [(u "error", PList [PStr [12288%N]])])) tools
         (Fetch_knowledge_page (u "p1")) (Some accepting_emitter))
  = Returns (PDict [(u "error", PList [PStr [12288%N]])])
  /\ exists start_text text,
       events (snd (run (answering (PDict [(u "error", PList [PStr [12288%N]])]))
                      tools (Fetch_knowledge_page (u "p1")) (Some accepting_emitter)))
       = [status start_text false;
          status (u "❌ " ++ text ++ u "['\u3000']") true].
Proof.
  replace (u "['\u3000']")
    with (match dict_get [(u "error", PList [PStr [12288%N]])] (u "error")
                  (PStr (u "Unknown error")) with
          | PStr message => message
          | v => py_str v
          end)
    by (vm_compute; reflexivity).
  apply (@error_response_is_reported
           (answering (PDict [(u "error", PList [PStr [12288%N]])])) tools
           (Fetch_knowledge_page (u "p1")) accepting_emitter
           [(u "error", PList [PStr [12288%N]])]).
  - intros t ev. reflexivity.
  - vm_compute. reflexivity.
  - vm_compute. reflexivity.
Defined.

Lemma one_citation_per_dict_item_witness :
  citations
    (snd (run (answering (PList [PDict [(u "quotes", PStr (u "q"))]; PInt 1;
                                 PDict []])) tools
            (Semantic_search_knowledge (u "ai") (u "balanced") (u "30") None true)
            (Some accepting_emitter)))
  = map knowledge_citation
      (filter isinstance_dict [PDict [(u "quotes", PStr (u "q"))]; PInt 1; PDict []]).
Proof.
  apply (@one_citation_per_dict_item
           (answering (PList [PDict [(u "quotes", PStr (u "q"))]; PInt 1; PDict []]))
           tools
           (Semantic_search_knowledge (u "ai") (u "balanced") (u "30") None true)
           accepting_emitter knowledge_citation
           [PDict [(u "quotes", PStr (u "q"))]; PInt 1; PDict []]).
  - reflexivity.
  - intros t ev. reflexivity.
  - vm_compute. reflexivity.
Defined.

Lemma no_citation_from_plain_operations_witness :
  citations
    (snd (run (answering (PList [PDict [(u "quotes", PStr (u "q"))]])) tools
            (Search_documents (u "ai") (u "balanced") (u "30") None None true)
            (Some (failing_emitter (Exc RuntimeError (u "closed"))))))
  = [].
Proof.
  apply (@no_citation_from_plain_operations
           (answering (PList [PDict [(u "quotes", PStr (u "q"))]])) tools
           (Search_documents (u "ai") (u "balanced") (u "30") None None true)
           (Some (failing_emitter (Exc RuntimeError (u "closed"))))).
  reflexivity.
Defined.

Lemma one_citation_per_dict_response_witness :
  citations
    (snd (run (answering (PDict [(u "citation", PStr (u "AAPL Q1 2024"))])) tools
            (Get_transcript_details (u "aapl") (u "2024") (u "q1"))
            (Some accepting_emitter)))
  = if isinstance_dict (PDict [(u "citation", PStr (u "AAPL Q1 2024"))])
    then [transcript_citation (PDict [(u "citation", PStr (u "AAPL Q1 2024"))])]
    else [].
Proof.
  apply (@one_citation_per_dict_response
           (answering (PDict [(u "citation", PStr (u "AAPL Q1 2024"))])) tools
           (Get_transcript_details (u "aapl") (u "2024") (u "q1"))
           accepting_emitter transcript_citation
           (PDict [(u "citation", PStr (u "AAPL Q1 2024"))])).
  - reflexivity.
  - intros t ev. reflexivity.
  - vm_compute. reflexivity.
  - vm_compute. reflexivity.
Defined.

Lemma escaping_exceptions_witness :
  (exists f tr ev,
     @None emitter = Some f /\ f tr ev = Some (Exc ValueError (u "bad"))
     /\ isinstance_Exception (Exc ValueError (u "bad")) = false)
  \/ (transport_failure (raising (Exc ValueError (u "bad")))
        (request_of tools (Get_document_details (u "d1")))
      = Some (Exc ValueError (u "bad"))
      /\ isinstance_RequestException (Exc ValueError (u "bad")) = false)
  \/ (exists table_name r,
        Get_document_details (u "d1") = Get_athena_table_info table_name
        /\ response_to (raising (Exc ValueError (u "bad"))) tools
             (Get_document_details (u "d1")) = Returns r
        /\ py_len (get r (u "columns") (PList []))
           = Raises (Exc ValueError (u "bad"))
        /\ exc_type (Exc ValueError (u "bad")) = TypeError).
Proof.
  apply (@escaping_exceptions (raising (Exc ValueError (u "bad"))) tools
           (Get_document_details (u "d1")) None (Exc ValueError (u "bad"))).
  vm_compute. reflexivity.
Defined.

Lemma aborted_start_sends_nothing_witness :
  fst (run (answering (PList [])) tools
         (List_recent_documents (u "10") None None)
         (Some (failing_emitter (Exc CancelledError (u "cancelled")))))
  = Raises (Exc CancelledError (u "cancelled"))
  /\ calls (snd (run (answering (PList [])) tools
                   (List_recent_documents (u "10") None None)
                   (Some (failing_emitter (Exc CancelledError (u "cancelled"))))))
     = []
  /\ exists description,
       events (snd (run (answering (PList [])) tools
                      (List_recent_documents (u "10") None None)
                      (Some (failing_emitter (Exc CancelledError (u "cancelled"))))))
       = [status description false].
Proof.
  apply (@aborted_start_sends_nothing (answering (PList [])) tools
           (List_recent_documents (u "10") None None)
           (failing_emitter (Exc CancelledError (u "cancelled")))
           (Exc CancelledError (u "cancelled"))).
  - intros ev. reflexivity.
  - reflexivity.
Defined.


(** [get_organization_details] answered with a name that is a list
    holding the ideographic space, which [str] prints escaped. *)
Lemma result_field_is_reported_witness :
  (exists before after,
     forall (self : Tools) (f : emitter) (r : pyval),
       (forall t ev, f t ev = None) ->
       response_to (answering (PDict [(u "name", PList [PStr [12288%N]])])) self
         (Get_organization_details (u "acme.com") (u "domain")) = Returns r ->
       is_error r = false ->
       exists start_text,
         events (snd (run (answering (PDict [(u "name", PList [PStr [12288%N]])]))
                        self (Get_organization_details (u "acme.com") (u "domain"))
                        (Some f)))
         = status start_text false
             :: status (before
                          ++ match match r with
                                   | PDict d =>
                                       dict_get d (u "name") (PStr (u "acme.com"))
                                   | _ => PStr (u "acme.com")
                                   end with
                             | PInt n => u (NilZero.string_of_int (Z.to_int n))
                             | PStr text => text
                             | v => py_str v
                             end
                          ++ after) true
             :: cited (shape_of (Get_organization_details (u "acme.com")
                                   (u "domain"))) r)
  /\ events (snd (run (answering (PDict [(u "name", PList [PStr [12288%N]])])) tools
                    (Get_organization_details (u "acme.com") (u "domain"))
                    (Some accepting_emitter)))
     = [status (u "🏢 Fetching organization details for acme.com (by domain)") false;
        status (u "✅ Successfully fetched details for ['\u3000']") true].
Proof.
  split.
  - apply (@result_field_is_reported
             (answering (PDict [(u "name", PList [PStr [12288%N]])]))
             (Get_organization_details (u "acme.com") (u "domain"))
             (u "name") (PStr (u "acme.com"))).
    reflexivity.
  - vm_compute. reflexivity.
Defined.

(** The response of the knowledge page used below, whose title is a list
    holding a zero-width space, and its citation event. *)
Definition page : dict :=
  [(u "title", PList [PStr [8203%N]]); (u "public_url", PStr (u "https://k/p1"))].

Definition page_citation : pyval :=
  PDict [(u "type", PStr (u "citation"));
         (u "data",
          PDict [(u "document", PList [PStr (u "")]);
                 (u "source",
                  PDict [(u "name", PStr (u "Knowledge Page ['\u200b']"));
                         (u "url", PStr (u "https://k/p1"))])])].

Lemma knowledge_citations_witness :
  exists r d,
    response_to (answering (PDict page)) tools (Fetch_knowledge_page (u "p1"))
    = Returns r
    /\ is_error r = false
    /\ In (PDict d) (knowledge_items (Fetch_knowledge_page (u "p1")) r)
    /\ citation_content page_citation
       = PList [dict_get d (u "quotes") (PStr (u ""))]
    /\ citation_title page_citation
       = PStr (u "Knowledge Page "
                 ++ match dict_get d (u "title") (PStr (u "Unknown")) with
                    | PStr title => title
                    | v => py_str v
                    end)
    /\ citation_url page_citation = dict_get d (u "public_url") (PStr (u "")).
Proof.
  apply (@knowledge_citations (answering (PDict page)) tools
           (Fetch_knowledge_page (u "p1")) (Some accepting_emitter) page_citation).
  - reflexivity.
  - vm_compute. do 3 right. left. reflexivity.
  - vm_compute. reflexivity.
Defined.

Lemma client_is_built_once_witness :
  (List.length (constructed initial) <= 1)%nat
  /\ (forall client,
        _langfuse_client initial = Some client ->
        client = configured_client (Some (u "sk")) (Some (u "pk"))
                   (Some (u "https://h"))
        /\ constructed initial = [client]
        /\ get_langfuse_client (Some (u "sk")) (Some (u "pk"))
             (Some (u "https://h")) initial
           = (Returns client, initial))
  /\ (truthy (Some (u "sk")) = true -> truthy (Some (u "pk")) = true ->
      exists s',
        get_langfuse_client (Some (u "sk")) (Some (u "pk"))
          (Some (u "https://h")) initial
        = (Returns (configured_client (Some (u "sk")) (Some (u "pk"))
                      (Some (u "https://h"))), s')
        /\ constructed s'
           = [configured_client (Some (u "sk")) (Some (u "pk"))
                (Some (u "https://h"))]
        /\ get_langfuse_client (Some (u "sk")) (Some (u "pk"))
             (Some (u "https://h")) s'
           = (Returns (configured_client (Some (u "sk")) (Some (u "pk"))
                         (Some (u "https://h"))), s')).
Proof.
  apply (@client_is_built_once (Some (u "sk")) (Some (u "pk"))
           (Some (u "https://h")) (fun _ _ => Returns (u "text")) initial).
  apply reach_initial.
Defined.

Lemma get_prompt_uses_configured_client_witness :
  fst (get_prompt (Some (u "sk")) (Some (u "pk")) (Some (u "https://h"))
         (fun client name => Returns (name ++ u " from " ++ py_str (opt (host client))))
         (u "greeting") initial)
  = Returns (u "greeting" ++ u " from "
               ++ py_str (opt (host (configured_client (Some (u "sk")) (Some (u "pk"))
                                       (Some (u "https://h"))))))
  /\ _langfuse_client
       (snd (get_prompt (Some (u "sk")) (Some (u "pk")) (Some (u "https://h"))
               (fun client name =>
                  Returns (name ++ u " from " ++ py_str (opt (host client))))
               (u "greeting") initial))
     = Some (configured_client (Some (u "sk")) (Some (u "pk"))
               (Some (u "https://h")))
  /\ constructed
       (snd (get_prompt (Some (u "sk")) (Some (u "pk")) (Some (u "https://h"))
               (fun client name =>
                  Returns (name ++ u " from " ++ py_str (opt (host client))))
               (u "greeting") initial))
     = [configured_client (Some (u "sk")) (Some (u "pk")) (Some (u "https://h"))].
Proof.
  apply (@get_prompt_uses_configured_client (Some (u "sk")) (Some (u "pk"))
           (Some (u "https://h"))
           (fun client name => Returns (name ++ u " from " ++ py_str (opt (host client))))
           initial (u "greeting")).
  - apply reach_initial.
  - vm_compute. reflexivity.
  - vm_compute. reflexivity.
Defined.

Lemma trace_url_inversion_witness :
  exists h id stem n,
    Some (u "https://h//") = Some h /\ h <> []
    /\ trace_id {| trace_id := Returns (PInt 7) |} = Returns id
    /\ py_truthy id = true
    /\ h = stem ++ repeat slash n
    /\ (forall p, stem <> p ++ [slash])
    /\ u "https://h/trace/7" = stem ++ u "/trace/" ++ py_str id.
Proof.
  apply (@trace_url_inversion (Some (u "https://h//"))
           {| trace_id := Returns (PInt 7) |} initial (u "https://h/trace/7")).
  vm_compute. reflexivity.
Defined.
